(** * The geo-editing session controller of myHouse (static map editor script)

    A shallow embedding of the client-side editor script: the response
    cache, the school filter, the overlay conversion in both directions,
    and the session state with its intent handlers.

    Conventions.
    - JavaScript values that travel as JSON are values of [json]; a property
      that is missing reads as [None] (JavaScript's [undefined]).
    - A JavaScript exception is an explicit [Raise]; the handlers' [try] /
      [catch] blocks are [try_catch].
    - [Date.now()], the network and the operator are the environment: the
      clock is a field of the state, a request consumes the next response of
      an input tape and is appended to the log of issued requests.
    - Every handler runs to completion before the next event is dispatched:
      overlapping asynchronous loads are outside this model.
    - No JSON object is ever mutated by the script (overlays are), so JSON
      values are compared by value.
    - Every element the script looks up is on the page, so its guards
      against a missing selector never fire; a selector is the set of the
      values of its options together with the selected value. *)

From stdpp Require Import gmap strings list pretty.
From Stdlib Require Import ZArith Lia Ascii.

Open Scope string_scope.
Open Scope Z_scope.

(** ** JSON values *)

#[warnings="-register-all"]
Inductive json : Type :=
| JNull
| JBool (b : bool)
| JNum (n : Z)
| JStr (s : string)
| JArr (items : list json)
| JObj (fields : list (string * json)).

(** Numbers are only stored, compared with zero and printed by the script;
    no arithmetic is done on them, so an integer stands for the literal. *)

Fixpoint assoc (k : string) (fs : list (string * json)) : option json :=
  match fs with
  | [] => None
  | (k', v) :: rest => if String.eqb k k' then Some v else assoc k rest
  end.

(** [v.k] for a non-null [v]: own properties of objects; primitives and
    arrays have none of the names the script reads this way. *)
Definition prop (v : json) (k : string) : option json :=
  match v with
  | JObj fs => assoc k fs
  | _ => None
  end.

(** [v?.k]: as [prop], and [undefined] on [null] as well. *)
Definition optprop (v : option json) (k : string) : option json :=
  match v with
  | Some JNull | None => None
  | Some v => prop v k
  end.

Definition truthy (v : json) : bool :=
  match v with
  | JNull => false
  | JBool b => b
  | JNum n => negb (n =? 0)
  | JStr s => negb (String.eqb s "")
  | JArr _ | JObj _ => true
  end.

Definition truthy_opt (v : option json) : bool :=
  match v with
  | Some v => truthy v
  | None => false
  end.

(** [a || b] on possibly undefined [a]. *)
Definition or_else (a : option json) (b : json) : json :=
  match a with
  | Some v => if truthy v then v else b
  | None => b
  end.

Definition is_str (v : option json) (s : string) : bool :=
  match v with
  | Some (JStr s') => String.eqb s' s
  | _ => false
  end.

(** String coercion, as done by template literals and by the DOM when a
    value is assigned to an option. *)
Fixpoint js_to_string (v : json) : string :=
  match v with
  | JNull => "null"
  | JBool true => "true"
  | JBool false => "false"
  | JNum n => pretty n
  | JStr s => s
  | JArr l =>
      String.concat ","
        (map (fun x => match x with JNull => "" | _ => js_to_string x end) l)
  | JObj _ => "[object Object]"
  end.

Definition to_string_opt (v : option json) : string :=
  match v with
  | Some v => js_to_string v
  | None => "undefined"
  end.

(** ** Exceptions *)

Inductive result (A : Type) : Type :=
| Ok (a : A)
| Throw (message : string).
Arguments Ok {A} a.
Arguments Throw {A} message.

(** The text of an engine-raised [TypeError] differs between engines. *)
Definition type_error : string := "TypeError".

(** ** The response cache *)

Definition CACHE_TTL_MS : Z := 5 * 60 * 1000.

Record entry : Type := Entry { ts : Z; data : json }.

Definition cacheGet (now : Z) (map : option (gmap string entry)) (key : string)
  : json * option (gmap string entry) :=
  match map with
  | None => (JNull, None)
  | Some m =>
      match m !! key with
      | None => (JNull, Some m)
      | Some e =>
          if now - ts e >? CACHE_TTL_MS
          then (JNull, Some (delete key m))
          else (data e, Some m)
      end
  end.

Definition cacheSet (now : Z) (map : option (gmap string entry)) (key : string)
    (d : json) : option (gmap string entry) :=
  match map with
  | None => None
  | Some m => Some (<[key := Entry now d]> m)
  end.

(** ** The school filter *)

Definition FeatureCollection (features : list json) : json :=
  JObj [("type", JStr "FeatureCollection"); ("features", JArr features)].

Definition has_school (schoolName : string) (f : json) : bool :=
  let props := or_else (optprop (Some f) "properties") (JObj []) in
  is_str (prop props "school_name") schoolName.

(** What the function hands back: its argument, or an object it built. *)
Inductive filtered : Type :=
| SameObject
| NewCollection (features : list json).

Definition filterGeoJSONBySchool_ref (geojson : json) (schoolName : string)
  : result filtered :=
  if negb (truthy geojson) || String.eqb schoolName "" then Ok SameObject
  else if negb (is_str (prop geojson "type") "FeatureCollection") then Ok SameObject
  else
    match or_else (prop geojson "features") (JArr []) with
    | JArr fs => Ok (NewCollection (List.filter (has_school schoolName) fs))
    | _ => Throw type_error
    end.

Definition filterGeoJSONBySchool (geojson : json) (schoolName : string)
  : result json :=
  match filterGeoJSONBySchool_ref geojson schoolName with
  | Ok SameObject => Ok geojson
  | Ok (NewCollection fs) => Ok (FeatureCollection fs)
  | Throw m => Throw m
  end.

(** The test the function itself applies to tell a FeatureCollection. *)
Definition is_FeatureCollection (geojson : json) : bool :=
  truthy geojson && is_str (prop geojson "type") "FeatureCollection".

(** The data model of the collection: its [features] member is the array
    [fs] (a member that is absent or falsy reads as the empty array). *)
Definition features_listed (geojson : json) (fs : list json) : Prop :=
  or_else (prop geojson "features") (JArr []) = JArr fs.

(** ** Overlays of the map surface

    The mapping SDK is an external collaborator. An overlay is what the
    script can observe of it: its class ([instanceof]), what [getPosition] or
    [getPath] returns, its [extData], and whether a marker is draggable.
    Styling options (colours, opacity, marker content) are presentation only
    and are left out. The constructors are handed GeoJSON coordinates; the
    model accepts positions [[lng, lat, ...]], lists of positions and lists
    of rings, and raises [sdk_error] on anything else. *)

Record LngLat : Type := mkLngLat { lng : Z; lat : Z }.

Inductive polygon_path : Type :=
| FlatPath (ring : list LngLat)
| RingPath (rings : list (list LngLat)).

Inductive overlay : Type :=
| Marker (position : LngLat) (draggable : bool) (extData : json)
| Polyline (path : list LngLat) (extData : json)
| Polygon (path : polygon_path) (extData : json).

Definition getExtData (o : overlay) : json :=
  match o with
  | Marker _ _ e | Polyline _ e | Polygon _ e => e
  end.

Definition sdk_error : string := "Invalid Object: LngLat".

Definition position_of (v : option json) : option LngLat :=
  match v with
  | Some (JArr (JNum a :: JNum b :: _)) => Some (mkLngLat a b)
  | _ => None
  end.

Fixpoint all_some {A B : Type} (f : A -> option B) (l : list A) : option (list B) :=
  match l with
  | [] => Some []
  | x :: rest =>
      match f x, all_some f rest with
      | Some y, Some ys => Some (y :: ys)
      | _, _ => None
      end
  end.

Definition path_of (v : option json) : option (list LngLat) :=
  match v with
  | Some (JArr l) => all_some (fun p => position_of (Some p)) l
  | _ => None
  end.

Definition rings_of (v : option json) : option (list (list LngLat)) :=
  match v with
  | Some (JArr l) => all_some (fun r => path_of (Some r)) l
  | _ => None
  end.

Definition polygon_path_of (v : option json) : option polygon_path :=
  match rings_of v with
  | Some rs => Some (RingPath rs)
  | None =>
      match path_of v with
      | Some r => Some (FlatPath r)
      | None => None
      end
  end.

Definition new_Marker (position : option json) (extData : json) : result overlay :=
  match position_of position with
  | Some p => Ok (Marker p false extData)
  | None => Throw sdk_error
  end.

Definition new_Polyline (path : option json) (extData : json) : result overlay :=
  match path_of path with
  | Some p => Ok (Polyline p extData)
  | None => Throw sdk_error
  end.

Definition new_Polygon (path : option json) (extData : json) : result overlay :=
  match polygon_path_of path with
  | Some p => Ok (Polygon p extData)
  | None => Throw sdk_error
  end.

(** [coords.forEach (c => overlays.push (mk c))]: a [TypeError] unless
    [coords] is an array; the first failing element aborts the loop. *)
Fixpoint for_each_new (mk : option json -> result overlay) (l : list json)
  : result (list overlay) :=
  match l with
  | [] => Ok []
  | c :: rest =>
      match mk (Some c) with
      | Throw m => Throw m
      | Ok o =>
          match for_each_new mk rest with
          | Throw m => Throw m
          | Ok os => Ok (o :: os)
          end
      end
  end.

Definition forEach_coords (coords : option json) (mk : option json -> result overlay)
  : result (list overlay) :=
  match coords with
  | Some (JArr l) => for_each_new mk l
  | _ => Throw type_error
  end.

Definition single (r : result overlay) : result (list overlay) :=
  match r with
  | Ok o => Ok [o]
  | Throw m => Throw m
  end.

Definition createOverlaysFromFeature (feature : json) : result (list overlay) :=
  let geometry := optprop (Some feature) "geometry" in
  if negb (truthy_opt geometry) then Ok []
  else
    let props := or_else (prop feature "properties") (JObj []) in
    let type := optprop geometry "type" in
    let coords := optprop geometry "coordinates" in
    if is_str type "Point" then single (new_Marker coords props)
    else if is_str type "MultiPoint" then
      forEach_coords coords (fun point => new_Marker point props)
    else if is_str type "LineString" then single (new_Polyline coords props)
    else if is_str type "MultiLineString" then
      forEach_coords coords (fun line => new_Polyline line props)
    else if is_str type "Polygon" then single (new_Polygon coords props)
    else if is_str type "MultiPolygon" then
      forEach_coords coords (fun poly => new_Polygon poly props)
    else Ok [].

Fixpoint flatMap_features (fs : list json) : result (list overlay) :=
  match fs with
  | [] => Ok []
  | f :: rest =>
      match createOverlaysFromFeature f with
      | Throw m => Throw m
      | Ok os =>
          match flatMap_features rest with
          | Throw m => Throw m
          | Ok os' => Ok (os ++ os')%list
          end
      end
  end.

Definition createOverlaysFromGeoJSON (geojson : json) : result (list overlay) :=
  if negb (truthy geojson) then Ok []
  else if is_str (prop geojson "type") "FeatureCollection" then
    match prop geojson "features" with
    | Some (JArr fs) => flatMap_features fs
    | _ => Throw type_error
    end
  else if is_str (prop geojson "type") "Feature" then
    createOverlaysFromFeature geojson
  else
    createOverlaysFromFeature
      (JObj [("type", JStr "Feature"); ("geometry", geojson); ("properties", JObj [])]).

(** ** Reading overlays back *)

Definition lnglat_pair (p : LngLat) : json := JArr [JNum (lng p); JNum (lat p)].

Definition toLngLatArray (path : list LngLat) : json := JArr (map lnglat_pair path).

Definition polygonPathToCoordinates (path : polygon_path) : json :=
  match path with
  | FlatPath [] | RingPath [] => JArr []
  | RingPath rings => JArr (map toLngLatArray rings)
  | FlatPath ring => JArr [toLngLatArray ring]
  end.

Definition Feature (gtype : string) (coordinates props : json) : json :=
  JObj [("type", JStr "Feature");
        ("geometry", JObj [("type", JStr gtype); ("coordinates", coordinates)]);
        ("properties", props)].

(** The body of the [forEach]: the features one overlay contributes. The
    three classes are disjoint, so the chain of [instanceof] tests is a
    case analysis on the class. *)
Definition overlayToFeature (geometryType : string) (o : overlay) : list json :=
  let props := or_else (Some (getExtData o)) (JObj []) in
  match o with
  | Marker pos _ _ =>
      if String.eqb geometryType "Point"
      then [Feature "Point" (lnglat_pair pos) props] else []
  | Polygon path _ =>
      if String.eqb geometryType "Polygon"
      then [Feature "Polygon" (polygonPathToCoordinates path) props] else []
  | Polyline path _ =>
      if String.eqb geometryType "LineString"
      then [Feature "LineString" (toLngLatArray path) props] else []
  end.

Definition overlaysToGeoJSON (overlays : option (list overlay)) (geometryType : string)
  : json :=
  match overlays with
  | None => FeatureCollection []
  | Some os => FeatureCollection (concat (map (overlayToFeature geometryType) os))
  end.

(** The geometry type under which an overlay of each class is read back. *)
Definition class_type (o : overlay) : string :=
  match o with
  | Marker _ _ _ => "Point"
  | Polyline _ _ => "LineString"
  | Polygon _ _ => "Polygon"
  end.

(** [f.geometry.type] of a feature. *)
Definition geometry_type (f : json) : option json := optprop (prop f "geometry") "type".

(** ** The page, the network and the session state *)

(** A [<select>]: the values of its options and the selected value.
    Assigning a value that no option carries leaves nothing selected, and
    the element then reads as the empty string. *)
Record select : Type := Select { options : gset string; value : string }.

Definition set_value (v : string) (sel : select) : select :=
  Select (options sel) (if bool_decide (v ∈ options sel) then v else "").

(** [innerHTML = '<option value="">...</option>']: one option, selected. *)
Definition placeholder_only : select := Select {[ "" ]} "".

Definition appendOption (v : string) (sel : select) : select :=
  Select ({[ v ]} ∪ options sel) (value sel).

Inductive method : Type := GET | POST.

Record request : Type := Request { meth : method; url : string; body : option json }.

(** A response that arrived: its status line, what [text()] gives and what
    [json()] gives (a [Throw] for a body that does not parse). *)
Record http : Type := Http { status : nat; text : string; parsed : result json }.

Definition ok (r : http) : bool := ((200 <=? status r) && (status r <=? 299))%nat.

Inductive response : Type :=
| Failed (message : string)
| Answer (r : http).

Record Layers : Type := mkLayers {
  currentPolygonLayer : option (list overlay);
  currentPointsLayer : option (list overlay);
  currentItemsLayer : option (list overlay) }.

Record Editing : Type := mkEditing {
  polygonEditors : list nat;
  isPolygonEditing : bool;
  isPointsEditing : bool }.

Record Originals : Type := mkOriginals {
  originalPolygonGeoJSON : json;
  originalPointsGeoJSON : json;
  originalItemsGeoJSON : json }.

Record FileContext : Type := mkFileContext {
  currentFileName : option string;
  currentFileSource : string }.

Inductive cache_ref : Type :=
| polygons | points | items | historyList | historyItem | index.

Record ResponseCache : Type := mkResponseCache {
  polygons_map : gmap string entry;
  points_map : gmap string entry;
  items_map : gmap string entry;
  historyList_map : gmap string entry;
  historyItem_map : gmap string entry;
  index_map : gmap string entry }.

Record Page : Type := mkPage {
  fileSelect : select;
  schoolSelect : select;
  historySelect : select;
  showPointsCheckbox : bool;
  showItemsCheckbox : bool;
  statusEl : string;
  editPolygonBtn : string;
  editPointsBtn : string }.

(** [clock] is what [Date.now()] returns; [inbox] holds the responses still
    to come, each with the time at which it arrives; [sent] is the log of
    the requests issued so far. *)
Record Network : Type := mkNetwork {
  clock : Z;
  inbox : list (Z * response);
  sent : list request }.

Record State : Type := mkState {
  layers : Layers;
  editing : Editing;
  originals : Originals;
  file : FileContext;
  responseCache : ResponseCache;
  page : Page;
  net : Network }.

Definition cache_of (ref : cache_ref) (c : ResponseCache) : gmap string entry :=
  match ref with
  | polygons => polygons_map c
  | points => points_map c
  | items => items_map c
  | historyList => historyList_map c
  | historyItem => historyItem_map c
  | index => index_map c
  end.

Definition set_cache (ref : cache_ref) (m : gmap string entry) (c : ResponseCache)
  : ResponseCache :=
  match ref with
  | polygons =>
      mkResponseCache m (points_map c) (items_map c) (historyList_map c)
        (historyItem_map c) (index_map c)
  | points =>
      mkResponseCache (polygons_map c) m (items_map c) (historyList_map c)
        (historyItem_map c) (index_map c)
  | items =>
      mkResponseCache (polygons_map c) (points_map c) m (historyList_map c)
        (historyItem_map c) (index_map c)
  | historyList =>
      mkResponseCache (polygons_map c) (points_map c) (items_map c) m
        (historyItem_map c) (index_map c)
  | historyItem =>
      mkResponseCache (polygons_map c) (points_map c) (items_map c)
        (historyList_map c) m (index_map c)
  | index =>
      mkResponseCache (polygons_map c) (points_map c) (items_map c)
        (historyList_map c) (historyItem_map c) m
  end.

(** Field updates. *)

Definition upd_layers (f : Layers -> Layers) (s : State) : State :=
  mkState (f (layers s)) (editing s) (originals s) (file s) (responseCache s)
    (page s) (net s).
Definition upd_editing (f : Editing -> Editing) (s : State) : State :=
  mkState (layers s) (f (editing s)) (originals s) (file s) (responseCache s)
    (page s) (net s).
Definition upd_originals (f : Originals -> Originals) (s : State) : State :=
  mkState (layers s) (editing s) (f (originals s)) (file s) (responseCache s)
    (page s) (net s).
Definition upd_file (f : FileContext -> FileContext) (s : State) : State :=
  mkState (layers s) (editing s) (originals s) (f (file s)) (responseCache s)
    (page s) (net s).
Definition upd_cache (f : ResponseCache -> ResponseCache) (s : State) : State :=
  mkState (layers s) (editing s) (originals s) (file s) (f (responseCache s))
    (page s) (net s).
Definition upd_page (f : Page -> Page) (s : State) : State :=
  mkState (layers s) (editing s) (originals s) (file s) (responseCache s)
    (f (page s)) (net s).
Definition upd_net (f : Network -> Network) (s : State) : State :=
  mkState (layers s) (editing s) (originals s) (file s) (responseCache s)
    (page s) (f (net s)).

Definition set_polygonLayer (v : option (list overlay)) (l : Layers) : Layers :=
  mkLayers v (currentPointsLayer l) (currentItemsLayer l).
Definition set_pointsLayer (v : option (list overlay)) (l : Layers) : Layers :=
  mkLayers (currentPolygonLayer l) v (currentItemsLayer l).
Definition set_itemsLayer (v : option (list overlay)) (l : Layers) : Layers :=
  mkLayers (currentPolygonLayer l) (currentPointsLayer l) v.

Definition set_polygonEditors (v : list nat) (e : Editing) : Editing :=
  mkEditing v (isPolygonEditing e) (isPointsEditing e).
Definition set_isPolygonEditing (v : bool) (e : Editing) : Editing :=
  mkEditing (polygonEditors e) v (isPointsEditing e).
Definition set_isPointsEditing (v : bool) (e : Editing) : Editing :=
  mkEditing (polygonEditors e) (isPolygonEditing e) v.

Definition set_originalPolygon (v : json) (o : Originals) : Originals :=
  mkOriginals v (originalPointsGeoJSON o) (originalItemsGeoJSON o).
Definition set_originalPoints (v : json) (o : Originals) : Originals :=
  mkOriginals (originalPolygonGeoJSON o) v (originalItemsGeoJSON o).
Definition set_originalItems (v : json) (o : Originals) : Originals :=
  mkOriginals (originalPolygonGeoJSON o) (originalPointsGeoJSON o) v.

Definition set_fileName (v : option string) (c : FileContext) : FileContext :=
  mkFileContext v (currentFileSource c).
Definition set_fileSource (v : string) (c : FileContext) : FileContext :=
  mkFileContext (currentFileName c) v.

Definition upd_fileSelect (f : select -> select) (p : Page) : Page :=
  mkPage (f (fileSelect p)) (schoolSelect p) (historySelect p)
    (showPointsCheckbox p) (showItemsCheckbox p) (statusEl p)
    (editPolygonBtn p) (editPointsBtn p).
Definition upd_schoolSelect (f : select -> select) (p : Page) : Page :=
  mkPage (fileSelect p) (f (schoolSelect p)) (historySelect p)
    (showPointsCheckbox p) (showItemsCheckbox p) (statusEl p)
    (editPolygonBtn p) (editPointsBtn p).
Definition upd_historySelect (f : select -> select) (p : Page) : Page :=
  mkPage (fileSelect p) (schoolSelect p) (f (historySelect p))
    (showPointsCheckbox p) (showItemsCheckbox p) (statusEl p)
    (editPolygonBtn p) (editPointsBtn p).
Definition set_showPoints (v : bool) (p : Page) : Page :=
  mkPage (fileSelect p) (schoolSelect p) (historySelect p)
    v (showItemsCheckbox p) (statusEl p) (editPolygonBtn p) (editPointsBtn p).
Definition set_showItems (v : bool) (p : Page) : Page :=
  mkPage (fileSelect p) (schoolSelect p) (historySelect p)
    (showPointsCheckbox p) v (statusEl p) (editPolygonBtn p) (editPointsBtn p).
Definition set_statusEl (v : string) (p : Page) : Page :=
  mkPage (fileSelect p) (schoolSelect p) (historySelect p)
    (showPointsCheckbox p) (showItemsCheckbox p) v
    (editPolygonBtn p) (editPointsBtn p).
Definition set_editPolygonBtn (v : string) (p : Page) : Page :=
  mkPage (fileSelect p) (schoolSelect p) (historySelect p)
    (showPointsCheckbox p) (showItemsCheckbox p) (statusEl p) v (editPointsBtn p).
Definition set_editPointsBtn (v : string) (p : Page) : Page :=
  mkPage (fileSelect p) (schoolSelect p) (historySelect p)
    (showPointsCheckbox p) (showItemsCheckbox p) (statusEl p) (editPolygonBtn p) v.

(** ** Handlers as state transformers that may raise *)

Inductive outcome (A : Type) : Type :=
| Return (a : A) (s : State)
| Raise (message : string) (s : State).
Arguments Return {A} a s.
Arguments Raise {A} message s.

Definition M (A : Type) : Type := State -> outcome A.

#[export] Instance M_ret : MRet M := fun A a s => Return a s.

#[export] Instance M_bind : MBind M := fun A B f m s =>
  match m s with
  | Return a s' => f a s'
  | Raise e s' => Raise e s'
  end.

Definition throw {A : Type} (message : string) : M A := fun s => Raise message s.

Definition try_catch {A : Type} (body : M A) (handler : string -> M A) : M A :=
  fun s =>
    match body s with
    | Return a s' => Return a s'
    | Raise e s' => handler e s'
    end.

Definition read {A : Type} (f : State -> A) : M A := fun s => Return (f s) s.

Definition modify (f : State -> State) : M unit := fun s => Return tt (f s).

Definition lift {A : Type} (r : result A) : M A :=
  match r with
  | Ok a => mret a
  | Throw m => throw m
  end.

Definition when (b : bool) (m : M unit) : M unit := if b then m else mret tt.

(** The state a handler leaves behind, whether it returned or raised. *)
Definition final {A : Type} (o : outcome A) : State :=
  match o with
  | Return _ s | Raise _ s => s
  end.

Definition raised {A : Type} (o : outcome A) : bool :=
  match o with
  | Return _ _ => false
  | Raise _ _ => true
  end.

(** ** Browser built-ins used for URLs (on UTF-8 bytes) *)

Definition is_alnum (c : ascii) : bool :=
  let n := nat_of_ascii c in
  (((48 <=? n) && (n <=? 57)) || ((65 <=? n) && (n <=? 90))
   || ((97 <=? n) && (n <=? 122)))%nat.

Definition one_of (chars : string) (c : ascii) : bool :=
  existsb (Ascii.eqb c) (String.list_ascii_of_string chars).

Definition hex_char (n : nat) : ascii :=
  ascii_of_nat (if (n <? 10)%nat then 48 + n else 55 + n)%nat.

Definition percent (c : ascii) : string :=
  let n := nat_of_ascii c in
  String "%" (String (hex_char (n / 16)) (String (hex_char (n mod 16)) EmptyString)).

Fixpoint encode_with (keep : ascii -> bool) (plus : bool) (s : string) : string :=
  match s with
  | EmptyString => EmptyString
  | String c rest =>
      (if keep c then String c EmptyString
       else if plus && Ascii.eqb c " " then "+"
       else percent c) ++ encode_with keep plus rest
  end.

Definition encodeURIComponent : string -> string :=
  encode_with (fun c => is_alnum c || one_of "-_.!~*'()" c) false.

(** How [URLSearchParams] serialises a name or a value. *)
Definition form_urlencode : string -> string :=
  encode_with (fun c => is_alnum c || one_of "*-._" c) true.

(** ** Status line, cache and network primitives *)

Definition setStatus (text : string) : M unit := modify (upd_page (set_statusEl text)).

(** [JSON.parse (JSON.stringify obj)] is [obj] itself on JSON values. *)
Definition cloneGeoJSON (obj : json) : json := if truthy obj then obj else JNull.

(** [cacheGet] and [cacheSet] applied to one of the maps of
    [responseCache], at the current time. *)
Definition cacheGet_ref (map : cache_ref) (key : string) : M json := fun s =>
  match cacheGet (clock (net s)) (Some (cache_of map (responseCache s))) key with
  | (v, Some m) => Return v (upd_cache (set_cache map m) s)
  | (v, None) => Return v s
  end.

Definition cacheSet_ref (map : cache_ref) (key : string) (d : json) : M unit := fun s =>
  match cacheSet (clock (net s)) (Some (cache_of map (responseCache s))) key d with
  | Some m => Return tt (upd_cache (set_cache map m) s)
  | None => Return tt s
  end.

(** [await fetch (...)]: the request is logged, the next response of the
    tape arrives and moves the clock; with no response left the request
    fails like a transport error. *)
Definition fetch (req : request) : M http := fun s =>
  let s1 := upd_net (fun n => mkNetwork (clock n) (inbox n) (sent n ++ [req])%list) s in
  match inbox (net s) with
  | [] => Raise "Failed to fetch" s1
  | (t, r) :: rest =>
      let s2 := upd_net (fun n => mkNetwork t rest (sent n)) s1 in
      match r with
      | Failed m => Raise m s2
      | Answer h => Return h s2
      end
  end.

Definition fetchJsonWithCache (url : string) (cacheMap : cache_ref)
    (cacheKey : string) (force : bool) : M json :=
  hit ← (if negb force
         then cached ← cacheGet_ref cacheMap cacheKey;
              mret (if truthy cached then Some cached else None)
         else mret None);
  match hit with
  | Some cached => mret cached
  | None =>
      resp ← fetch (Request GET url None);
      if negb (ok resp) then throw ("请求失败:" ++ pretty (status resp))
      else
        d ← lift (parsed resp);
        cacheSet_ref cacheMap cacheKey d;;
        mret d
  end.

(** ** Options of the school and history selectors *)

(** [v?.length] (the length of a string is counted in bytes here) *)
Definition js_length (v : option json) : option json :=
  match v with
  | Some (JArr l) => Some (JNum (Z.of_nat (length l)))
  | Some (JStr s) => Some (JNum (Z.of_nat (String.length s)))
  | Some (JObj fs) => assoc "length" fs
  | _ => None
  end.

Definition school_names (features : list json) : list string :=
  flat_map
    (fun f =>
       let name := optprop (optprop (Some f) "properties") "school_name" in
       if truthy_opt name then [to_string_opt name] else [])
    features.

Definition setSchoolOptions (geojson : json) : M unit :=
  modify (upd_page (upd_schoolSelect (fun _ => placeholder_only)));;
  if negb (truthy geojson) || negb (is_str (prop geojson "type") "FeatureCollection")
  then mret tt
  else
    match or_else (prop geojson "features") (JArr []) with
    | JArr fs =>
        modify (upd_page (upd_schoolSelect
                            (fun sel => foldr appendOption sel (school_names fs))))
    | _ => throw type_error
    end.

Fixpoint appendHistoryOptions (l : list json) : M unit :=
  match l with
  | [] => mret tt
  | item :: rest =>
      match item with
      | JNull => throw type_error
      | _ =>
          modify (upd_page (upd_historySelect
                              (appendOption (to_string_opt (prop item "save_id")))));;
          appendHistoryOptions rest
      end
  end.

Definition setHistoryOptions (l : json) : M unit :=
  modify (upd_page (upd_historySelect (fun _ => placeholder_only)));;
  if negb (truthy l) || negb (truthy_opt (js_length (Some l))) then mret tt
  else
    match l with
    | JArr l => appendHistoryOptions l
    | _ => throw type_error
    end.

Definition getSelectedSchool : M string := read (fun s => value (schoolSelect (page s))).

Definition isSchoolFilterActive : M bool :=
  school ← getSelectedSchool; mret (negb (String.eqb school "")).

Definition getFileName : M (option string) := read (fun s => currentFileName (file s)).

(** A file name that is [null] or empty is falsy. *)
Definition name_set (n : option string) : bool :=
  match n with
  | Some f => negb (String.eqb f "")
  | None => false
  end.

(** [`${currentFileName}`] *)
Definition name_text (n : option string) : string :=
  match n with
  | Some f => f
  | None => "null"
  end.

(** [currentFileName || fallback] *)
Definition name_or (n : option string) (fallback : string) : string :=
  if name_set n then name_text n else fallback.

Definition history_key (fileName school : string) : string :=
  "file_name=" ++ form_urlencode fileName
  ++ (if String.eqb school "" then "" else "&school_name=" ++ form_urlencode school).

Definition loadHistoryList (force : bool) : M unit :=
  name ← getFileName;
  source ← read (fun s => currentFileSource (file s));
  if negb (name_set name) || negb (String.eqb source "server")
  then setHistoryOptions (JArr [])
  else
    try_catch
      (school ← getSelectedSchool;
       let cacheKey := history_key (name_text name) school in
       l ← fetchJsonWithCache ("/api/history?" ++ cacheKey) historyList cacheKey force;
       setHistoryOptions l)
      (fun _ => setStatus "历史列表读取失败";; setHistoryOptions (JArr [])).

(** ** Layers and edit sessions *)

(** [map.remove], [map.add] and [map.setFitView] act on the map surface
    only; the layer variables are what the script itself keeps. *)
Definition clearPolygonLayer : M unit := modify (upd_layers (set_polygonLayer None)).
Definition clearPointsLayer : M unit := modify (upd_layers (set_pointsLayer None)).
Definition clearItemsLayer : M unit := modify (upd_layers (set_itemsLayer None)).

Definition clearAllLayers : M unit :=
  clearPolygonLayer;; clearPointsLayer;; clearItemsLayer.

Definition closePolygonEditors : M unit :=
  modify (upd_editing (set_polygonEditors []));;
  modify (upd_editing (set_isPolygonEditing false));;
  modify (upd_page (set_editPolygonBtn "编辑面")).

Definition setDraggable (draggable : bool) (o : overlay) : overlay :=
  match o with
  | Marker p _ e => Marker p draggable e
  | _ => o
  end.

Definition setMarkersDraggable (overlays : option (list overlay)) (draggable : bool)
  : option (list overlay) :=
  match overlays with
  | None => None
  | Some os => Some (map (setDraggable draggable) os)
  end.

Definition disableAllEditing : M unit :=
  closePolygonEditors;;
  editingPoints ← read (fun s => isPointsEditing (editing s));
  when editingPoints
    (modify (upd_layers (fun l =>
       set_pointsLayer (setMarkersDraggable (currentPointsLayer l) false) l));;
     modify (upd_editing (set_isPointsEditing false));;
     modify (upd_page (set_editPointsBtn "编辑点"))).

(** ** Rendering *)

(** [geojson?.features?.length ?? 0], as printed in the status line (the
    length of a string is counted in bytes here). *)
Definition features_count (geojson : json) : string :=
  match js_length (optprop (Some geojson) "features") with
  | None | Some JNull => "0"
  | Some v => js_to_string v
  end.

Definition schoolTag : M string :=
  school ← getSelectedSchool;
  mret (if String.eqb school "" then "" else " | 校区: " ++ school).

Definition renderGeoJSON (geojson : json) (label : string) (skipOriginal : bool)
  : M unit :=
  clearPolygonLayer;;
  overlays ← lift (createOverlaysFromGeoJSON geojson);
  modify (upd_layers (set_polygonLayer (Some overlays)));;
  when (negb skipOriginal)
    (modify (upd_originals (set_originalPolygon (cloneGeoJSON geojson))));;
  tag ← schoolTag;
  setStatus ("已加载: " ++ label ++ " (features: " ++ features_count geojson ++ ")" ++ tag).

Definition renderPointsGeoJSON (geojson : json) (label : string) (skipOriginal : bool)
  : M unit :=
  clearPointsLayer;;
  overlays ← lift (createOverlaysFromGeoJSON geojson);
  modify (upd_layers (set_pointsLayer (Some overlays)));;
  when (negb skipOriginal)
    (modify (upd_originals (set_originalPoints (cloneGeoJSON geojson))));;
  tag ← schoolTag;
  setStatus ("已加载点集: " ++ label ++ " (points: " ++ features_count geojson ++ ")" ++ tag).

Definition renderItemsGeoJSON (geojson : json) (label : string) (skipOriginal : bool)
  : M unit :=
  clearItemsLayer;;
  overlays ← lift (createOverlaysFromGeoJSON geojson);
  modify (upd_layers (set_itemsLayer (Some overlays)));;
  when (negb skipOriginal)
    (modify (upd_originals (set_originalItems (cloneGeoJSON geojson))));;
  tag ← schoolTag;
  setStatus ("已加载细分面: " ++ label ++ " (features: " ++ features_count geojson ++ ")" ++ tag).

(** ** History *)

(** A snapshot's [file_name] is a string on the wire; any other truthy value
    is kept in its string form. *)
Definition applyHistoryData (d : json) (asCurrent : bool) : M unit :=
  match d with
  | JNull => throw type_error
  | _ =>
      modify (upd_file (fun c =>
        set_fileName
          (if truthy_opt (prop d "file_name")
           then Some (to_string_opt (prop d "file_name"))
           else currentFileName c) c));;
      modify (upd_file (set_fileSource (if asCurrent then "server" else "history")));;
      modify (upd_page (upd_schoolSelect
        (set_value (js_to_string (or_else (prop d "school_name") (JStr ""))))));;
      clearAllLayers;;
      name ← getFileName;
      let label := name_text name ++ " (" ++ (if asCurrent then "恢复" else "历史") ++ ")" in
      (if truthy_opt (prop d "polygons")
       then renderGeoJSON (or_else (prop d "polygons") JNull) label (negb asCurrent)
       else clearPolygonLayer);;
      showPoints ← read (fun s => showPointsCheckbox (page s));
      (if showPoints && truthy_opt (prop d "points")
       then renderPointsGeoJSON (or_else (prop d "points") JNull) label (negb asCurrent)
       else clearPointsLayer);;
      clearItemsLayer;;
      showItems ← read (fun s => showItemsCheckbox (page s));
      when showItems (setStatus "历史版本不包含细分面");;
      when asCurrent (modify (upd_page (upd_historySelect (set_value ""))))
  end.

Definition loadHistoryById (saveId : string) : M unit :=
  if String.eqb saveId "" then mret tt
  else
    setStatus "加载历史版本中...";;
    disableAllEditing;;
    clearAllLayers;;
    try_catch
      (d ← fetchJsonWithCache ("/api/history/" ++ encodeURIComponent saveId)
             historyItem saveId false;
       applyHistoryData d false)
      (fun message => setStatus ("历史版本加载失败: " ++ message)).

Definition restoreHistoryAsCurrent : M unit :=
  selected ← read (fun s => value (historySelect (page s)));
  if String.eqb selected "" then setStatus "请先选择一个历史版本"
  else
    setStatus "正在恢复历史版本...";;
    try_catch
      (resp ← fetch (Request GET ("/api/history/" ++ encodeURIComponent selected) None);
       if negb (ok resp) then throw "历史版本读取失败"
       else
         d ← lift (parsed resp);
         applyHistoryData d true;;
         setStatus "已恢复为当前版本，可继续编辑并保存";;
         loadHistoryList false)
      (fun message => setStatus ("恢复失败: " ++ message)).

(** ** Saving *)

Definition saveGeoJSON (kind : string) (geojson : json) : M unit :=
  name ← getFileName;
  source ← read (fun s => currentFileSource (file s));
  if negb (name_set name) || negb (String.eqb source "server")
  then setStatus "本地文件仅预览，无法保存到服务器"
  else
    let endpoint :=
      if String.eqb kind "points" then "/api/points/" ++ encodeURIComponent (name_text name)
      else if String.eqb kind "items" then "/api/items/" ++ encodeURIComponent (name_text name)
      else "/api/polygons/" ++ encodeURIComponent (name_text name) in
    setStatus "保存中...";;
    resp ← fetch (Request POST endpoint (Some geojson));
    if negb (ok resp) then throw "保存失败"
    else
      name ← getFileName;
      (if String.eqb kind "points" then cacheSet_ref points (name_text name) geojson
       else if String.eqb kind "items" then cacheSet_ref items (name_text name) geojson
       else cacheSet_ref polygons (name_text name) geojson);;
      setStatus "保存成功".

Definition saveCurrentToDatabase : M unit :=
  setStatus "正在保存全部数据到数据库...";;
  resp ← fetch (Request POST "/api/save_all" None);
  if negb (ok resp) then setStatus ("保存失败: " ++ text resp)
  else
    r ← lift (parsed resp);
    let errCount := or_else (js_length (optprop (Some r) "errors")) (JNum 0) in
    (if truthy errCount
     then setStatus ("已保存到数据库，但有 " ++ js_to_string errCount ++ " 个文件失败")
     else setStatus "已保存到数据库");;
    name ← getFileName;
    source ← read (fun s => currentFileSource (file s));
    when (name_set name && negb (String.eqb source "history"))
      (modify (upd_cache (set_cache historyList ∅));;
       loadHistoryList true).

(** ** Edit sessions *)

Definition nonempty (overlays : option (list overlay)) : bool :=
  match overlays with
  | Some (_ :: _) => true
  | _ => false
  end.

Fixpoint polygon_indices (i : nat) (os : list overlay) : list nat :=
  match os with
  | [] => []
  | Polygon _ _ :: rest => i :: polygon_indices (S i) rest
  | _ :: rest => polygon_indices (S i) rest
  end.

(** The callback of [AMap.plugin] is run at once. *)
Definition togglePolygonEditing : M unit :=
  layer ← read (fun s => currentPolygonLayer (layers s));
  if negb (nonempty layer) then setStatus "未加载面数据，无法编辑"
  else
    filterActive ← isSchoolFilterActive;
    if (filterActive : bool) then setStatus "请先切换到全部校区再编辑"
    else
      editingNow ← read (fun s => isPolygonEditing (editing s));
      if (editingNow : bool) then closePolygonEditors
      else
        closePolygonEditors;;
        layer ← read (fun s => currentPolygonLayer (layers s));
        modify (upd_editing (set_polygonEditors (polygon_indices 0 (default [] layer))));;
        modify (upd_editing (set_isPolygonEditing true));;
        modify (upd_page (set_editPolygonBtn "结束编辑面"));;
        setStatus "面编辑已开启".

Definition togglePointsEditing : M unit :=
  layer ← read (fun s => currentPointsLayer (layers s));
  if negb (nonempty layer) then setStatus "未加载点集，无法编辑"
  else
    filterActive ← isSchoolFilterActive;
    if (filterActive : bool) then setStatus "请先切换到全部校区再编辑"
    else
      modify (upd_editing (fun e => set_isPointsEditing (negb (isPointsEditing e)) e));;
      editingNow ← read (fun s => isPointsEditing (editing s));
      modify (upd_layers (fun l =>
        set_pointsLayer (setMarkersDraggable (currentPointsLayer l) editingNow) l));;
      modify (upd_page (set_editPointsBtn (if (editingNow : bool) then "结束编辑点" else "编辑点")));;
      setStatus (if (editingNow : bool) then "点编辑已开启" else "点编辑已关闭").

(** ** Loading *)

(** [message.includes (sub)] *)
Definition includes (message sub : string) : bool :=
  match String.index 0 sub message with
  | Some _ => true
  | None => false
  end.

Definition loadPointsForFile (fileName : string) : M unit :=
  try_catch
    (fetched ← try_catch
         (g ← fetchJsonWithCache ("/api/points/" ++ encodeURIComponent fileName)
                points fileName false;
          mret (Some g))
         (fun message =>
            if includes message "404"
            then setStatus "点集文件不存在（请先生成 points 文件）";; mret None
            else throw message);
     match fetched with
     | None => mret tt
     | Some geojson =>
         modify (upd_originals (set_originalPoints (cloneGeoJSON geojson)));;
         school ← getSelectedSchool;
         shown ← lift (filterGeoJSONBySchool geojson school);
         renderPointsGeoJSON shown fileName true
     end)
    (fun message => setStatus ("点集加载失败: " ++ message)).

Definition loadItemsForFile (fileName : string) : M unit :=
  try_catch
    (fetched ← try_catch
         (g ← fetchJsonWithCache ("/api/items/" ++ encodeURIComponent fileName)
                items fileName false;
          mret (Some g))
         (fun message =>
            if includes message "404"
            then setStatus "细分面文件不存在（请先生成 items 文件）";; mret None
            else throw message);
     match fetched with
     | None => mret tt
     | Some geojson =>
         modify (upd_originals (set_originalItems (cloneGeoJSON geojson)));;
         school ← getSelectedSchool;
         shown ← lift (filterGeoJSONBySchool geojson school);
         renderItemsGeoJSON shown fileName true
     end)
    (fun message => setStatus ("细分面加载失败: " ++ message)).

Definition loadIndex (force : bool) : M unit :=
  try_catch
    (files ← fetchJsonWithCache "/api/polygons" index "index" force;
     modify (upd_page (upd_fileSelect (fun _ => placeholder_only)));;
     match files with
     | JArr l =>
         modify (upd_page (upd_fileSelect
                             (fun sel => foldr appendOption sel (map js_to_string l))));;
         setStatus ("文件列表已刷新 (共 " ++ pretty (length l) ++ " 个)")
     | _ => throw type_error
     end)
    (fun _ => setStatus "未能加载文件列表，请检查服务是否正常").

Definition loadSelectedFile : M unit :=
  fileName ← read (fun s => value (fileSelect (page s)));
  if String.eqb fileName "" then mret tt
  else
    modify (upd_file (set_fileName (Some fileName)));;
    modify (upd_file (set_fileSource "server"));;
    disableAllEditing;;
    modify (upd_page (upd_schoolSelect (set_value "")));;
    modify (upd_page (upd_historySelect (set_value "")));;
    setStatus "加载中...";;
    clearAllLayers;;
    try_catch
      (geojson ← fetchJsonWithCache ("/api/polygons/" ++ encodeURIComponent fileName)
                   polygons fileName false;
       setSchoolOptions geojson;;
       renderGeoJSON geojson fileName false;;
       showPoints ← read (fun s => showPointsCheckbox (page s));
       when showPoints (loadPointsForFile fileName);;
       showItems ← read (fun s => showItemsCheckbox (page s));
       when showItems (loadItemsForFile fileName);;
       loadHistoryList false)
      (fun message => setStatus ("加载失败: " ++ message)).

(** ** Reset and filter *)

Definition resetEdits : M unit :=
  disableAllEditing;;
  source ← read (fun s => currentFileSource (file s));
  if String.eqb source "server" then loadSelectedFile
  else
    name ← getFileName;
    originalPolygon ← read (fun s => originalPolygonGeoJSON (originals s));
    when (truthy originalPolygon)
      (clearAllLayers;;
       renderGeoJSON originalPolygon (name_or name "本地文件") false);;
    originalPoints ← read (fun s => originalPointsGeoJSON (originals s));
    showPoints ← read (fun s => showPointsCheckbox (page s));
    when (truthy originalPoints && showPoints)
      (renderPointsGeoJSON originalPoints (name_or name "本地文件") false);;
    originalItems ← read (fun s => originalItemsGeoJSON (originals s));
    showItems ← read (fun s => showItemsCheckbox (page s));
    when (truthy originalItems && showItems)
      (renderItemsGeoJSON originalItems (name_or name "本地文件") false);;
    setStatus "已撤销到原始数据".

Definition applySchoolFilter : M unit :=
  selected ← read (fun s => value (historySelect (page s)));
  if negb (String.eqb selected "") then setStatus "历史版本模式下无法筛选"
  else
    school ← getSelectedSchool;
    name ← getFileName;
    source ← read (fun s => currentFileSource (file s));
    originalPolygon ← read (fun s => originalPolygonGeoJSON (originals s));
    when (truthy originalPolygon)
      (shown ← lift (filterGeoJSONBySchool originalPolygon school);
       renderGeoJSON shown (name_or name "文件") true);;
    showPoints ← read (fun s => showPointsCheckbox (page s));
    (if (showPoints : bool) then
       originalPoints ← read (fun s => originalPointsGeoJSON (originals s));
       if truthy originalPoints then
         shown ← lift (filterGeoJSONBySchool originalPoints school);
         renderPointsGeoJSON shown (name_or name "文件") true
       else
         when (String.eqb source "server" && name_set name)
           (loadPointsForFile (name_text name))
     else clearPointsLayer);;
    showItems ← read (fun s => showItemsCheckbox (page s));
    (if (showItems : bool) then
       originalItems ← read (fun s => originalItemsGeoJSON (originals s));
       if truthy originalItems then
         shown ← lift (filterGeoJSONBySchool originalItems school);
         renderItemsGeoJSON shown (name_or name "文件") true
       else
         when (String.eqb source "server" && name_set name)
           (loadItemsForFile (name_text name))
     else clearItemsLayer).

(** ** The listeners registered by [initMap] *)

Definition showPointsChange : M unit :=
  checked ← read (fun s => showPointsCheckbox (page s));
  if (checked : bool) then
    fileName ← read (fun s => value (fileSelect (page s)));
    when (negb (String.eqb fileName "")) (loadPointsForFile fileName)
  else clearPointsLayer.

Definition showItemsChange : M unit :=
  checked ← read (fun s => showItemsCheckbox (page s));
  if (checked : bool) then
    fileName ← read (fun s => value (fileSelect (page s)));
    when (negb (String.eqb fileName "")) (loadItemsForFile fileName)
  else clearItemsLayer.

Definition savePolygonClick : M unit :=
  try_catch
    (filterActive ← isSchoolFilterActive;
     if (filterActive : bool) then setStatus "请先切换到全部校区再保存"
     else
       layer ← read (fun s => currentPolygonLayer (layers s));
       if negb (nonempty layer) then setStatus "未加载面数据，无法保存"
       else
         let geojson := overlaysToGeoJSON layer "Polygon" in
         saveGeoJSON "polygons" geojson;;
         modify (upd_originals (set_originalPolygon (cloneGeoJSON geojson))))
    (fun message => setStatus ("保存失败: " ++ message)).

Definition savePointsClick : M unit :=
  try_catch
    (filterActive ← isSchoolFilterActive;
     if (filterActive : bool) then setStatus "请先切换到全部校区再保存"
     else
       layer ← read (fun s => currentPointsLayer (layers s));
       if negb (nonempty layer) then setStatus "未加载点集，无法保存"
       else
         let geojson := overlaysToGeoJSON layer "Point" in
         saveGeoJSON "points" geojson;;
         modify (upd_originals (set_originalPoints (cloneGeoJSON geojson))))
    (fun message => setStatus ("保存失败: " ++ message)).

Definition saveDbClick : M unit :=
  try_catch saveCurrentToDatabase (fun message => setStatus ("保存失败: " ++ message)).

Definition schoolSelectChange : M unit :=
  disableAllEditing;;
  modify (upd_page (upd_historySelect (set_value "")));;
  applySchoolFilter;;
  loadHistoryList false.

Definition historySelectChange : M unit :=
  disableAllEditing;;
  selected ← read (fun s => value (historySelect (page s)));
  if String.eqb selected "" then
    modify (upd_file (set_fileSource "server"));;
    loadSelectedFile
  else loadHistoryById selected.

(** [reader.onload] of the local file input: [content] is what
    [JSON.parse] makes of the file. *)
Definition fileInputLoad (name : string) (content : result json) : M unit :=
  try_catch
    (geojson ← lift content;
     modify (upd_file (set_fileName (Some name)));;
     modify (upd_file (set_fileSource "local"));;
     disableAllEditing;;
     modify (upd_page (upd_schoolSelect (set_value "")));;
     modify (upd_page (upd_historySelect (set_value "")));;
     setHistoryOptions (JArr []);;
     clearAllLayers;;
     setSchoolOptions geojson;;
     renderGeoJSON geojson name false)
    (fun _ => setStatus "本地文件解析失败").

(** ** What the operator does on the map *)

Inductive layer_id : Type := PolygonLayer | PointsLayer | ItemsLayer.

Definition layer_of (k : layer_id) (l : Layers) : option (list overlay) :=
  match k with
  | PolygonLayer => currentPolygonLayer l
  | PointsLayer => currentPointsLayer l
  | ItemsLayer => currentItemsLayer l
  end.

Definition set_layer (k : layer_id) (v : option (list overlay)) (l : Layers) : Layers :=
  match k with
  | PolygonLayer => set_polygonLayer v l
  | PointsLayer => set_pointsLayer v l
  | ItemsLayer => set_itemsLayer v l
  end.

Definition alter_overlay (k : layer_id) (i : nat) (f : overlay -> overlay) : M unit :=
  modify (upd_layers (fun l =>
    match layer_of k l with
    | Some os => set_layer k (Some (alter f i os)) l
    | None => l
    end)).

Definition setPosition (p : LngLat) (o : overlay) : overlay :=
  match o with
  | Marker _ d e => Marker p d e
  | _ => o
  end.

Definition setPath (path : polygon_path) (o : overlay) : overlay :=
  match o with
  | Polygon _ e => Polygon path e
  | _ => o
  end.

(** The answer to the coordinate prompt of the click handler, after the
    handler's own parsing: dismissed, not two comma-separated parts, parts
    that are not finite numbers, or a coordinate pair. *)
Inductive prompt_input : Type :=
| Dismissed
| WrongArity
| NotFinite
| Coordinates (p : LngLat).

Definition is_Marker (o : option overlay) : bool :=
  match o with
  | Some (Marker _ _ _) => true
  | _ => false
  end.

(** The click listener that [bindOverlayPopup] attaches (the info window
    is presentation only). *)
Definition overlayClick (k : layer_id) (i : nat) (input : prompt_input) : M unit :=
  editingPoints ← read (fun s => isPointsEditing (editing s));
  target ← read (fun s => default [] (layer_of k (layers s)) !! i);
  when (editingPoints && is_Marker target)
    match input with
    | Dismissed => mret tt
    | WrongArity => setStatus "坐标格式错误，应为 lng,lat"
    | NotFinite => setStatus "坐标必须为数字"
    | Coordinates p =>
        alter_overlay k i (setPosition p);;
        setStatus "坐标已更新，记得保存点集"
    end.

(** Dragging moves a marker only while it is draggable. *)
Definition markerDrag (k : layer_id) (i : nat) (p : LngLat) : M unit :=
  alter_overlay k i (fun o =>
    match o with
    | Marker _ true e => Marker p true e
    | _ => o
    end).

(** Reshaping a polygon goes through one of the open editors; an editor is
    known by the position of its polygon in the layer. *)
Definition polygonEdit (i : nat) (path : polygon_path) : M unit :=
  open ← read (fun s => polygonEditors (editing s));
  when (bool_decide (i ∈ open)) (alter_overlay PolygonLayer i (setPath path)).

(** ** Events and runs *)

Inductive event : Type :=
| DOMContentLoaded
| FileSelectChange (v : string)
| ReloadClick
| RefreshListClick
| ShowPointsChange (checked : bool)
| ShowItemsChange (checked : bool)
| EditPolygonClick
| SavePolygonClick
| EditPointsClick
| SavePointsClick
| SaveDbClick
| ResetEditsClick
| SchoolSelectChange (v : string)
| HistorySelectChange (v : string)
| RestoreHistoryClick
| FileInputChange (name : string) (content : result json)
| OverlayClick (k : layer_id) (i : nat) (input : prompt_input)
| MarkerDrag (k : layer_id) (i : nat) (p : LngLat)
| PolygonEdit (i : nat) (path : polygon_path).

Definition handler (ev : event) : M unit :=
  match ev with
  | DOMContentLoaded => loadIndex false
  | FileSelectChange v =>
      modify (upd_page (upd_fileSelect (set_value v)));; loadSelectedFile
  | ReloadClick => loadSelectedFile
  | RefreshListClick => loadIndex true
  | ShowPointsChange checked =>
      modify (upd_page (set_showPoints checked));; showPointsChange
  | ShowItemsChange checked =>
      modify (upd_page (set_showItems checked));; showItemsChange
  | EditPolygonClick => togglePolygonEditing
  | SavePolygonClick => savePolygonClick
  | EditPointsClick => togglePointsEditing
  | SavePointsClick => savePointsClick
  | SaveDbClick => saveDbClick
  | ResetEditsClick => resetEdits
  | SchoolSelectChange v =>
      modify (upd_page (upd_schoolSelect (set_value v)));; schoolSelectChange
  | HistorySelectChange v =>
      modify (upd_page (upd_historySelect (set_value v)));; historySelectChange
  | RestoreHistoryClick => restoreHistoryAsCurrent
  | FileInputChange name content => fileInputLoad name content
  | OverlayClick k i input => overlayClick k i input
  | MarkerDrag k i p => markerDrag k i p
  | PolygonEdit i path => polygonEdit i path
  end.

(** An event, the time at which it fires, and the responses that arrive
    while its handler runs. *)
Record stimulus : Type := Stimulus {
  at_time : Z;
  what : event;
  replies : list (Z * response) }.

(** An exception that leaves a listener is reported to the console and the
    page carries on with the state reached. *)
Definition dispatch (st : stimulus) (s : State) : State :=
  final (handler (what st)
           (upd_net (fun n => mkNetwork (at_time st) (replies st) (sent n)) s)).

Definition run (trace : list stimulus) (s : State) : State :=
  foldl (fun s st => dispatch st s) s trace.

(** The module variables as the script declares them, on a given page. *)
Definition initial (p : Page) : State :=
  mkState
    (mkLayers None None None)
    (mkEditing [] false false)
    (mkOriginals JNull JNull JNull)
    (mkFileContext None "server")
    (mkResponseCache ∅ ∅ ∅ ∅ ∅ ∅)
    p
    (mkNetwork 0 [] []).

Definition blank_page : Page :=
  mkPage placeholder_only placeholder_only placeholder_only false false "" "编辑面" "编辑点".

Inductive reachable : State -> Prop :=
| reachable_initial : reachable (initial blank_page)
| reachable_step st s : reachable s -> reachable (dispatch st s).

(** ** Scenarios *)

Definition answer (j : json) : response := Answer (Http 200 "" (Ok j)).

Definition status_only (code : nat) : response := Answer (Http code "" (Throw "Unexpected end of JSON input")).

Definition triangle (x : Z) : json :=
  JArr [JArr [JNum x; JNum 0]; JArr [JNum x; JNum 1]; JArr [JNum (x + 1); JNum 0];
        JArr [JNum x; JNum 0]].

Definition district (x : Z) : json :=
  Feature "Polygon" (JArr [triangle x]) (JObj [("school_name", JStr "X")]).

Definition entrance (x : Z) : json :=
  Feature "Point" (JArr [JNum x; JNum 0]) (JObj [("kind", JStr "boundary")]).

Definition open_page : list stimulus :=
  [Stimulus 0 DOMContentLoaded [(1, answer (JArr [JStr "A.geojson"]))]].

(** The operator shows the points layer, opens a file from the server,
    switches point editing on and then hides the points layer. *)
Definition hide_points_while_editing : list stimulus :=
  (open_page ++
   [Stimulus 10 (ShowPointsChange true) [];
    Stimulus 20 (FileSelectChange "A.geojson")
      [(21, answer (FeatureCollection [district 0]));
       (22, answer (FeatureCollection [entrance 0]));
       (23, answer (JArr []))];
    Stimulus 30 EditPointsClick [];
    Stimulus 40 (ShowPointsChange false) []])%list.

(** The operator opens a local file, reshapes its polygon and presses
    "save polygon": the save is refused. *)
Definition open_local_file : list stimulus :=
  (open_page ++
   [Stimulus 10 (FileInputChange "draft.geojson" (Ok (FeatureCollection [district 0]))) []])%list.

Definition moved_path : polygon_path :=
  RingPath [[mkLngLat 7 7; mkLngLat 7 8; mkLngLat 8 7; mkLngLat 7 7]].

Definition save_local_file : list stimulus :=
  (open_local_file ++
   [Stimulus 20 EditPolygonClick [];
    Stimulus 30 (PolygonEdit 0 moved_path) [];
    Stimulus 40 SavePolygonClick []])%list.

(** The operator opens a file, picks a saved version to look at and
    promotes it to current, all within a minute. *)
Definition saved_versions : json :=
  JArr [JObj [("save_id", JStr "h1"); ("saved_at", JStr "2025-03-01T08:00:00");
              ("file_name", JStr "A.geojson")]].

Definition saved_snapshot : json :=
  JObj [("file_name", JStr "A.geojson"); ("school_name", JNull);
        ("polygons", FeatureCollection [district 3]);
        ("points", FeatureCollection [entrance 3])].

Definition view_history : list stimulus :=
  (open_page ++
   [Stimulus 20 (FileSelectChange "A.geojson")
      [(21, answer (FeatureCollection [district 0])); (22, answer saved_versions)];
    Stimulus 30 (HistorySelectChange "h1") [(31, answer saved_snapshot)]])%list.

Definition restore_click : stimulus :=
  Stimulus 40 RestoreHistoryClick [(41, answer saved_snapshot); (42, answer saved_versions)].

(** The requests issued while a stimulus is handled. *)
Definition requests_during (st : stimulus) (s : State) : list request :=
  skipn (length (sent (net s))) (sent (net (dispatch st s))).

(** A file whose only feature is a MultiPolygon of two triangles is opened
    from the server, one of its polygons is reshaped, and the edits are
    reset more than five minutes later, so that the reset fetches the
    collection from the server again. *)
Definition campus : json :=
  Feature "MultiPolygon" (JArr [JArr [triangle 0]; JArr [triangle 5]])
    (JObj [("school_name", JStr "X")]).

Definition edit_campus : list stimulus :=
  (open_page ++
   [Stimulus 20 (FileSelectChange "A.geojson")
      [(21, answer (FeatureCollection [campus])); (22, answer (JArr []))];
    Stimulus 30 EditPolygonClick [];
    Stimulus 40 (PolygonEdit 0 moved_path) []])%list.

Definition reset_click (served : json) : stimulus :=
  Stimulus 400000 ResetEditsClick [(400001, answer served); (400002, answer (JArr []))].

(** The same with a file of two plain polygons. *)
Definition edit_districts : list stimulus :=
  (open_page ++
   [Stimulus 20 (FileSelectChange "A.geojson")
      [(21, answer (FeatureCollection [district 0; district 5])); (22, answer (JArr []))];
    Stimulus 30 EditPolygonClick [];
    Stimulus 40 (PolygonEdit 0 moved_path) []])%list.

(** A file of two school districts: selected, filtered, edited and saved. *)
Definition district_of (school : string) (x : Z) : json :=
  Feature "Polygon" (JArr [triangle x]) (JObj [("school_name", JStr school)]).

Definition two_schools : json :=
  FeatureCollection [district_of "North" 0; district_of "South" 5].

Definition open_two_schools : list stimulus :=
  (open_page ++
   [Stimulus 20 (FileSelectChange "A.geojson")
      [(21, answer two_schools); (22, answer (JArr []))]])%list.

Definition filter_north : list stimulus :=
  (open_two_schools ++
   [Stimulus 30 (SchoolSelectChange "North") [(31, answer (JArr []))];
    Stimulus 40 EditPolygonClick []])%list.

Definition edit_and_save : list stimulus :=
  (filter_north ++
   [Stimulus 50 (SchoolSelectChange "") [];
    Stimulus 60 EditPolygonClick [];
    Stimulus 70 (PolygonEdit 0 moved_path) [];
    Stimulus 80 SavePolygonClick [(81, answer (JObj [("ok", JBool true)]))]])%list.

Definition saved_two_schools : json :=
  FeatureCollection
    [Feature "Polygon" (polygonPathToCoordinates moved_path)
       (JObj [("school_name", JStr "North")]);
     district_of "South" 5].

(** ** Vocabulary of the properties *)

(** [keeps π m]: whatever [m] does, and whether it returns or raises, the
    component [π] of the state is left as it was. *)
Definition keeps {X A : Type} (π : State -> X) (m : M A) : Prop :=
  forall s, π (final (m s)) = π s.

(** [preserves P m]: if [P] holds before [m], it holds after it. *)
Definition preserves {A : Type} (P : State -> Prop) (m : M A) : Prop :=
  forall s, P s -> P (final (m s)).

(** [always P m]: [P] holds once [m] is over, whether it returned or raised. *)
Definition always (P : State -> Prop) {A : Type} (m : M A) : Prop :=
  forall s, P (final (m s)).

Definition history_item_request (saveId : string) : request :=
  Request GET ("/api/history/" ++ encodeURIComponent saveId) None.

Definition history_list_request (s : State) : request :=
  Request GET
    ("/api/history?"
     ++ history_key (name_text (currentFileName (file s))) (value (schoolSelect (page s))))
    None.

(** The state in which the snapshot is applied: the status line announces
    the restore and the snapshot request has been answered. *)
Definition snapshot_arrived (s : State) (t : Z) (rest : list (Z * response)) : State :=
  upd_net
    (fun n =>
       mkNetwork t rest
         (sent n ++ [history_item_request (value (historySelect (page s)))])%list)
    (upd_page (set_statusEl "正在恢复历史版本...") s).

Definition history_key_of (s : State) : string :=
  history_key (name_text (currentFileName (file s))) (value (schoolSelect (page s))).


(** The reading of C2 that the script does not meet: the promotion ends
    with the source on the server, the items layer cleared, and a request
    for the history list among the requests it issued. *)
Definition promotion_refetches_history_list (st : stimulus) (s : State) : Prop :=
  currentFileSource (file (dispatch st s)) = "server"
  /\ currentItemsLayer (layers (dispatch st s)) = None
  /\ In (history_list_request (dispatch st s)) (requests_during st s).


(** Two features agree: same geometry type, same coordinates, same
    properties. Two collections agree feature for feature when their
    feature lists have the same length and agree position by position. *)
Definition same_feature (f g : json) : Prop :=
  geometry_type f = geometry_type g
  /\ optprop (prop f "geometry") "coordinates" = optprop (prop g "geometry") "coordinates"
  /\ prop f "properties" = prop g "properties".

Definition feature_for_feature (a b : json) : Prop :=
  exists fa fb, features_listed a fa /\ features_listed b fb /\ Forall2 same_feature fa fb.

(** A Polygon feature of the data model: rings of two-dimensional
    positions and a properties mapping. *)
Definition plain_polygon (f : json) : Prop :=
  exists g rings props,
    prop f "geometry" = Some g
    /\ prop g "type" = Some (JStr "Polygon")
    /\ prop g "coordinates" = Some (JArr (map toLngLatArray rings))
    /\ prop f "properties" = Some props
    /\ truthy props = true.

(** What the polygon load of [fileName] obtains in state [s]: the cached
    collection when the cache holds a fresh, truthy one, and otherwise what
    the server answers. *)
Definition reload_yields (s : State) (fileName : string) (fc : json) : Prop :=
  let cached :=
    (cacheGet (clock (net s)) (Some (polygons_map (responseCache s))) fileName).1 in
  if truthy cached then fc = cached
  else exists t h rest,
      inbox (net s) = (t, Answer h) :: rest /\ ok h = true /\ parsed h = Ok fc.

(** A layer of a snapshot can be drawn: the map SDK accepts its coordinates. *)
Definition renders (layer : option json) : Prop :=
  truthy_opt layer = true ->
  exists overlays, createOverlaysFromGeoJSON (or_else layer JNull) = Ok overlays.

(** ** Vocabulary of further properties *)

(** A geometry type is drawn with overlays of one class: its simple form
    and its [Multi] form with the class that reads back as the simple form. *)
Definition drawn_as (type : option json) (o : overlay) : Prop :=
  is_str type (class_type o) = true \/ is_str type ("Multi" ++ class_type o) = true.

(** The rings of a polygon path, as [polygonPathToCoordinates] sees them. *)
Definition rings (path : polygon_path) : list (list LngLat) :=
  match path with
  | FlatPath [] => []
  | FlatPath ring => [ring]
  | RingPath rs => rs
  end.

(** What an overlay is once it has been written out and drawn again. *)
Definition as_saved (o : overlay) : overlay :=
  let props := or_else (Some (getExtData o)) (JObj []) in
  match o with
  | Marker p _ _ => Marker p false props
  | Polyline path _ => Polyline path props
  | Polygon path _ => Polygon (RingPath (rings path)) props
  end.

Definition of_class (geometryType : string) (o : overlay) : bool :=
  String.eqb (class_type o) geometryType.

(** [f?.properties?.school_name] *)
Definition school_of (f : json) : option json :=
  optprop (optprop (Some f) "properties") "school_name".

(** The school names of the data model: a string, or no name at all. *)
Definition school_named (f : json) : Prop :=
  forall x, school_of f = Some x -> x = JNull \/ exists name, x = JStr name.

(** The state at a later reading of the clock. *)
Definition at_clock (now : Z) (s : State) : State :=
  upd_net (fun n => mkNetwork now (inbox n) (sent n)) s.

Definition is_draggable (o : overlay) : bool :=
  match o with
  | Marker _ d _ => d
  | _ => false
  end.

(** No overlay of the layer can be dragged. *)
Definition fixed (layer : option (list overlay)) : Prop :=
  Forall (fun o => is_draggable o = false) (default [] layer).

(** The geometry and properties of the three layers, as they read back. *)
Definition same_shapes (a b : Layers) : Prop :=
  forall k geometryType,
    overlaysToGeoJSON (layer_of k a) geometryType
    = overlaysToGeoJSON (layer_of k b) geometryType.

(** Markers can be dragged in the points layer only, and there only while
    a points session is open. *)
Definition drag_only_in_session (s : State) : Prop :=
  fixed (currentPolygonLayer (layers s))
  /\ fixed (currentItemsLayer (layers s))
  /\ (isPointsEditing (editing s) = false -> fixed (currentPointsLayer (layers s))).

Definition is_save (ev : event) : bool :=
  match ev with
  | SavePolygonClick | SavePointsClick | SaveDbClick => true
  | _ => false
  end.

(** Since the state [s0] the log of requests has only grown, and by
    [GET] requests only. *)
Definition only_gets_since (s0 s : State) : Prop :=
  exists issued,
    sent (net s) = (sent (net s0) ++ issued)%list
    /\ Forall (fun r => meth r = GET) issued.

Definition never_raises {A : Type} (m : M A) : Prop :=
  forall s, raised (m s) = false.

(** The two listeners whose work is not inside a [try]. *)
Definition unguarded (ev : event) : bool :=
  match ev with
  | ResetEditsClick | SchoolSelectChange _ => true
  | _ => false
  end.

(** The points of a file arrive as a collection without a [features]
    member while the points layer is shown. *)
Definition points_without_features : list stimulus :=
  (open_page ++
   [Stimulus 10 (ShowPointsChange true) [];
    Stimulus 20 (FileSelectChange "A.geojson")
      [(21, answer (FeatureCollection [district 0]));
       (22, answer (JObj [("type", JStr "FeatureCollection")]));
       (23, answer (JArr []))]])%list.

Definition save_all_request : request := Request POST "/api/save_all" None.

(** The status line after a save-all that the server accepted. *)
Definition save_all_status (r : json) : string :=
  let errCount := or_else (js_length (optprop (Some r) "errors")) (JNum 0) in
  if truthy errCount
  then "已保存到数据库，但有 " ++ js_to_string errCount ++ " 个文件失败"
  else "已保存到数据库".

(** Reading one encoded character back from the front of a form-encoded
    string: the inverse of the encoding, used to tell keys apart. *)
Definition hex_value (c : ascii) : nat :=
  let n := nat_of_ascii c in
  (if n <? 58 then n - 48 else n - 55)%nat.

Definition form_urldecode_char (s : string) : option (ascii * string) :=
  match s with
  | EmptyString => None
  | String c rest =>
      if Ascii.eqb c "+" then Some (" "%char, rest)
      else if Ascii.eqb c "%" then
        match rest with
        | String h (String l rest') =>
            Some (ascii_of_nat (16 * hex_value h + hex_value l), rest')
        | _ => None
        end
      else Some (c, rest)
  end.

(** Polygon editors are open during a polygon session only. *)
Definition editors_only_in_session (s : State) : Prop :=
  isPolygonEditing (editing s) = false -> polygonEditors (editing s) = [].

(** * Properties *)

(** ** Reasoning about handlers *)

Lemma bind_Return {A B : Type} (m : M A) (f : A -> M B) (s s' : State) (a : A) :
  m s = Return a s' -> (m ≫= f) s = f a s'.
Proof. intros H. unfold mbind, M_bind. now rewrite H. Qed.

Lemma bind_Raise {A B : Type} (m : M A) (f : A -> M B) (s s' : State) (e : string) :
  m s = Raise e s' -> (m ≫= f) s = Raise e s'.
Proof. intros H. unfold mbind, M_bind. now rewrite H. Qed.

Lemma try_Return {A : Type} (m : M A) (h : string -> M A) (s s' : State) (a : A) :
  m s = Return a s' -> try_catch m h s = Return a s'.
Proof. intros H. unfold try_catch. now rewrite H. Qed.

Lemma try_Raise {A : Type} (m : M A) (h : string -> M A) (s s' : State) (e : string) :
  m s = Raise e s' -> try_catch m h s = h e s'.
Proof. intros H. unfold try_catch. now rewrite H. Qed.

Section Frames.
Context {X : Type} (π : State -> X).

Lemma keeps_ret {A : Type} (a : A) : keeps π (mret a).
Proof. intros s. reflexivity. Qed.

Lemma keeps_throw {A : Type} (e : string) : keeps π (@throw A e).
Proof. intros s. reflexivity. Qed.

Lemma keeps_read {A : Type} (f : State -> A) : keeps π (read f).
Proof. intros s. reflexivity. Qed.

Lemma keeps_modify (f : State -> State) :
  (forall s, π (f s) = π s) -> keeps π (modify f).
Proof. intros H s. apply H. Qed.

Lemma keeps_bind {A B : Type} (m : M A) (f : A -> M B) :
  keeps π m -> (forall a, keeps π (f a)) -> keeps π (m ≫= f).
Proof.
  intros Hm Hf s. unfold mbind, M_bind.
  specialize (Hm s). destruct (m s) as [a s' | e s']; simpl in *.
  - now rewrite Hf.
  - exact Hm.
Qed.

Lemma keeps_try {A : Type} (m : M A) (h : string -> M A) :
  keeps π m -> (forall e, keeps π (h e)) -> keeps π (try_catch m h).
Proof.
  intros Hm Hh s. unfold try_catch.
  specialize (Hm s). destruct (m s) as [a s' | e s']; simpl in *.
  - exact Hm.
  - now rewrite Hh.
Qed.

Lemma keeps_lift {A : Type} (r : result A) : keeps π (lift r).
Proof. destruct r; intros s; reflexivity. Qed.

Lemma keeps_when (b : bool) (m : M unit) : keeps π m -> keeps π (when b m).
Proof. destruct b; intros H; [exact H | apply keeps_ret]. Qed.
End Frames.

(** Solves [keeps π m] for straight-line handlers built from the
    combinators; facts about callees come from the hint database. *)
Create HintDb frame.

Ltac frame_step :=
  match goal with
  | |- keeps _ (mret _) => apply keeps_ret
  | |- keeps _ (throw _) => apply keeps_throw
  | |- keeps _ (read _) => apply keeps_read
  | |- keeps _ (lift _) => apply keeps_lift
  | |- keeps _ (modify _) => apply keeps_modify; intros; reflexivity
  | |- keeps _ (when _ _) => apply keeps_when
  | |- keeps _ (_ ≫= _) => apply keeps_bind; [ | intros ]
  | |- keeps _ (try_catch _ _) => apply keeps_try; [ | intros ]
  | |- keeps _ (if ?b then _ else _) => destruct b
  | |- keeps _ (match ?x with _ => _ end) => destruct x
  | |- keeps _ _ => solve [ auto with frame ]
  end.

Ltac frame := repeat frame_step.

Lemma cache_of_set_cache (ref : cache_ref) (m : gmap string entry) (c : ResponseCache) :
  cache_of ref (set_cache ref m c) = m.
Proof. destruct ref; reflexivity. Qed.

Lemma cache_of_set_cache_ne (ref ref' : cache_ref) (m : gmap string entry)
    (c : ResponseCache) :
  ref <> ref' -> cache_of ref' (set_cache ref m c) = cache_of ref' c.
Proof. destruct ref, ref'; intros H; try reflexivity; congruence. Qed.

Lemma setStatus_keeps {X : Type} (π : State -> X) (text : string) :
  (forall v s, π (upd_page (set_statusEl v) s) = π s) -> keeps π (setStatus text).
Proof. intros H s. apply H. Qed.

Lemma fetch_keeps {X : Type} (π : State -> X) (req : request) :
  (forall f s, π (upd_net f s) = π s) -> keeps π (fetch req).
Proof.
  intros H s. unfold fetch.
  destruct (inbox (net s)) as [ | [t [e | h]] rest]; simpl; now rewrite ?H.
Qed.

Lemma cacheGet_ref_keeps {X : Type} (π : State -> X) (ref : cache_ref) (key : string) :
  (forall f s, π (upd_cache f s) = π s) -> keeps π (cacheGet_ref ref key).
Proof.
  intros H s. unfold cacheGet_ref.
  destruct (cacheGet _ _ _) as [v [m | ]]; simpl; now rewrite ?H.
Qed.

Lemma cacheSet_ref_keeps {X : Type} (π : State -> X) (ref : cache_ref) (key : string)
    (d : json) :
  (forall f s, π (upd_cache f s) = π s) -> keeps π (cacheSet_ref ref key d).
Proof. intros H s. unfold cacheSet_ref. simpl. apply H. Qed.

Lemma fetchJsonWithCache_keeps {X : Type} (π : State -> X) (url : string)
    (ref : cache_ref) (key : string) (force : bool) :
  (forall f s, π (upd_cache f s) = π s) ->
  (forall f s, π (upd_net f s) = π s) ->
  keeps π (fetchJsonWithCache url ref key force).
Proof.
  intros Hc Hn. unfold fetchJsonWithCache.
  pose proof (cacheGet_ref_keeps π ref key Hc).
  pose proof (fun d => cacheSet_ref_keeps π ref key d Hc).
  pose proof (fun req => fetch_keeps π req Hn).
  frame.
Qed.

(** ** The response cache *)

Lemma cacheGet_miss (now : Z) (m : gmap string entry) (key : string) :
  m !! key = None -> cacheGet now (Some m) key = (JNull, Some m).
Proof. intros H. unfold cacheGet. now rewrite H. Qed.

Lemma cacheGet_fresh (now : Z) (m : gmap string entry) (key : string) (e : entry) :
  m !! key = Some e -> now - ts e <= CACHE_TTL_MS ->
  cacheGet now (Some m) key = (data e, Some m).
Proof.
  intros H Hage. unfold cacheGet. rewrite H.
  destruct (Z.gtb_spec (now - ts e) CACHE_TTL_MS); [lia | reflexivity].
Qed.

Lemma cacheGet_expired (now : Z) (m : gmap string entry) (key : string) (e : entry) :
  m !! key = Some e -> now - ts e > CACHE_TTL_MS ->
  cacheGet now (Some m) key = (JNull, Some (delete key m)).
Proof.
  intros H Hage. unfold cacheGet. rewrite H.
  destruct (Z.gtb_spec (now - ts e) CACHE_TTL_MS); [reflexivity | lia].
Qed.

Lemma cacheGet_cases (now : Z) (m : gmap string entry) (key : string) :
  cacheGet now (Some m) key = (JNull, Some m) /\ m !! key = None
  \/ (exists e, m !! key = Some e /\ now - ts e <= CACHE_TTL_MS
                /\ cacheGet now (Some m) key = (data e, Some m))
  \/ (exists e, m !! key = Some e /\ now - ts e > CACHE_TTL_MS
                /\ cacheGet now (Some m) key = (JNull, Some (delete key m))).
Proof.
  destruct (m !! key) as [e | ] eqn:H.
  - destruct (Z_le_gt_dec (now - ts e) CACHE_TTL_MS).
    + right; left. exists e. eauto using cacheGet_fresh.
    + right; right. exists e. eauto using cacheGet_expired.
  - left. eauto using cacheGet_miss.
Qed.

(** C10. [cacheGet] is a mutating read: an entry older than the TTL is
    deleted from the map before absent ([null]) is returned; a fresh hit and
    a miss leave the map as it is; and whatever happens, the entries under
    every other key are the same after the read as before. *)
Theorem cacheGet_mutating_read (now : Z) (m : gmap string entry) (key : string) :
  (forall e, m !! key = Some e -> now - ts e > CACHE_TTL_MS ->
     cacheGet now (Some m) key = (JNull, Some (delete key m))
     /\ delete key m !! key = None)
  /\ (forall e, m !! key = Some e -> now - ts e <= CACHE_TTL_MS ->
        cacheGet now (Some m) key = (data e, Some m))
  /\ (m !! key = None -> cacheGet now (Some m) key = (JNull, Some m))
  /\ (exists m', (cacheGet now (Some m) key).2 = Some m'
        /\ forall other, other <> key -> m' !! other = m !! other).
Proof.
  split; [ | split; [ | split]].
  - intros e H Hage. split; [now apply (cacheGet_expired now m key e) | apply lookup_delete_eq].
  - intros e. apply cacheGet_fresh.
  - apply cacheGet_miss.
  - destruct (cacheGet_cases now m key) as [[E _] | [(e & _ & _ & E) | (e & _ & _ & E)]];
      rewrite E; simpl; eexists; (split; [reflexivity | ]); intros other Hne;
      [reflexivity | reflexivity | now apply lookup_delete_ne].
Qed.

Lemma fetch_logs (req : request) (s : State) :
  sent (net (final (fetch req s))) = (sent (net s) ++ [req])%list.
Proof.
  unfold fetch. destruct (inbox (net s)) as [ | [t [e | h]] rest]; reflexivity.
Qed.

Lemma fetch_Answer (req : request) (s : State) (t : Z) (h : http)
    (rest : list (Z * response)) :
  inbox (net s) = (t, Answer h) :: rest ->
  fetch req s =
  Return h (upd_net (fun n => mkNetwork t rest (sent n ++ [req])%list) s).
Proof. intros H. unfold fetch. rewrite H. reflexivity. Qed.

Lemma fetchJsonWithCache_force_logs (url : string) (ref : cache_ref) (key : string)
    (s : State) :
  sent (net (final (fetchJsonWithCache url ref key true s)))
  = (sent (net s) ++ [Request GET url None])%list.
Proof.
  unfold fetchJsonWithCache. simpl. unfold mbind, M_bind. simpl.
  pose proof (fetch_logs (Request GET url None) s) as L.
  destruct (fetch (Request GET url None) s) as [h s' | e s']; simpl in *; [ | exact L].
  destruct (ok h); simpl; [ | exact L].
  destruct (parsed h); simpl; exact L.
Qed.

Lemma fetchJsonWithCache_force_success (url : string) (ref : cache_ref) (key : string)
    (s : State) (t : Z) (h : http) (rest : list (Z * response)) (d : json) :
  inbox (net s) = (t, Answer h) :: rest -> ok h = true -> parsed h = Ok d ->
  exists s',
    fetchJsonWithCache url ref key true s = Return d s'
    /\ cache_of ref (responseCache s') = <[key := Entry t d]> (cache_of ref (responseCache s))
    /\ clock (net s') = t.
Proof.
  intros Hin Hok Hp. unfold fetchJsonWithCache. simpl.
  unfold mbind at 1, M_bind at 1. simpl.
  erewrite bind_Return by (apply fetch_Answer; eassumption).
  rewrite Hok. simpl. rewrite Hp. simpl.
  eexists. split; [reflexivity | ]. simpl.
  split; [apply cache_of_set_cache | reflexivity].
Qed.

(** What the spec adds in §4.1: a read that fails leaves the cache alone. *)
Lemma fetchJsonWithCache_force_failure (url : string) (ref : cache_ref) (key : string)
    (s : State) :
  raised (fetchJsonWithCache url ref key true s) = true ->
  responseCache (final (fetchJsonWithCache url ref key true s)) = responseCache s.
Proof.
  unfold fetchJsonWithCache. simpl. unfold mbind, M_bind. simpl. unfold fetch.
  destruct (inbox (net s)) as [ | [t [e | h]] rest]; simpl; try reflexivity.
  destruct (ok h); simpl; [ | reflexivity].
  destruct (parsed h); simpl; [discriminate | reflexivity].
Qed.

(** C4. For every map of the cache and every key: a [get] after a [set],
    while the entry is at most five minutes old, returns the stored value; a
    [get] on an entry older than five minutes returns absent; and a forced
    [fetchJsonWithCache] issues the network read whatever the cache holds
    and however old the entry is, and stores what the read delivers under
    the key, with the time of arrival. *)
Theorem cache_ttl_and_force (ref : cache_ref) (key : string) :
  (forall (m : gmap string entry) (v : json) (t0 t1 : Z),
      t1 - t0 <= CACHE_TTL_MS ->
      (cacheGet t1 (cacheSet t0 (Some m) key v) key).1 = v)
  /\ (forall (m : gmap string entry) (e : entry) (t1 : Z),
        m !! key = Some e -> t1 - ts e > CACHE_TTL_MS ->
        (cacheGet t1 (Some m) key).1 = JNull)
  /\ (forall (url : string) (s : State),
        sent (net (final (fetchJsonWithCache url ref key true s)))
        = (sent (net s) ++ [Request GET url None])%list)
  /\ (forall (url : string) (s : State) (t : Z) (h : http)
             (rest : list (Z * response)) (d : json),
        inbox (net s) = (t, Answer h) :: rest -> ok h = true -> parsed h = Ok d ->
        exists s',
          fetchJsonWithCache url ref key true s = Return d s'
          /\ cache_of ref (responseCache s') !! key = Some (Entry t d)).
Proof.
  split; [ | split; [ | split]].
  - intros m v t0 t1 Hage. unfold cacheSet.
    rewrite (cacheGet_fresh t1 _ key (Entry t0 v));
      [reflexivity | apply lookup_insert_eq | exact Hage].
  - intros m e t1 H Hage. now erewrite cacheGet_expired by eassumption.
  - intros. apply fetchJsonWithCache_force_logs.
  - intros url s t h rest d Hin Hok Hp.
    destruct (fetchJsonWithCache_force_success url ref key s t h rest d Hin Hok Hp)
      as (s' & E & Hc & _).
    exists s'. split; [exact E | ]. rewrite Hc. apply lookup_insert_eq.
Qed.

(** ** The school filter *)

Lemma filter_twice {A : Type} (p : A -> bool) (l : list A) :
  List.filter p (List.filter p l) = List.filter p l.
Proof.
  induction l as [ | x l IH]; simpl; [reflexivity | ].
  destruct (p x) eqn:E; simpl; [ | exact IH].
  now rewrite E, IH.
Qed.

Lemma has_school_iff (schoolName : string) (f : json) :
  has_school schoolName f = true <->
  prop (or_else (optprop (Some f) "properties") (JObj [])) "school_name"
  = Some (JStr schoolName).
Proof.
  unfold has_school, is_str.
  destruct (prop _ "school_name") as [[ | | | s' | | ] | ]; try (split; congruence).
  rewrite String.eqb_eq. split; congruence.
Qed.

Lemma filter_ref_identity (geojson : json) (schoolName : string) :
  schoolName = "" \/ is_FeatureCollection geojson = false ->
  filterGeoJSONBySchool_ref geojson schoolName = Ok SameObject.
Proof.
  unfold filterGeoJSONBySchool_ref, is_FeatureCollection.
  intros [-> | H].
  - rewrite orb_true_r. reflexivity.
  - destruct (truthy geojson); simpl in *; [ | reflexivity].
    rewrite H. simpl. now destruct (String.eqb schoolName "").
Qed.

Lemma filter_ref_collection (geojson : json) (schoolName : string) (fs : list json) :
  features_listed geojson fs -> schoolName <> "" ->
  is_FeatureCollection geojson = true ->
  filterGeoJSONBySchool_ref geojson schoolName
  = Ok (NewCollection (List.filter (has_school schoolName) fs)).
Proof.
  unfold filterGeoJSONBySchool_ref, is_FeatureCollection, features_listed.
  intros Hfs Hname H. apply andb_true_iff in H as [Ht Hty].
  rewrite Ht, Hty, Hfs. simpl.
  apply String.eqb_neq in Hname. now rewrite Hname.
Qed.

Lemma FeatureCollection_is (fs : list json) :
  is_FeatureCollection (FeatureCollection fs) = true
  /\ features_listed (FeatureCollection fs) fs.
Proof. split; reflexivity. Qed.


(** Outside the data model the call does raise: a FeatureCollection whose
    [features] member is an object has no [filter] method. *)
Example filterBySchool_features_not_an_array :
  filterGeoJSONBySchool
    (JObj [("type", JStr "FeatureCollection"); ("features", JObj [])]) "X"
  = Throw type_error.
Proof. reflexivity. Qed.

(** The only way for the filter to raise is the one above. *)
Lemma filterBySchool_raises_only_outside_model (geojson : json) (schoolName m : string) :
  filterGeoJSONBySchool geojson schoolName = Throw m ->
  is_FeatureCollection geojson = true
  /\ schoolName <> ""
  /\ forall fs, ~ features_listed geojson fs.
Proof.
  unfold filterGeoJSONBySchool, filterGeoJSONBySchool_ref, is_FeatureCollection,
    features_listed.
  destruct (truthy geojson); [ | discriminate]. cbn [negb orb andb].
  destruct (String.eqb_spec schoolName ""); [discriminate | ].
  destruct (is_str (prop geojson "type") "FeatureCollection"); [ | discriminate].
  cbn [negb].
  destruct (or_else (prop geojson "features") (JArr [])); try discriminate;
    intros _; repeat split; try assumption; intros fs; discriminate.
Qed.


(** ** Reading overlays back *)

Lemma overlayToFeature_type (geometryType : string) (o : overlay) :
  Forall (fun f => geometry_type f = Some (JStr geometryType))
    (overlayToFeature geometryType o).
Proof.
  destruct o; simpl;
    match goal with |- context [String.eqb ?a ?b] => destruct (String.eqb_spec a b) end;
    subst; repeat constructor.
Qed.

Lemma overlayToFeature_other_class (geometryType : string) (o : overlay) :
  class_type o <> geometryType -> overlayToFeature geometryType o = [].
Proof.
  destruct o; simpl; intros H;
    match goal with |- context [String.eqb ?a ?b] => destruct (String.eqb_spec a b) end;
    congruence.
Qed.

Lemma overlayToFeature_same_class (o : overlay) :
  exists f, overlayToFeature (class_type o) o = [f].
Proof. destruct o; simpl; eexists; reflexivity. Qed.

Lemma for_each_new_polygons (props : json) (polys : list json) (paths : list polygon_path) :
  all_some (fun p => polygon_path_of (Some p)) polys = Some paths ->
  for_each_new (fun poly => new_Polygon poly props) polys
  = Ok (map (fun p => Polygon p props) paths).
Proof.
  revert paths. induction polys as [ | c polys IH]; simpl; intros paths H.
  - now inversion H.
  - unfold new_Polygon at 1.
    destruct (polygon_path_of (Some c)) as [p | ]; [ | discriminate].
    destruct (all_some _ polys) as [ps | ]; [ | discriminate].
    inversion H; subst. now rewrite (IH ps).
Qed.

Lemma all_some_length {A B : Type} (f : A -> option B) (l : list A) (l' : list B) :
  all_some f l = Some l' -> length l' = length l.
Proof.
  revert l'. induction l as [ | x l IH]; simpl; intros l' H.
  - now inversion H.
  - destruct (f x); [ | discriminate]. destruct (all_some f l); [ | discriminate].
    inversion H; subst. simpl. now rewrite (IH l0).
Qed.

Lemma polygons_read_back (props : json) (paths : list polygon_path) :
  truthy props = true ->
  overlaysToGeoJSON (Some (map (fun p => Polygon p props) paths)) "Polygon"
  = FeatureCollection
      (map (fun p => Feature "Polygon" (polygonPathToCoordinates p) props) paths).
Proof.
  intros Hp. unfold overlaysToGeoJSON. f_equal. unfold FeatureCollection.
  do 3 f_equal.
  induction paths as [ | p paths IH]; simpl; [reflexivity | ].
  rewrite Hp. now rewrite IH.
Qed.

Lemma props_truthy (v : option json) : truthy (or_else v (JObj [])) = true.
Proof.
  unfold or_else. destruct v as [v | ]; [ | reflexivity].
  destruct (truthy v) eqn:E; [exact E | reflexivity].
Qed.

(** C9. [overlaysToGeoJSON] is defined on every overlay list and every
    requested geometry type, and what it returns is a FeatureCollection
    whose features all carry the requested geometry type; an overlay of
    another class contributes nothing, one of the matching class exactly one
    feature; a [null] list gives the empty collection. Hence a MultiPolygon
    feature, rendered as one polygon overlay per element, reads back as one
    separate Polygon feature per element, never as a MultiPolygon. *)
Theorem overlaysToGeoJSON_contract :
  (forall geometryType, overlaysToGeoJSON None geometryType = FeatureCollection [])
  /\ (forall overlays geometryType, exists fs,
        overlaysToGeoJSON overlays geometryType = FeatureCollection fs
        /\ Forall (fun f => geometry_type f = Some (JStr geometryType)) fs)
  /\ (forall before o after geometryType,
        class_type o <> geometryType ->
        overlaysToGeoJSON (Some (before ++ o :: after)%list) geometryType
        = overlaysToGeoJSON (Some (before ++ after)%list) geometryType)
  /\ (forall o, exists f,
        overlaysToGeoJSON (Some [o]) (class_type o) = FeatureCollection [f])
  /\ (forall feature geometry polys paths,
        prop feature "geometry" = Some geometry ->
        truthy geometry = true ->
        prop geometry "type" = Some (JStr "MultiPolygon") ->
        prop geometry "coordinates" = Some (JArr polys) ->
        all_some (fun p => polygon_path_of (Some p)) polys = Some paths ->
        let props := or_else (prop feature "properties") (JObj []) in
        exists overlays,
          createOverlaysFromFeature feature = Ok overlays
          /\ length overlays = length polys
          /\ overlaysToGeoJSON (Some overlays) "Polygon"
             = FeatureCollection
                 (map (fun p => Feature "Polygon" (polygonPathToCoordinates p) props)
                    paths)).
Proof.
  split; [ | split; [ | split; [ | split]]].
  - reflexivity.
  - intros [os | ] geometryType; simpl.
    + eexists. split; [reflexivity | ].
      induction os as [ | o os IH]; simpl; [constructor | ].
      apply Forall_app. split; [apply overlayToFeature_type | exact IH].
    + exists []. split; [reflexivity | constructor].
  - intros before o after geometryType H. unfold overlaysToGeoJSON.
    rewrite !map_app, !concat_app. simpl.
    now rewrite (overlayToFeature_other_class _ _ H).
  - intros o. destruct (overlayToFeature_same_class o) as [f Hf].
    exists f. unfold overlaysToGeoJSON. simpl. now rewrite Hf.
  - intros feature geometry polys paths Hg Ht Hty Hc Hp props.
    exists (map (fun p => Polygon p props) paths).
    assert (Hfeat : optprop (Some feature) "geometry" = Some geometry).
    { destruct feature; simpl in *; try discriminate. exact Hg. }
    assert (Hgeo : forall k, optprop (Some geometry) k = prop geometry k).
    { intros k. destruct geometry; simpl in *; try discriminate; reflexivity. }
    split; [ | split].
    + unfold createOverlaysFromFeature. rewrite Hfeat.
      cbn [truthy_opt]. rewrite Ht. cbn [negb].
      rewrite !Hgeo, Hty, Hc. cbn [is_str String.eqb Ascii.eqb Bool.eqb forEach_coords].
      now apply for_each_new_polygons.
    + rewrite length_map. eapply all_some_length; eassumption.
    + apply polygons_read_back. apply props_truthy.
Qed.

Example multipolygon_reads_back_as_two_polygons :
  let ring a := JArr [JArr [JNum a; JNum 0]; JArr [JNum a; JNum 1]; JArr [JNum (a + 1); JNum 0]] in
  let multi :=
    JObj [("type", JStr "Feature");
          ("geometry", JObj [("type", JStr "MultiPolygon");
                             ("coordinates", JArr [JArr [ring 0]; JArr [ring 5]])]);
          ("properties", JObj [("school_name", JStr "X")])] in
  match createOverlaysFromFeature multi with
  | Ok overlays =>
      overlaysToGeoJSON (Some overlays) "Polygon"
      = FeatureCollection
          [Feature "Polygon" (JArr [ring 0]) (JObj [("school_name", JStr "X")]);
           Feature "Polygon" (JArr [ring 5]) (JObj [("school_name", JStr "X")])]
  | Throw _ => False
  end.
Proof. reflexivity. Qed.

(** ** Runs *)

Lemma reachable_run (trace : list stimulus) (s : State) :
  reachable s -> reachable (run trace s).
Proof.
  revert s. induction trace as [ | st trace IH]; intros s H; simpl.
  - exact H.
  - apply IH. now constructor.
Qed.

(** ** Edit sessions *)

(** C3. The claim is that in every reachable state an active edit session
    implies a rendered overlay in that layer. The run below is a reachable
    state in which the points session is active, no filter is applied, and
    the points layer has been cleared: hiding the points layer clears it
    without ending the session, and the toggle then refuses to end it. *)
Theorem points_session_outlives_its_layer :
  let s := run hide_points_while_editing (initial blank_page) in
  reachable s
  /\ isPointsEditing (editing s) = true
  /\ currentPointsLayer (layers s) = None
  /\ value (schoolSelect (page s)) = ""
  /\ isPointsEditing (editing (dispatch (Stimulus 50 EditPointsClick []) s)) = true
  /\ statusEl (page (dispatch (Stimulus 50 EditPointsClick []) s)) = "未加载点集，无法编辑".
Proof.
  split; [apply reachable_run; constructor | ].
  vm_compute. repeat split.
Qed.

(** ** Saving *)

(** C1. The claim is that a save rejected by the guard on the file context
    leaves the original snapshot as it was. In the run below a local file is
    open, its polygon has been reshaped, and "save polygon" is refused with
    no request issued; yet the original snapshot of the polygon layer is now
    the reshaped geometry, and a reset re-renders the reshaped polygon. *)
Theorem refused_save_overwrites_original :
  let before := run open_local_file (initial blank_page) in
  let after := run save_local_file (initial blank_page) in
  currentFileSource (file after) = "local"
  /\ statusEl (page after) = "本地文件仅预览，无法保存到服务器"
  /\ sent (net after) = sent (net before)
  /\ originalPolygonGeoJSON (originals before) = FeatureCollection [district 0]
  /\ originalPolygonGeoJSON (originals after)
     = FeatureCollection
         [Feature "Polygon" (polygonPathToCoordinates moved_path)
            (JObj [("school_name", JStr "X")])]
  /\ originalPolygonGeoJSON (originals after) <> originalPolygonGeoJSON (originals before)
  /\ currentPolygonLayer (layers (dispatch (Stimulus 50 ResetEditsClick []) after))
     = Some [Polygon moved_path (JObj [("school_name", JStr "X")])].
Proof.
  vm_compute. repeat split. discriminate.
Qed.

Lemma saveGeoJSON_refused (kind : string) (geojson : json) (s : State) :
  currentFileSource (file s) <> "server" ->
  saveGeoJSON kind geojson s
  = Return tt (upd_page (set_statusEl "本地文件仅预览，无法保存到服务器") s).
Proof.
  intros H. unfold saveGeoJSON, getFileName, read, setStatus, modify.
  unfold mbind, M_bind.
  apply String.eqb_neq in H. rewrite H, orb_true_r. reflexivity.
Qed.

Lemma savePolygonClick_filtered (s : State) :
  value (schoolSelect (page s)) <> "" ->
  savePolygonClick s = Return tt (upd_page (set_statusEl "请先切换到全部校区再保存") s).
Proof.
  intros H. apply String.eqb_neq in H.
  unfold savePolygonClick, try_catch, isSchoolFilterActive, getSelectedSchool, read.
  unfold mbind, M_bind, mret, M_ret. rewrite H. reflexivity.
Qed.

Lemma savePointsClick_filtered (s : State) :
  value (schoolSelect (page s)) <> "" ->
  savePointsClick s = Return tt (upd_page (set_statusEl "请先切换到全部校区再保存") s).
Proof.
  intros H. apply String.eqb_neq in H.
  unfold savePointsClick, try_catch, isSchoolFilterActive, getSelectedSchool, read.
  unfold mbind, M_bind, mret, M_ret. rewrite H. reflexivity.
Qed.

Lemma savePolygonClick_refused (s : State) :
  value (schoolSelect (page s)) = "" ->
  currentFileSource (file s) <> "server" ->
  savePolygonClick s =
  if nonempty (currentPolygonLayer (layers s))
  then Return tt
         (upd_originals
            (set_originalPolygon
               (cloneGeoJSON (overlaysToGeoJSON (currentPolygonLayer (layers s)) "Polygon")))
            (upd_page (set_statusEl "本地文件仅预览，无法保存到服务器") s))
  else Return tt (upd_page (set_statusEl "未加载面数据，无法保存") s).
Proof.
  intros Hf Hs.
  cbv beta iota zeta delta
    [savePolygonClick try_catch isSchoolFilterActive getSelectedSchool read mbind M_bind
     mret M_ret].
  rewrite Hf. cbn [String.eqb negb].
  destruct (nonempty (currentPolygonLayer (layers s))); cbn [negb].
  - now rewrite (saveGeoJSON_refused _ _ _ Hs).
  - reflexivity.
Qed.

Lemma savePointsClick_refused (s : State) :
  value (schoolSelect (page s)) = "" ->
  currentFileSource (file s) <> "server" ->
  savePointsClick s =
  if nonempty (currentPointsLayer (layers s))
  then Return tt
         (upd_originals
            (set_originalPoints
               (cloneGeoJSON (overlaysToGeoJSON (currentPointsLayer (layers s)) "Point")))
            (upd_page (set_statusEl "本地文件仅预览，无法保存到服务器") s))
  else Return tt (upd_page (set_statusEl "未加载点集，无法保存") s).
Proof.
  intros Hf Hs.
  cbv beta iota zeta delta
    [savePointsClick try_catch isSchoolFilterActive getSelectedSchool read mbind M_bind
     mret M_ret].
  rewrite Hf. cbn [String.eqb negb].
  destruct (nonempty (currentPointsLayer (layers s))); cbn [negb].
  - now rewrite (saveGeoJSON_refused _ _ _ Hs).
  - reflexivity.
Qed.

(** C5. A save of the polygon or of the points layer attempted while a
    school filter is active, or while the file context is not sourced from
    the server, is refused before any network call: the handler returns
    without raising, the log of issued requests and the cache are as before,
    and the status line carries the explanation. *)
Theorem save_refused_without_request (s : State) (click : M unit) :
  click = savePolygonClick \/ click = savePointsClick ->
  value (schoolSelect (page s)) <> "" \/ currentFileSource (file s) <> "server" ->
  raised (click s) = false
  /\ sent (net (final (click s))) = sent (net s)
  /\ responseCache (final (click s)) = responseCache s
  /\ (value (schoolSelect (page s)) <> "" ->
        statusEl (page (final (click s))) = "请先切换到全部校区再保存")
  /\ (value (schoolSelect (page s)) = "" ->
        statusEl (page (final (click s))) = "本地文件仅预览，无法保存到服务器"
        \/ statusEl (page (final (click s))) = "未加载面数据，无法保存"
           /\ nonempty (currentPolygonLayer (layers s)) = false
        \/ statusEl (page (final (click s))) = "未加载点集，无法保存"
           /\ nonempty (currentPointsLayer (layers s)) = false).
Proof.
  intros Hclick Hguard.
  destruct (String.eqb_spec (value (schoolSelect (page s))) "") as [Hf | Hf].
  - assert (Hs : currentFileSource (file s) <> "server") by (destruct Hguard; congruence).
    destruct Hclick as [-> | ->].
    + rewrite (savePolygonClick_refused s Hf Hs).
      destruct (nonempty (currentPolygonLayer (layers s))); simpl;
        repeat split; try congruence; intros _; auto.
    + rewrite (savePointsClick_refused s Hf Hs).
      destruct (nonempty (currentPointsLayer (layers s))); simpl;
        repeat split; try congruence; intros _; auto.
  - destruct Hclick as [-> | ->];
      [rewrite (savePolygonClick_filtered s Hf) | rewrite (savePointsClick_filtered s Hf)];
      simpl; repeat split; congruence.
Qed.

Lemma save_refused_without_request_witness :
  let s := run open_local_file (initial blank_page) in
  currentFileSource (file s) <> "server"
  /\ sent (net (final (savePolygonClick s))) = sent (net s)
  /\ statusEl (page (final (savePolygonClick s))) = "本地文件仅预览，无法保存到服务器".
Proof.
  cbv zeta.
  pose proof (save_refused_without_request (run open_local_file (initial blank_page))
              savePolygonClick (or_introl eq_refl)) as H.
  assert (G: currentFileSource (file (run open_local_file (initial blank_page))) <> "server") by (vm_compute; discriminate).
  specialize (H (or_intror G)).
  destruct H as (_ & Hsent & _ & _ & _).
  split; [vm_compute; discriminate | ].
  split; [exact Hsent | vm_compute; reflexivity].
Defined.

(** The defect behind C1 in general: whenever the guard on the file context
    refuses a save, the handler still replaces the original snapshot by the
    geometry read back from the overlays. *)
Lemma refused_save_replaces_original (s : State) :
  value (schoolSelect (page s)) = "" ->
  currentFileSource (file s) <> "server" ->
  nonempty (currentPolygonLayer (layers s)) = true ->
  originalPolygonGeoJSON (originals (final (savePolygonClick s)))
  = overlaysToGeoJSON (currentPolygonLayer (layers s)) "Polygon".
Proof.
  intros Hf Hs Hl. rewrite (savePolygonClick_refused s Hf Hs), Hl. simpl.
  destruct (currentPolygonLayer (layers s)); reflexivity.
Qed.

(** ** Loading a layer that does not exist yet *)

Lemma fetchJsonWithCache_unforced (url : string) (ref : cache_ref) (key : string)
    (s : State) :
  fetchJsonWithCache url ref key false s =
  match cacheGet_ref ref key s with
  | Return cached s1 =>
      if truthy cached then Return cached s1
      else fetchJsonWithCache url ref key true s1
  | Raise e s1 => Raise e s1
  end.
Proof.
  cbv beta iota zeta delta [fetchJsonWithCache mbind M_bind mret M_ret negb].
  destruct (cacheGet_ref ref key s) as [cached s1 | e s1]; [ | reflexivity].
  now destruct (truthy cached).
Qed.

Lemma cacheGet_ref_Return (ref : cache_ref) (key : string) (s : State) :
  exists s1,
    cacheGet_ref ref key s
    = Return (cacheGet (clock (net s)) (Some (cache_of ref (responseCache s))) key).1 s1
    /\ layers s1 = layers s /\ editing s1 = editing s /\ originals s1 = originals s
    /\ file s1 = file s /\ page s1 = page s /\ net s1 = net s.
Proof.
  unfold cacheGet_ref.
  destruct (cacheGet _ _ _) as [v [m | ]]; eexists; (split; [reflexivity | ]);
    repeat split.
Qed.

Lemma forced_fetch_not_ok (url : string) (ref : cache_ref) (key : string) (s : State)
    (t : Z) (h : http) (rest : list (Z * response)) :
  inbox (net s) = (t, Answer h) :: rest -> ok h = false ->
  fetchJsonWithCache url ref key true s
  = Raise ("请求失败:" ++ pretty (status h))
      (upd_net (fun n => mkNetwork t rest (sent n ++ [Request GET url None])%list) s).
Proof.
  intros Hin Hok.
  cbv beta iota zeta delta [fetchJsonWithCache mbind M_bind mret M_ret negb].
  rewrite (fetch_Answer _ _ _ _ _ Hin), Hok. reflexivity.
Qed.

Lemma status_text_404 :
  forallb
    (fun code => Nat.eqb code 404 || negb (includes ("请求失败:" ++ pretty code) "404"))
    (seq 100 900) = true
  /\ includes ("请求失败:" ++ pretty 404%nat) "404" = true.
Proof. split; vm_compute; reflexivity. Qed.

Lemma other_status_has_no_404 (code : nat) :
  (100 <= code <= 999)%nat -> code <> 404%nat ->
  includes ("请求失败:" ++ pretty code) "404" = false.
Proof.
  intros Hr Hne. destruct status_text_404 as [H _].
  rewrite forallb_forall in H. specialize (H code).
  assert (Hin : In code (seq 100 900)) by (apply in_seq; lia).
  apply H in Hin. apply orb_true_iff in Hin as [E | E].
  - apply Nat.eqb_eq in E. contradiction.
  - now apply negb_true_iff in E.
Qed.

Lemma loadPointsForFile_never_raises (fileName : string) (s : State) :
  raised (loadPointsForFile fileName s) = false.
Proof.
  unfold loadPointsForFile. unfold try_catch at 1.
  match goal with |- context [match ?b with Return _ _ => _ | Raise _ _ => _ end] =>
    destruct b end; reflexivity.
Qed.

Lemma loadItemsForFile_never_raises (fileName : string) (s : State) :
  raised (loadItemsForFile fileName s) = false.
Proof.
  unfold loadItemsForFile. unfold try_catch at 1.
  match goal with |- context [match ?b with Return _ _ => _ | Raise _ _ => _ end] =>
    destruct b end; reflexivity.
Qed.

Lemma loadPointsForFile_not_ok (fileName : string) (s : State) (t : Z) (h : http)
    (rest : list (Z * response)) :
  truthy (cacheGet (clock (net s)) (Some (points_map (responseCache s))) fileName).1 = false ->
  inbox (net s) = (t, Answer h) :: rest -> ok h = false ->
  exists s',
    loadPointsForFile fileName s = Return tt s'
    /\ layers s' = layers s /\ originals s' = originals s
    /\ statusEl (page s') =
       if includes ("请求失败:" ++ pretty (status h)) "404"
       then "点集文件不存在（请先生成 points 文件）"
       else "点集加载失败: " ++ "请求失败:" ++ pretty (status h).
Proof.
  intros Hmiss Hin Hok.
  destruct (cacheGet_ref_Return points fileName s)
    as (s1 & E & Hl & _ & Ho & _ & _ & Hn).
  cbv beta iota zeta delta [loadPointsForFile try_catch mbind M_bind mret M_ret].
  rewrite fetchJsonWithCache_unforced, E. cbn [cache_of]. rewrite Hmiss.
  rewrite <- Hn in Hin. rewrite (forced_fetch_not_ok _ _ _ _ _ _ _ Hin Hok).
  destruct (includes _ "404"); eexists; (split; [reflexivity | ]); simpl; auto.
Qed.

Lemma loadItemsForFile_not_ok (fileName : string) (s : State) (t : Z) (h : http)
    (rest : list (Z * response)) :
  truthy (cacheGet (clock (net s)) (Some (items_map (responseCache s))) fileName).1 = false ->
  inbox (net s) = (t, Answer h) :: rest -> ok h = false ->
  exists s',
    loadItemsForFile fileName s = Return tt s'
    /\ layers s' = layers s /\ originals s' = originals s
    /\ statusEl (page s') =
       if includes ("请求失败:" ++ pretty (status h)) "404"
       then "细分面文件不存在（请先生成 items 文件）"
       else "细分面加载失败: " ++ "请求失败:" ++ pretty (status h).
Proof.
  intros Hmiss Hin Hok.
  destruct (cacheGet_ref_Return items fileName s)
    as (s1 & E & Hl & _ & Ho & _ & _ & Hn).
  cbv beta iota zeta delta [loadItemsForFile try_catch mbind M_bind mret M_ret].
  rewrite fetchJsonWithCache_unforced, E. cbn [cache_of]. rewrite Hmiss.
  rewrite <- Hn in Hin. rewrite (forced_fetch_not_ok _ _ _ _ _ _ _ Hin Hok).
  destruct (includes _ "404"); eexists; (split; [reflexivity | ]); simpl; auto.
Qed.


Example points_not_generated_yet :
  let s :=
    run (open_page ++
         [Stimulus 10 (ShowPointsChange true) [];
          Stimulus 20 (FileSelectChange "A.geojson")
            [(21, answer (FeatureCollection [district 0]));
             (22, status_only 404);
             (23, answer (JArr []))]])%list
      (initial blank_page) in
  currentPointsLayer (layers s) = None
  /\ originalPointsGeoJSON (originals s) = JNull
  /\ nonempty (currentPolygonLayer (layers s)) = true
  /\ map url (sent (net s))
     = ["/api/polygons"; "/api/polygons/A.geojson"; "/api/points/A.geojson";
        "/api/history?file_name=A.geojson"].
Proof. vm_compute. repeat split. Qed.

(** ** Invariants along a handler *)

Section Invariants.
Context (P : State -> Prop).

Lemma preserves_ret {A : Type} (a : A) : preserves P (mret a).
Proof. intros s H. exact H. Qed.

Lemma preserves_throw {A : Type} (e : string) : preserves P (@throw A e).
Proof. intros s H. exact H. Qed.

Lemma preserves_read {A : Type} (f : State -> A) : preserves P (read f).
Proof. intros s H. exact H. Qed.

Lemma preserves_lift {A : Type} (r : result A) : preserves P (lift r).
Proof. destruct r; intros s H; exact H. Qed.

Lemma preserves_modify (f : State -> State) :
  (forall s, P s -> P (f s)) -> preserves P (modify f).
Proof. intros H s. apply H. Qed.

Lemma preserves_bind {A B : Type} (m : M A) (f : A -> M B) :
  preserves P m -> (forall a, preserves P (f a)) -> preserves P (m ≫= f).
Proof.
  intros Hm Hf s Hs. unfold mbind, M_bind.
  specialize (Hm s Hs). destruct (m s) as [a s' | e s']; simpl in *.
  - now apply Hf.
  - exact Hm.
Qed.

Lemma preserves_try {A : Type} (m : M A) (h : string -> M A) :
  preserves P m -> (forall e, preserves P (h e)) -> preserves P (try_catch m h).
Proof.
  intros Hm Hh s Hs. unfold try_catch.
  specialize (Hm s Hs). destruct (m s) as [a s' | e s']; simpl in *.
  - exact Hm.
  - now apply Hh.
Qed.

Lemma preserves_when (b : bool) (m : M unit) : preserves P m -> preserves P (when b m).
Proof. destruct b; intros H; [exact H | apply preserves_ret]. Qed.
End Invariants.

Lemma keeps_preserves {X A : Type} (π : State -> X) (c : X) (m : M A) :
  keeps π m -> preserves (fun s => π s = c) m.
Proof. intros H s Hs. now rewrite H. Qed.

Ltac invariant_step :=
  match goal with
  | |- preserves _ (mret _) => apply preserves_ret
  | |- preserves _ (throw _) => apply preserves_throw
  | |- preserves _ (read _) => apply preserves_read
  | |- preserves _ (lift _) => apply preserves_lift
  | |- preserves _ (modify _) =>
      apply preserves_modify; intros ? ?; first [assumption | reflexivity]
  | |- preserves _ (when _ _) => apply preserves_when
  | |- preserves _ (_ ≫= _) => apply preserves_bind; [ | intros ]
  | |- preserves _ (try_catch _ _) => apply preserves_try; [ | intros ]
  | |- preserves _ (if ?b then _ else _) => destruct b
  | |- preserves _ (match ?x with _ => _ end) => destruct x
  | |- preserves _ _ => solve [ auto with frame ]
  | |- preserves _ _ => solve [ apply keeps_preserves; auto with frame ]
  end.

Ltac invariant := repeat invariant_step.

#[export] Hint Extern 1 (keeps _ (setStatus _)) =>
  apply setStatus_keeps; intros; reflexivity : frame.
#[export] Hint Extern 1 (keeps _ (fetch _)) =>
  apply fetch_keeps; intros; reflexivity : frame.
#[export] Hint Extern 1 (keeps _ (cacheGet_ref _ _)) =>
  apply cacheGet_ref_keeps; intros; reflexivity : frame.
#[export] Hint Extern 1 (keeps _ (cacheSet_ref _ _ _)) =>
  apply cacheSet_ref_keeps; intros; reflexivity : frame.
#[export] Hint Extern 1 (keeps _ (fetchJsonWithCache _ _ _ _)) =>
  apply fetchJsonWithCache_keeps; intros; reflexivity : frame.

(** Frames of the history list: it touches the status line, the history
    selector, the cache and the network, and nothing else. *)

Lemma appendHistoryOptions_keeps {X : Type} (π : State -> X) (l : list json) :
  (forall f s, π (upd_page (upd_historySelect f) s) = π s) ->
  keeps π (appendHistoryOptions l).
Proof.
  intros H. induction l as [ | item l IH]; simpl; [apply keeps_ret | ].
  destruct item; try apply keeps_throw;
    (apply keeps_bind; [apply keeps_modify; intros; apply H | intros; exact IH]).
Qed.

Lemma setHistoryOptions_keeps {X : Type} (π : State -> X) (l : json) :
  (forall f s, π (upd_page (upd_historySelect f) s) = π s) ->
  keeps π (setHistoryOptions l).
Proof.
  intros H. unfold setHistoryOptions.
  apply keeps_bind; [apply keeps_modify; intros; apply H | intros _].
  destruct (_ || _); [apply keeps_ret | ].
  destruct l; try apply keeps_throw. now apply appendHistoryOptions_keeps.
Qed.

#[export] Hint Extern 1 (keeps _ (setHistoryOptions _)) =>
  apply setHistoryOptions_keeps; intros; reflexivity : frame.

Lemma loadHistoryList_keeps {X : Type} (π : State -> X) (force : bool) :
  (forall v s, π (upd_page (set_statusEl v) s) = π s) ->
  (forall f s, π (upd_page (upd_historySelect f) s) = π s) ->
  (forall f s, π (upd_cache f s) = π s) ->
  (forall f s, π (upd_net f s) = π s) ->
  keeps π (loadHistoryList force).
Proof.
  intros Hs Hh Hc Hn. unfold loadHistoryList, getFileName, getSelectedSchool.
  pose proof (fun l => setHistoryOptions_keeps π l Hh).
  pose proof (fun t => setStatus_keeps π t Hs).
  pose proof (fun u r k f => fetchJsonWithCache_keeps π u r k f Hc Hn).
  frame.
Qed.

#[export] Hint Extern 1 (keeps _ (loadHistoryList _)) =>
  apply loadHistoryList_keeps; intros; reflexivity : frame.

Lemma loadHistoryList_never_raises (force : bool) (s : State) :
  raised (loadHistoryList force s) = false.
Proof.
  cbv beta iota zeta delta [loadHistoryList getFileName read mbind M_bind].
  destruct (_ || _).
  - unfold setHistoryOptions. cbv beta iota zeta delta [mbind M_bind modify].
    reflexivity.
  - unfold try_catch.
    match goal with |- context [match ?b with Return _ _ => _ | Raise _ _ => _ end] =>
      destruct b end; reflexivity.
Qed.

(** ** Promotion of a history snapshot *)

Ltac unfold_render :=
  unfold renderGeoJSON, renderPointsGeoJSON, renderItemsGeoJSON, clearAllLayers,
    clearPolygonLayer, clearPointsLayer, clearItemsLayer, schoolTag,
    getSelectedSchool, getFileName, setStatus.

Lemma applyHistoryData_keeps {X : Type} (π : State -> X) (d : json) (asCurrent : bool) :
  (forall f s, π (upd_layers f s) = π s) ->
  (forall f s, π (upd_originals f s) = π s) ->
  (forall f s, π (upd_file f s) = π s) ->
  (forall f s, π (upd_page f s) = π s) ->
  keeps π (applyHistoryData d asCurrent).
Proof.
  intros Hl Ho Hf Hp. unfold applyHistoryData. unfold_render.
  destruct d; [apply keeps_throw | ..];
    repeat first
      [ apply keeps_modify; intros; first [apply Hl | apply Ho | apply Hf | apply Hp]
      | frame_step ].
Qed.

Lemma always_skip (P : State -> Prop) {A : Type} (f : State -> State) (k : M A) :
  always P k -> always P (modify f ≫= fun _ => k).
Proof. intros H s. apply H. Qed.

Lemma always_bind (P : State -> Prop) {A B : Type} (m : M A) (g : A -> M B) :
  always P m -> (forall a, preserves P (g a)) -> always P (m ≫= g).
Proof.
  intros Hm Hg s. unfold mbind, M_bind. specialize (Hm s).
  destruct (m s) as [a s' | e s']; simpl in *; [now apply Hg | exact Hm].
Qed.

Lemma always_try (P : State -> Prop) {A : Type} (m : M A) (h : string -> M A) :
  always P m -> (forall e, preserves P (h e)) -> always P (try_catch m h).
Proof.
  intros Hm Hh s. unfold try_catch. specialize (Hm s).
  destruct (m s) as [a s' | e s']; simpl in *; [exact Hm | now apply Hh].
Qed.

(** Once the snapshot is not [null], promotion sets the source to the
    server and leaves the items layer cleared, even when a render raises. *)
Lemma applyHistoryData_promotes (d : json) :
  d <> JNull ->
  always (fun s => currentFileSource (file s) = "server") (applyHistoryData d true)
  /\ always (fun s => currentItemsLayer (layers s) = None) (applyHistoryData d true).
Proof.
  intros Hd. unfold applyHistoryData.
  destruct d; [congruence | ..]; (split;
    [ apply always_skip, always_bind; [ intros ?; reflexivity | intros _ ]
    | do 3 apply always_skip; apply always_bind; [ intros ?; reflexivity | intros _ ] ]);
    unfold_render; invariant.
Qed.

Lemma restoreHistoryAsCurrent_run (s : State) (t : Z) (h : http)
    (rest : list (Z * response)) (d : json) :
  value (historySelect (page s)) <> "" ->
  inbox (net s) = (t, Answer h) :: rest -> ok h = true -> parsed h = Ok d ->
  restoreHistoryAsCurrent s =
  try_catch
    (applyHistoryData d true;;
     setStatus "已恢复为当前版本，可继续编辑并保存";;
     loadHistoryList false)
    (fun message => setStatus ("恢复失败: " ++ message))
    (snapshot_arrived s t rest).
Proof.
  intros Hsel Hin Hok Hp. apply String.eqb_neq in Hsel.
  cbv beta iota zeta delta [restoreHistoryAsCurrent read mbind M_bind setStatus modify
                             try_catch].
  rewrite Hsel.
  erewrite fetch_Answer by exact Hin.
  rewrite Hok, Hp. reflexivity.
Qed.

Lemma final_bind_keeps {X A B : Type} (π : State -> X) (m : M A) (g : A -> M B)
    (s : State) :
  (forall a, keeps π (g a)) -> π (final ((m ≫= g) s)) = π (final (m s)).
Proof.
  intros Hg. unfold mbind, M_bind.
  destruct (m s) as [a s' | e s']; simpl; [apply Hg | reflexivity].
Qed.

Lemma final_try_keeps {X A : Type} (π : State -> X) (m : M A) (h : string -> M A)
    (s : State) :
  (forall e, keeps π (h e)) -> π (final (try_catch m h s)) = π (final (m s)).
Proof.
  intros Hh. unfold try_catch.
  destruct (m s) as [a s' | e s']; simpl; [reflexivity | apply Hh].
Qed.

Lemma read_bind {A B : Type} (f : State -> A) (k : A -> M B) (s : State) :
  (read f ≫= k) s = k (f s) s.
Proof. reflexivity. Qed.

Lemma modify_bind {B : Type} (f : State -> State) (k : unit -> M B) (s : State) :
  (modify f ≫= k) s = k tt (f s).
Proof. reflexivity. Qed.

Lemma setStatus_bind {B : Type} (text : string) (k : unit -> M B) (s : State) :
  (setStatus text ≫= k) s = k tt (upd_page (set_statusEl text) s).
Proof. reflexivity. Qed.

Lemma clearAllLayers_bind {B : Type} (k : unit -> M B) (s : State) :
  (clearAllLayers ≫= k) s = k tt (upd_layers (fun _ => mkLayers None None None) s).
Proof. reflexivity. Qed.

Ltac run_reads := repeat (rewrite read_bind; cbv beta).

Lemma set_cache_same (ref : cache_ref) (c : ResponseCache) :
  set_cache ref (cache_of ref c) c = c.
Proof. destruct c, ref; reflexivity. Qed.

Lemma upd_cache_same (ref : cache_ref) (s : State) :
  upd_cache (set_cache ref (cache_of ref (responseCache s))) s = s.
Proof. unfold upd_cache. rewrite set_cache_same. now destruct s. Qed.

(** A fresh, truthy cached value is served as it is: no request, and the
    cache and the clock are as before. *)
Lemma fetchJsonWithCache_hit (url : string) (ref : cache_ref) (key : string) (s : State)
    (e : entry) :
  cache_of ref (responseCache s) !! key = Some e ->
  clock (net s) - ts e <= CACHE_TTL_MS -> truthy (data e) = true ->
  fetchJsonWithCache url ref key false s = Return (data e) s.
Proof.
  intros He Hage Ht. rewrite fetchJsonWithCache_unforced. unfold cacheGet_ref.
  rewrite (cacheGet_fresh _ _ _ _ He Hage), Ht. now rewrite upd_cache_same.
Qed.

Lemma loadHistoryList_served_from_cache (s : State) (e : entry) :
  historyList_map (responseCache s)
    !! history_key (name_text (currentFileName (file s))) (value (schoolSelect (page s)))
  = Some e ->
  clock (net s) - ts e <= CACHE_TTL_MS -> truthy (data e) = true ->
  net (final (loadHistoryList false s)) = net s
  /\ responseCache (final (loadHistoryList false s)) = responseCache s.
Proof.
  intros He Hage Ht.
  unfold loadHistoryList, getFileName, getSelectedSchool. run_reads.
  destruct (_ || _).
  - split; [apply (setHistoryOptions_keeps net) | apply (setHistoryOptions_keeps responseCache)];
      intros; reflexivity.
  - split.
    + rewrite final_try_keeps by (intros; frame). run_reads.
      rewrite (bind_Return _ _ _ _ _ (fetchJsonWithCache_hit _ historyList _ _ e He Hage Ht)).
      apply (setHistoryOptions_keeps net). intros; reflexivity.
    + rewrite final_try_keeps by (intros; frame). run_reads.
      rewrite (bind_Return _ _ _ _ _ (fetchJsonWithCache_hit _ historyList _ _ e He Hage Ht)).
      apply (setHistoryOptions_keeps responseCache). intros; reflexivity.
Qed.

Lemma loadHistoryList_without_server_file (s : State) :
  name_set (currentFileName (file s)) = false \/ currentFileSource (file s) <> "server" ->
  net (final (loadHistoryList false s)) = net s
  /\ responseCache (final (loadHistoryList false s)) = responseCache s.
Proof.
  intros H.
  unfold loadHistoryList, getFileName, getSelectedSchool. run_reads.
  assert (G : negb (name_set (currentFileName (file s)))
              || negb (String.eqb (currentFileSource (file s)) "server") = true).
  { destruct H as [-> | H]; [reflexivity | ].
    apply String.eqb_neq in H. rewrite H. apply orb_true_r. }
  rewrite G.
  split; [apply (setHistoryOptions_keeps net) | apply (setHistoryOptions_keeps responseCache)];
    intros; reflexivity.
Qed.

Lemma loadHistoryList_requests (s : State) :
  name_set (currentFileName (file s)) = true -> currentFileSource (file s) = "server" ->
  truthy
    (cacheGet (clock (net s)) (Some (historyList_map (responseCache s)))
       (history_key (name_text (currentFileName (file s)))
          (value (schoolSelect (page s))))).1 = false ->
  sent (net (final (loadHistoryList false s)))
  = (sent (net s) ++ [history_list_request s])%list.
Proof.
  intros Hname Hsrc Hmiss.
  unfold loadHistoryList, getFileName, getSelectedSchool. run_reads.
  rewrite Hname, Hsrc. cbn [negb orb String.eqb Ascii.eqb Bool.eqb].
  rewrite (final_try_keeps (fun s => sent (net s))) by (intros; frame). run_reads.
  rewrite (final_bind_keeps (fun s => sent (net s))) by (intros; frame).
  rewrite fetchJsonWithCache_unforced.
  destruct (cacheGet_ref_Return historyList
              (history_key (name_text (currentFileName (file s)))
                 (value (schoolSelect (page s)))) s)
    as (s1 & E & _ & _ & _ & _ & _ & Hn).
  rewrite E. cbn [cache_of]. rewrite Hmiss.
  rewrite fetchJsonWithCache_force_logs, Hn. reflexivity.
Qed.

Lemma final_try_returns {A : Type} (m : M A) (h : string -> M A) (s : State) :
  raised (m s) = false -> try_catch m h s = m s.
Proof. unfold try_catch. destruct (m s); [reflexivity | discriminate]. Qed.

Lemma returns_bind {A B : Type} (m : M A) (g : A -> M B) (s : State) :
  raised (m s) = false -> (forall a s', raised (g a s') = false) ->
  raised ((m ≫= g) s) = false.
Proof.
  intros Hm Hg. unfold mbind, M_bind.
  destruct (m s) as [a s' | e s']; [apply Hg | discriminate].
Qed.

Lemma returns_when (b : bool) (m : M unit) (s : State) :
  (b = true -> raised (m s) = false) -> raised (when b m s) = false.
Proof. destruct b; intros H; [now apply H | reflexivity]. Qed.

Lemma render_returns (layer : nat) (geojson : json) (label : string)
    (skipOriginal : bool) (s : State) (overlays : list overlay) :
  createOverlaysFromGeoJSON geojson = Ok overlays ->
  raised (match layer with
          | O => renderGeoJSON geojson label skipOriginal s
          | _ => renderPointsGeoJSON geojson label skipOriginal s
          end) = false.
Proof.
  intros H. unfold renderGeoJSON, renderPointsGeoJSON.
  unfold_render. rewrite H.
  destruct layer, skipOriginal; reflexivity.
Qed.

(** A snapshot whose layers can be drawn is applied without an exception,
    so for such a snapshot the last premise of the theorem below holds. *)
Lemma applyHistoryData_returns (d : json) (asCurrent : bool) (s : State) :
  d <> JNull -> renders (prop d "polygons") -> renders (prop d "points") ->
  raised (applyHistoryData d asCurrent s) = false.
Proof.
  intros Hd Hpoly Hpts. unfold applyHistoryData.
  destruct d; [congruence | ..];
    (do 3 rewrite modify_bind; rewrite clearAllLayers_bind;
     unfold getFileName; rewrite read_bind; cbv beta zeta;
     apply returns_bind;
     [ destruct (truthy_opt _) eqn:T;
       [ destruct (Hpoly T) as [os E]; exact (render_returns 0 _ _ _ _ os E) | reflexivity ]
     | intros _ s1; rewrite read_bind; cbv beta;
       apply returns_bind;
       [ destruct (showPointsCheckbox (page s1)); cbn [andb]; [ | reflexivity ];
         destruct (truthy_opt _) eqn:T;
         [ destruct (Hpts T) as [os E]; exact (render_returns 1 _ _ _ _ os E) | reflexivity ]
       | intros _ s2; unfold clearItemsLayer; rewrite modify_bind, read_bind; cbv beta;
         destruct (showItemsCheckbox _), asCurrent; reflexivity ] ]).
Qed.

(** C2, as the script has it. After a history snapshot has been promoted
    to current, the source of the file context is the server and the items
    layer is cleared. The history-list cache is not invalidated: the list is
    reloaded cache-first, so a fresh cached list for the promoted file and
    school is served with no request beyond the one for the snapshot and
    the cache stays as it was; the list is requested from the server only
    when no fresh cached list is there. *)
Theorem promotion_reloads_history_cache_first (s : State) (t : Z) (h : http)
    (rest : list (Z * response)) (d : json) :
  value (historySelect (page s)) <> "" ->
  inbox (net s) = (t, Answer h) :: rest -> ok h = true -> parsed h = Ok d ->
  d <> JNull ->
  let s' := final (restoreHistoryAsCurrent s) in
  let snapshot := history_item_request (value (historySelect (page s))) in
  currentFileSource (file s') = "server"
  /\ currentItemsLayer (layers s') = None
  /\ (forall e,
        historyList_map (responseCache s) !! history_key_of s' = Some e ->
        t - ts e <= CACHE_TTL_MS -> truthy (data e) = true ->
        sent (net s') = (sent (net s) ++ [snapshot])%list
        /\ responseCache s' = responseCache s)
  /\ (truthy (cacheGet t (Some (historyList_map (responseCache s))) (history_key_of s')).1
      = false ->
      name_set (currentFileName (file s')) = true ->
      raised (applyHistoryData d true (snapshot_arrived s t rest)) = false ->
      sent (net s') = (sent (net s) ++ [snapshot; history_list_request s'])%list).
Proof.
  intros Hsel Hin Hok Hp Hd s' snapshot.
  assert (Es' : s' = final (try_catch
               (applyHistoryData d true;;
                setStatus "已恢复为当前版本，可继续编辑并保存";; loadHistoryList false)
               (fun message => setStatus ("恢复失败: " ++ message))
               (snapshot_arrived s t rest))).
  { subst s'. now rewrite (restoreHistoryAsCurrent_run s t h rest d Hsel Hin Hok Hp). }
  clearbody s'.
  destruct (applyHistoryData_promotes d Hd) as [Hsrc Hitems].
  assert (Hsource : currentFileSource (file s') = "server").
  { rewrite Es'. apply (always_try (fun x => currentFileSource (file x) = "server"));
      [apply always_bind; [exact Hsrc | intros] | intros]; invariant. }
  split; [exact Hsource | ].
  split.
  { rewrite Es'. apply (always_try (fun x => currentItemsLayer (layers x) = None));
      [apply always_bind; [exact Hitems | intros] | intros]; invariant. }
  pose proof (applyHistoryData_keeps net d true
                ltac:(reflexivity) ltac:(reflexivity) ltac:(reflexivity) ltac:(reflexivity)
                (snapshot_arrived s t rest)) as Hnet.
  pose proof (applyHistoryData_keeps responseCache d true
                ltac:(reflexivity) ltac:(reflexivity) ltac:(reflexivity) ltac:(reflexivity)
                (snapshot_arrived s t rest)) as Hcache.
  unfold try_catch in Es'.
  destruct (applyHistoryData d true (snapshot_arrived s t rest)) as [[] s2 | e s2] eqn:E;
    simpl in Hnet, Hcache.
  - rewrite (bind_Return _ _ _ _ _ E) in Es'.
    unfold setStatus at 1 in Es'. rewrite modify_bind in Es'.
    pose proof (loadHistoryList_never_raises false
                  (upd_page (set_statusEl "已恢复为当前版本，可继续编辑并保存") s2)) as Hnr.
    pose proof (loadHistoryList_keeps file false
                  ltac:(reflexivity) ltac:(reflexivity) ltac:(reflexivity)
                  ltac:(reflexivity)
                  (upd_page (set_statusEl "已恢复为当前版本，可继续编辑并保存") s2)) as Hfile.
    pose proof (loadHistoryList_keeps (fun x => schoolSelect (page x)) false
                  ltac:(reflexivity) ltac:(reflexivity) ltac:(reflexivity)
                  ltac:(reflexivity)
                  (upd_page (set_statusEl "已恢复为当前版本，可继续编辑并保存") s2)) as Hschool.
    pose proof (loadHistoryList_served_from_cache
                  (upd_page (set_statusEl "已恢复为当前版本，可继续编辑并保存") s2)) as Hhit.
    pose proof (loadHistoryList_requests
                  (upd_page (set_statusEl "已恢复为当前版本，可继续编辑并保存") s2)) as Hreq.
    destruct (loadHistoryList false _) as [[] s4 | e s4]; [ | discriminate].
    simpl in Es', Hfile, Hschool, Hhit, Hreq. subst s4.
    assert (Hkey : history_key_of s' = history_key_of s2).
    { unfold history_key_of. now rewrite Hfile, Hschool. }
    rewrite Hkey. rewrite Hnet, Hcache in Hhit, Hreq. simpl in Hhit, Hreq.
    split.
    + intros e He Hage Ht.
      destruct (Hhit e He Hage Ht) as [G1 G2].
      rewrite G1, G2. split; reflexivity.
    + intros Hmiss Hname _.
      rewrite Hfile in Hname, Hsource.
      rewrite (Hreq Hname Hsource Hmiss).
      unfold history_list_request. rewrite Hfile, Hschool.
      now rewrite <- app_assoc.
  - rewrite (bind_Raise _ _ _ _ _ E) in Es'. simpl in Es'. subst s'. simpl.
    split.
    + intros e' _ _ _. rewrite Hnet, Hcache. split; reflexivity.
    + intros _ _ Hr. discriminate.
Qed.

Lemma promotion_serves_cached_history_list :
  ~ promotion_refetches_history_list restore_click (run view_history (initial blank_page)).
Proof.
  unfold promotion_refetches_history_list.
  intros (_ & _ & H). vm_compute in H.
  destruct H as [H | []]. discriminate H.
Qed.

Example promotion_keeps_cached_history_list :
  let s := run view_history (initial blank_page) in
  let s' := dispatch restore_click s in
  requests_during restore_click s = [history_item_request "h1"]
  /\ historyList_map (responseCache s') !! "file_name=A.geojson"
     = Some (Entry 22 saved_versions)
  /\ historyList_map (responseCache s') = historyList_map (responseCache s).
Proof. cbv zeta. split; [ | split]; vm_compute; reflexivity. Qed.

Lemma promotion_reloads_history_cache_first_witness :
  let s :=
    upd_net (fun n => mkNetwork 40 [(41, answer saved_snapshot)] (sent n))
      (run view_history (initial blank_page)) in
  value (historySelect (page s)) <> ""
  /\ currentFileSource (file (final (restoreHistoryAsCurrent s))) = "server"
  /\ currentItemsLayer (layers (final (restoreHistoryAsCurrent s))) = None.
Proof.
  cbv zeta.
  assert (H1 : value (historySelect (page
                 (upd_net (fun n => mkNetwork 40 [(41, answer saved_snapshot)] (sent n))
                    (run view_history (initial blank_page))))) <> "")
    by (vm_compute; discriminate).
  assert (H2 : inbox (net
                 (upd_net (fun n => mkNetwork 40 [(41, answer saved_snapshot)] (sent n))
                    (run view_history (initial blank_page))))
               = (41, Answer (Http 200 "" (Ok saved_snapshot))) :: [])
    by (vm_compute; reflexivity).
  assert (H3 : ok (Http 200 "" (Ok saved_snapshot)) = true) by reflexivity.
  assert (H4 : parsed (Http 200 "" (Ok saved_snapshot)) = Ok saved_snapshot) by reflexivity.
  assert (H5 : saved_snapshot <> JNull) by discriminate.
  destruct (promotion_reloads_history_cache_first _ _ _ _ _ H1 H2 H3 H4 H5)
    as (G1 & G2 & _).
  split; [exact H1 | split; [exact G1 | exact G2]].
Defined.

(** ** Reset *)

Lemma position_of_pair (p : LngLat) : position_of (Some (lnglat_pair p)) = Some p.
Proof. now destruct p. Qed.

Lemma path_of_toLngLatArray (ring : list LngLat) :
  path_of (Some (toLngLatArray ring)) = Some ring.
Proof.
  unfold path_of, toLngLatArray.
  induction ring as [ | p ring IH]; simpl; [reflexivity | ].
  destruct p; simpl in *. now rewrite IH.
Qed.

Lemma rings_of_rings (rings : list (list LngLat)) :
  rings_of (Some (JArr (map toLngLatArray rings))) = Some rings.
Proof.
  unfold rings_of.
  induction rings as [ | r rings IH]; [reflexivity | ].
  cbn [map all_some]. now rewrite path_of_toLngLatArray, IH.
Qed.

Lemma polygonPathToCoordinates_rings (rings : list (list LngLat)) :
  polygonPathToCoordinates (RingPath rings) = JArr (map toLngLatArray rings).
Proof. now destruct rings. Qed.

(** A plain polygon feature becomes one polygon overlay, and that overlay
    reads back as the same polygon. *)
Lemma plain_polygon_round_trip (f : json) :
  plain_polygon f ->
  exists o back,
    createOverlaysFromFeature f = Ok [o]
    /\ overlayToFeature "Polygon" o = [back]
    /\ same_feature back f.
Proof.
  intros (g & rings & props & Hg & Hty & Hc & Hp & Htp).
  assert (Hfeat : optprop (Some f) "geometry" = Some g).
  { destruct f; simpl in *; try discriminate. exact Hg. }
  assert (Hgt : truthy g = true) by (destruct g; simpl in *; try discriminate; reflexivity).
  assert (Hgeo : forall k, optprop (Some g) k = prop g k).
  { intros k. destruct g; simpl in *; try discriminate; reflexivity. }
  exists (Polygon (RingPath rings) props),
         (Feature "Polygon" (JArr (map toLngLatArray rings)) props).
  split; [ | split].
  - unfold createOverlaysFromFeature. rewrite Hfeat. cbn [truthy_opt]. rewrite Hgt.
    cbn [negb]. rewrite !Hgeo, Hty, Hc, Hp.
    cbn [is_str String.eqb Ascii.eqb Bool.eqb or_else]. rewrite Htp.
    unfold new_Polygon, polygon_path_of. now rewrite rings_of_rings.
  - cbn [overlayToFeature String.eqb Ascii.eqb Bool.eqb getExtData or_else].
    now rewrite Htp, polygonPathToCoordinates_rings.
  - unfold same_feature, geometry_type. rewrite Hg, Hp, !Hgeo, Hty, Hc.
    repeat split; reflexivity.
Qed.

Lemma plain_polygons_round_trip (fs : list json) :
  Forall plain_polygon fs ->
  exists overlays back,
    flatMap_features fs = Ok overlays
    /\ overlaysToGeoJSON (Some overlays) "Polygon" = FeatureCollection back
    /\ Forall2 same_feature back fs.
Proof.
  induction 1 as [ | f fs Hf _ (overlays & back & E & R & S)].
  - exists [], []. repeat split. constructor.
  - destruct (plain_polygon_round_trip f Hf) as (o & b & Ef & Rf & Sf).
    exists (o :: overlays), (b :: back). split; [ | split].
    + simpl. now rewrite Ef, E.
    + unfold overlaysToGeoJSON in *. simpl. rewrite Rf. simpl.
      unfold FeatureCollection in *. now inversion R.
    + now constructor.
Qed.

Lemma disableAllEditing_returns (s : State) :
  disableAllEditing s = Return tt (final (disableAllEditing s)).
Proof.
  cbv beta iota zeta delta [disableAllEditing closePolygonEditors mbind M_bind modify
                             read when mret M_ret].
  now destruct (isPointsEditing _).
Qed.

Lemma disableAllEditing_keeps {X : Type} (π : State -> X) :
  (forall f s, π (upd_editing f s) = π s) ->
  (forall g s, π (upd_layers (fun l => set_pointsLayer (g l) l) s) = π s) ->
  (forall v s, π (upd_page (set_editPolygonBtn v) s) = π s) ->
  (forall v s, π (upd_page (set_editPointsBtn v) s) = π s) ->
  keeps π disableAllEditing.
Proof.
  intros He Hl Hp1 Hp2. unfold disableAllEditing, closePolygonEditors.
  repeat first
    [ apply keeps_modify; intros;
      first [apply He | apply Hp1 | apply Hp2
             | apply (Hl (fun l => setMarkersDraggable (currentPointsLayer l) false))]
    | frame_step ].
Qed.

#[export] Hint Extern 1 (keeps _ disableAllEditing) =>
  apply disableAllEditing_keeps; intros; reflexivity : frame.

Lemma keeps_at {X A : Type} (π : State -> X) (m : M A) :
  keeps π m -> forall s, π (final (m s)) = π s.
Proof. intros H. exact H. Qed.

Lemma setSchoolOptions_returns (fc : json) (fs : list json) (s : State) :
  is_FeatureCollection fc = true -> features_listed fc fs ->
  exists s',
    setSchoolOptions fc s = Return tt s'
    /\ layers s' = layers s /\ originals s' = originals s /\ net s' = net s
    /\ responseCache s' = responseCache s.
Proof.
  unfold is_FeatureCollection, features_listed. intros H Hfs.
  apply andb_true_iff in H as [Ht Hty].
  unfold setSchoolOptions. rewrite modify_bind, Ht, Hty, Hfs. cbn [negb orb].
  eexists. split; [reflexivity | repeat split].
Qed.

Lemma renderGeoJSON_returns (geojson : json) (label : string) (skipOriginal : bool)
    (overlays : list overlay) (s : State) :
  createOverlaysFromGeoJSON geojson = Ok overlays ->
  exists s',
    renderGeoJSON geojson label skipOriginal s = Return tt s'
    /\ currentPolygonLayer (layers s') = Some overlays
    /\ net s' = net s.
Proof.
  intros H. unfold renderGeoJSON, clearPolygonLayer, schoolTag, getSelectedSchool, setStatus.
  rewrite modify_bind, H.
  cbv beta iota zeta delta [lift mbind M_bind mret M_ret modify read when].
  destruct skipOriginal; eexists; (split; [reflexivity | split; reflexivity]).
Qed.

Lemma fetch_polygons (url fileName : string) (fc : json) (s : State) :
  reload_yields s fileName fc ->
  exists s',
    fetchJsonWithCache url polygons fileName false s = Return fc s'
    /\ layers s' = layers s /\ originals s' = originals s /\ page s' = page s
    /\ file s' = file s /\ editing s' = editing s.
Proof.
  unfold reload_yields. intros H.
  rewrite fetchJsonWithCache_unforced.
  destruct (cacheGet_ref_Return polygons fileName s)
    as (s1 & E & Hl & He & Ho & Hf & Hp & Hn).
  rewrite E. cbn [cache_of].
  destruct (truthy _).
  - subst fc. exists s1. repeat split; assumption.
  - destruct H as (t & h & rest & Hin & Hok & Hpar).
    rewrite <- Hn in Hin.
    destruct (fetchJsonWithCache_force_success url polygons fileName s1 t h rest fc
                Hin Hok Hpar) as (s' & E' & _ & _).
    exists s'. split; [exact E' | ].
    pose proof (fetchJsonWithCache_keeps layers url polygons fileName true
                  ltac:(reflexivity) ltac:(reflexivity) s1) as K1.
    pose proof (fetchJsonWithCache_keeps originals url polygons fileName true
                  ltac:(reflexivity) ltac:(reflexivity) s1) as K2.
    pose proof (fetchJsonWithCache_keeps page url polygons fileName true
                  ltac:(reflexivity) ltac:(reflexivity) s1) as K3.
    pose proof (fetchJsonWithCache_keeps file url polygons fileName true
                  ltac:(reflexivity) ltac:(reflexivity) s1) as K4.
    pose proof (fetchJsonWithCache_keeps editing url polygons fileName true
                  ltac:(reflexivity) ltac:(reflexivity) s1) as K5.
    rewrite E' in K1, K2, K3, K4, K5. simpl in K1, K2, K3, K4, K5.
    repeat split; congruence.
Qed.

Lemma loadLayer_keeps_polygons (fileName : string) :
  keeps (fun s => currentPolygonLayer (layers s)) (loadPointsForFile fileName)
  /\ keeps (fun s => currentPolygonLayer (layers s)) (loadItemsForFile fileName).
Proof.
  split; unfold loadPointsForFile, loadItemsForFile, renderPointsGeoJSON,
    renderItemsGeoJSON, clearPointsLayer, clearItemsLayer, schoolTag, getSelectedSchool;
    frame.
Qed.

(** Selecting a file whose polygon load yields a renderable collection
    leaves exactly the overlays of that collection in the polygon layer. *)
Lemma loadSelectedFile_polygons (s : State) (fileName : string) (fc : json)
    (fs : list json) (overlays : list overlay) :
  value (fileSelect (page s)) = fileName -> fileName <> "" ->
  reload_yields s fileName fc ->
  is_FeatureCollection fc = true -> features_listed fc fs ->
  createOverlaysFromGeoJSON fc = Ok overlays ->
  currentPolygonLayer (layers (final (loadSelectedFile s))) = Some overlays.
Proof.
  intros Hsel Hne Hy Hfc Hfs Hov.
  unfold loadSelectedFile. rewrite read_bind, Hsel.
  apply String.eqb_neq in Hne. rewrite Hne.
  rewrite !modify_bind.
  rewrite (bind_Return _ _ _ _ _ (disableAllEditing_returns _)).
  rewrite !modify_bind. rewrite setStatus_bind, clearAllLayers_bind.
  match goal with |- context [try_catch _ _ ?x] => set (sB := x) end.
  assert (HnB : net sB = net s /\ responseCache sB = responseCache s).
  { subst sB. simpl. split.
    - now rewrite (keeps_at net disableAllEditing)
        by (apply disableAllEditing_keeps; intros; reflexivity).
    - now rewrite (keeps_at responseCache disableAllEditing)
        by (apply disableAllEditing_keeps; intros; reflexivity). }
  destruct HnB as [HnB HcB].
  assert (HyB : reload_yields sB fileName fc).
  { unfold reload_yields in *. now rewrite HnB, HcB. }
  clearbody sB.
  rewrite (final_try_keeps (fun x => currentPolygonLayer (layers x)))
    by (intros; apply setStatus_keeps; intros; reflexivity).
  destruct (fetch_polygons ("/api/polygons/" ++ encodeURIComponent fileName) fileName fc sB HyB)
    as (sC & EC & _).
  rewrite (bind_Return _ _ _ _ _ EC).
  destruct (setSchoolOptions_returns fc fs sC Hfc Hfs) as (sD & ED & _).
  rewrite (bind_Return _ _ _ _ _ ED).
  destruct (loadLayer_keeps_polygons fileName) as [Kp Ki].
  rewrite (final_bind_keeps (fun x => currentPolygonLayer (layers x)))
    by (intros; frame).
  destruct (renderGeoJSON_returns fc fileName false overlays sD Hov) as (sE & EE & HE & _).
  now rewrite EE.
Qed.

Lemma resetEdits_server (s : State) :
  currentFileSource (file s) = "server" ->
  resetEdits s = loadSelectedFile (final (disableAllEditing s)).
Proof.
  intros H. unfold resetEdits.
  rewrite (bind_Return _ _ _ _ _ (disableAllEditing_returns s)), read_bind.
  rewrite (keeps_at file disableAllEditing)
    by (apply disableAllEditing_keeps; intros; reflexivity).
  now rewrite H.
Qed.

Lemma resetEdits_elsewhere (s : State) :
  currentFileSource (file s) <> "server" ->
  net (final (resetEdits s)) = net s
  /\ forall overlays,
       truthy (originalPolygonGeoJSON (originals s)) = true ->
       createOverlaysFromGeoJSON (originalPolygonGeoJSON (originals s)) = Ok overlays ->
       currentPolygonLayer (layers (final (resetEdits s))) = Some overlays.
Proof.
  intros H. apply String.eqb_neq in H. unfold resetEdits.
  rewrite (bind_Return _ _ _ _ _ (disableAllEditing_returns s)), read_bind.
  rewrite (keeps_at file disableAllEditing)
    by (apply disableAllEditing_keeps; intros; reflexivity).
  rewrite H.
  pose proof (keeps_at net disableAllEditing
                ltac:(apply disableAllEditing_keeps; intros; reflexivity) s) as Hn.
  pose proof (keeps_at originals disableAllEditing
                ltac:(apply disableAllEditing_keeps; intros; reflexivity) s) as Ho.
  set (sA := final (disableAllEditing s)) in *. clearbody sA.
  split.
  - rewrite <- Hn.
    match goal with |- net (final (?m sA)) = net sA =>
      apply (keeps_at net m) end.
    unfold_render. frame.
  - intros overlays Ht Hov. unfold getFileName. run_reads.
    rewrite Ho, Ht. cbn [when].
    rewrite (final_bind_keeps (fun x => currentPolygonLayer (layers x)))
      by (intros; unfold_render; frame).
    rewrite clearAllLayers_bind.
    destruct (renderGeoJSON_returns _ (name_or (currentFileName (file sA)) "本地文件")
                false overlays
                (upd_layers (fun _ => mkLayers None None None) sA) Hov)
      as (sR & ER & HR & _).
    now rewrite ER.
Qed.



Example reset_fetches_and_splits :
  let s := run edit_campus (initial blank_page) in
  requests_during (reset_click (FeatureCollection [campus])) s
  = [Request GET "/api/polygons/A.geojson" None;
     Request GET "/api/history?file_name=A.geojson" None]
  /\ currentFileSource (file s) = "server"
  /\ overlaysToGeoJSON
       (currentPolygonLayer
          (layers (dispatch (reset_click (FeatureCollection [campus])) s))) "Polygon"
     = FeatureCollection
         [Feature "Polygon" (JArr [triangle 0]) (JObj [("school_name", JStr "X")]);
          Feature "Polygon" (JArr [triangle 5]) (JObj [("school_name", JStr "X")])].
Proof. cbv zeta. split; [ | split]; vm_compute; reflexivity. Qed.

Example reset_discards_edit_of_plain_polygons :
  let s := run edit_districts (initial blank_page) in
  overlaysToGeoJSON (currentPolygonLayer (layers s)) "Polygon"
  <> FeatureCollection [district 0; district 5]
  /\ overlaysToGeoJSON
       (currentPolygonLayer
          (layers (dispatch (reset_click (FeatureCollection [district 0; district 5])) s)))
       "Polygon"
     = FeatureCollection [district 0; district 5].
Proof. cbv zeta. split; [vm_compute; discriminate | vm_compute; reflexivity]. Qed.

Lemma district_is_plain (x : Z) : plain_polygon (district x).
Proof.
  exists (JObj [("type", JStr "Polygon"); ("coordinates", JArr [triangle x])]),
         [[mkLngLat x 0; mkLngLat x 1; mkLngLat (x + 1) 0; mkLngLat x 0]],
         (JObj [("school_name", JStr "X")]).
  repeat split.
Qed.


(** Without a selected file (the list of files has just been refreshed,
    which empties the selection) the reset reloads nothing: the sessions
    end and the reshaped polygon stays on the map. *)
Example reset_without_selection_reloads_nothing :
  let s :=
    run (edit_districts ++
         [Stimulus 50 RefreshListClick [(51, answer (JArr [JStr "A.geojson"]))]])%list
      (initial blank_page) in
  let s' := dispatch (reset_click (FeatureCollection [district 0; district 5])) s in
  value (fileSelect (page s)) = ""
  /\ currentFileSource (file s) = "server"
  /\ requests_during (reset_click (FeatureCollection [district 0; district 5])) s = []
  /\ currentPolygonLayer (layers s') = currentPolygonLayer (layers s)
  /\ isPolygonEditing (editing s') = false.
Proof. cbv zeta. repeat (split; [vm_compute; reflexivity | ]). vm_compute; reflexivity. Qed.

Example cache_entry_lifetime :
  let m := cacheSet 1000 (Some ∅) "A.geojson" (JStr "v") in
  (cacheGet (1000 + CACHE_TTL_MS) m "A.geojson").1 = JStr "v"
  /\ (cacheGet (1001 + CACHE_TTL_MS) m "A.geojson").1 = JNull
  /\ (cacheGet (1001 + CACHE_TTL_MS) m "A.geojson").2 = Some ∅
  /\ (cacheGet 2000 m "B.geojson") = (JNull, m).
Proof. cbv zeta. repeat (split; [vm_compute; reflexivity | ]). vm_compute; reflexivity. Qed.

Example forced_fetch_replaces_fresh_entry :
  let s :=
    dispatch (Stimulus 10 RefreshListClick [(11, answer (JArr [JStr "B.geojson"]))])
      (run open_page (initial blank_page)) in
  index_map (responseCache (run open_page (initial blank_page))) !! "index"
  = Some (Entry 1 (JArr [JStr "A.geojson"]))
  /\ index_map (responseCache s) !! "index" = Some (Entry 11 (JArr [JStr "B.geojson"]))
  /\ map url (sent (net s)) = ["/api/polygons"; "/api/polygons"].
Proof. cbv zeta. repeat (split; [vm_compute; reflexivity | ]). vm_compute; reflexivity. Qed.

(** ** What does hold of the two defective claims *)

(** The toggles themselves honour the guards of C3: with a school filter
    applied, or with no overlay in the layer, the click changes neither
    session. *)
Lemma toggle_refused (s : State) :
  (value (schoolSelect (page s)) <> "" \/ nonempty (currentPointsLayer (layers s)) = false ->
   editing (final (togglePointsEditing s)) = editing s)
  /\ (value (schoolSelect (page s)) <> "" \/ nonempty (currentPolygonLayer (layers s)) = false ->
      editing (final (togglePolygonEditing s)) = editing s).
Proof.
  split; intros H.
  - unfold togglePointsEditing, isSchoolFilterActive, getSelectedSchool. run_reads.
    destruct (nonempty (currentPointsLayer (layers s))); [ | reflexivity].
    destruct H as [H | H]; [ | discriminate]. apply String.eqb_neq in H.
    cbn [negb]. unfold mbind at 1, M_bind at 1. rewrite read_bind.
    unfold mret, M_ret. now rewrite H.
  - unfold togglePolygonEditing, isSchoolFilterActive, getSelectedSchool. run_reads.
    destruct (nonempty (currentPolygonLayer (layers s))); [ | reflexivity].
    destruct H as [H | H]; [ | discriminate]. apply String.eqb_neq in H.
    cbn [negb]. unfold mbind at 1, M_bind at 1. rewrite read_bind.
    unfold mret, M_ret. now rewrite H.
Qed.

Lemma saveGeoJSON_keeps_originals (kind : string) (geojson : json) :
  keeps originals (saveGeoJSON kind geojson).
Proof. unfold saveGeoJSON, getFileName. frame. Qed.

(** The part of C1 that the handlers do meet: a save that is refused by the
    filter guard, or that raises (the request fails or is answered with a
    non-success status), leaves the original snapshots as they were. *)
Lemma failed_save_keeps_originals (s : State) :
  (value (schoolSelect (page s)) <> "" ->
   originals (final (savePolygonClick s)) = originals s
   /\ originals (final (savePointsClick s)) = originals s)
  /\ (raised (saveGeoJSON "polygons"
                (overlaysToGeoJSON (currentPolygonLayer (layers s)) "Polygon") s) = true ->
      originals (final (savePolygonClick s)) = originals s)
  /\ (raised (saveGeoJSON "points"
                (overlaysToGeoJSON (currentPointsLayer (layers s)) "Point") s) = true ->
      originals (final (savePointsClick s)) = originals s).
Proof.
  split; [ | split].
  - intros H.
    now rewrite (savePolygonClick_filtered s H), (savePointsClick_filtered s H).
  - intros H. unfold savePolygonClick, isSchoolFilterActive, getSelectedSchool.
    rewrite (final_try_keeps originals) by (intros; frame). run_reads.
    unfold mbind at 1, M_bind at 1. rewrite read_bind. unfold mret at 1, M_ret at 1.
    destruct (negb _); [reflexivity | ]. rewrite read_bind.
    destruct (negb _); [reflexivity | ].
    pose proof (saveGeoJSON_keeps_originals "polygons"
                  (overlaysToGeoJSON (currentPolygonLayer (layers s)) "Polygon") s) as K.
    unfold mbind, M_bind.
    destruct (saveGeoJSON _ _ s); [discriminate | exact K].
  - intros H. unfold savePointsClick, isSchoolFilterActive, getSelectedSchool.
    rewrite (final_try_keeps originals) by (intros; frame). run_reads.
    unfold mbind at 1, M_bind at 1. rewrite read_bind. unfold mret at 1, M_ret at 1.
    destruct (negb _); [reflexivity | ]. rewrite read_bind.
    destruct (negb _); [reflexivity | ].
    pose proof (saveGeoJSON_keeps_originals "points"
                  (overlaysToGeoJSON (currentPointsLayer (layers s)) "Point") s) as K.
    unfold mbind, M_bind.
    destruct (saveGeoJSON _ _ s); [discriminate | exact K].
Qed.

(** ** A session from selection to save *)

Example walk_select :
  let s := run open_two_schools (initial blank_page) in
  length (default [] (currentPolygonLayer (layers s))) = 2%nat
  /\ options (schoolSelect (page s)) = {[ ""; "North"; "South" ]}
  /\ originalPolygonGeoJSON (originals s) = two_schools
  /\ currentFileName (file s) = Some "A.geojson"
  /\ currentFileSource (file s) = "server".
Proof. cbv zeta. repeat (split; [vm_compute; reflexivity | ]). vm_compute; reflexivity. Qed.

Example walk_filter :
  let s := run filter_north (initial blank_page) in
  overlaysToGeoJSON (currentPolygonLayer (layers s)) "Polygon"
  = FeatureCollection [district_of "North" 0]
  /\ originalPolygonGeoJSON (originals s) = two_schools
  /\ isPolygonEditing (editing s) = false
  /\ statusEl (page s) = "请先切换到全部校区再编辑".
Proof. cbv zeta. repeat (split; [vm_compute; reflexivity | ]). vm_compute; reflexivity. Qed.

Example walk_save :
  let s := run edit_and_save (initial blank_page) in
  last (sent (net s)) = Some (Request POST "/api/polygons/A.geojson" (Some saved_two_schools))
  /\ polygons_map (responseCache s) !! "A.geojson" = Some (Entry 81 saved_two_schools)
  /\ originalPolygonGeoJSON (originals s) = saved_two_schools
  /\ statusEl (page s) = "保存成功".
Proof. cbv zeta. repeat (split; [vm_compute; reflexivity | ]). vm_compute; reflexivity. Qed.

(** * Further properties of the script *)

(** ** Drawing features *)

Lemma single_all (Q : overlay -> Prop) (r : result overlay) (os : list overlay) :
  single r = Ok os -> (forall o, r = Ok o -> Q o) -> Forall Q os.
Proof.
  destruct r as [o | m]; simpl; intros H HQ; [ | discriminate].
  inversion H; subst. repeat constructor. now apply HQ.
Qed.

Lemma for_each_new_all (Q : overlay -> Prop) (mk : option json -> result overlay)
    (l : list json) (os : list overlay) :
  for_each_new mk l = Ok os -> (forall c o, mk c = Ok o -> Q o) -> Forall Q os.
Proof.
  intros H HQ. revert os H.
  induction l as [ | c l IH]; simpl; intros os H.
  - inversion H. constructor.
  - destruct (mk (Some c)) as [o | m] eqn:E; [ | discriminate].
    destruct (for_each_new mk l) as [os' | m]; [ | discriminate].
    inversion H; subst. constructor; [now apply (HQ (Some c)) | now apply IH].
Qed.

Lemma forEach_coords_all (Q : overlay -> Prop) (coords : option json)
    (mk : option json -> result overlay) (os : list overlay) :
  forEach_coords coords mk = Ok os -> (forall c o, mk c = Ok o -> Q o) -> Forall Q os.
Proof.
  unfold forEach_coords. destruct coords as [[ | | | | l | ] | ]; try discriminate.
  apply for_each_new_all.
Qed.

Lemma new_Marker_inv (c : option json) (props : json) (o : overlay) :
  new_Marker c props = Ok o -> exists p, o = Marker p false props.
Proof.
  unfold new_Marker. destruct (position_of c); [ | discriminate].
  intros H; inversion H. eauto.
Qed.

Lemma new_Polyline_inv (c : option json) (props : json) (o : overlay) :
  new_Polyline c props = Ok o -> exists p, o = Polyline p props.
Proof.
  unfold new_Polyline. destruct (path_of c); [ | discriminate].
  intros H; inversion H. eauto.
Qed.

Lemma new_Polygon_inv (c : option json) (props : json) (o : overlay) :
  new_Polygon c props = Ok o -> exists p, o = Polygon p props.
Proof.
  unfold new_Polygon. destruct (polygon_path_of c); [ | discriminate].
  intros H; inversion H. eauto.
Qed.

(** X1. Every overlay drawn for a feature has the class that goes with the
    geometry type of the feature ([Point] and [MultiPoint] give markers,
    [LineString] and [MultiLineString] polylines, [Polygon] and
    [MultiPolygon] polygons; any other type gives no overlay), and carries
    the properties of the feature, or the empty object when it has none. *)
Theorem overlay_matches_its_feature (feature : json) (overlays : list overlay) :
  createOverlaysFromFeature feature = Ok overlays ->
  Forall
    (fun o =>
       drawn_as (optprop (optprop (Some feature) "geometry") "type") o
       /\ getExtData o = or_else (prop feature "properties") (JObj []))
    overlays.
Proof.
  unfold createOverlaysFromFeature, drawn_as.
  destruct (negb _); [intros H; inversion H; constructor | ].
  set (type := optprop _ "type"). set (props := or_else _ _).
  destruct (is_str type "Point") eqn:T1.
  { intros H. apply (single_all _ _ _ H). intros o Ho.
    apply new_Marker_inv in Ho as [p ->]. simpl. auto. }
  destruct (is_str type "MultiPoint") eqn:T2.
  { intros H. apply (forEach_coords_all _ _ _ _ H). intros c o Ho.
    apply new_Marker_inv in Ho as [p ->]. simpl. auto. }
  destruct (is_str type "LineString") eqn:T3.
  { intros H. apply (single_all _ _ _ H). intros o Ho.
    apply new_Polyline_inv in Ho as [p ->]. simpl. auto. }
  destruct (is_str type "MultiLineString") eqn:T4.
  { intros H. apply (forEach_coords_all _ _ _ _ H). intros c o Ho.
    apply new_Polyline_inv in Ho as [p ->]. simpl. auto. }
  destruct (is_str type "Polygon") eqn:T5.
  { intros H. apply (single_all _ _ _ H). intros o Ho.
    apply new_Polygon_inv in Ho as [p ->]. simpl. auto. }
  destruct (is_str type "MultiPolygon") eqn:T6.
  { intros H. apply (forEach_coords_all _ _ _ _ H). intros c o Ho.
    apply new_Polygon_inv in Ho as [p ->]. simpl. auto. }
  intros H; inversion H; constructor.
Qed.

Lemma overlay_matches_its_feature_witness :
  Forall
    (fun o =>
       drawn_as (optprop (optprop (Some campus) "geometry") "type") o
       /\ getExtData o = or_else (prop campus "properties") (JObj []))
    [Polygon (RingPath [[mkLngLat 0 0; mkLngLat 0 1; mkLngLat 1 0; mkLngLat 0 0]])
       (JObj [("school_name", JStr "X")]);
     Polygon (RingPath [[mkLngLat 5 0; mkLngLat 5 1; mkLngLat 6 0; mkLngLat 5 0]])
       (JObj [("school_name", JStr "X")])].
Proof.
  apply (overlay_matches_its_feature campus). reflexivity.
Defined.

Lemma flatMap_features_spec (fs : list json) (overlays : list overlay) :
  flatMap_features fs = Ok overlays <->
  exists per_feature,
    Forall2 (fun f os => createOverlaysFromFeature f = Ok os) fs per_feature
    /\ overlays = concat per_feature.
Proof.
  revert overlays. induction fs as [ | f fs IH]; simpl; intros overlays.
  - split.
    + intros H; inversion H. exists []. split; [constructor | reflexivity].
    + intros (pf & H & ->). inversion H. reflexivity.
  - split.
    + destruct (createOverlaysFromFeature f) as [os | m] eqn:E; [ | discriminate].
      destruct (flatMap_features fs) as [os' | m]; [ | discriminate].
      intros H; inversion H; subst.
      destruct (proj1 (IH os') eq_refl) as (pf & Hpf & ->).
      exists (os :: pf). split; [now constructor | reflexivity].
    + intros (pf & H & ->). inversion H as [ | ? os ? pf' Hf Hrest]; subst.
      rewrite Hf.
      rewrite (proj2 (IH (concat pf')) (ex_intro _ pf' (conj Hrest eq_refl))).
      reflexivity.
Qed.

(** X2. The overlays of a collection are those of its features, feature after
    feature in the order of the collection; the collection is drawn only if
    every feature is: one feature that raises makes the whole call raise. *)
Theorem collection_is_drawn_feature_by_feature (fs : list json) :
  (forall overlays,
      createOverlaysFromGeoJSON (FeatureCollection fs) = Ok overlays <->
      exists per_feature,
        Forall2 (fun f os => createOverlaysFromFeature f = Ok os) fs per_feature
        /\ overlays = concat per_feature)
  /\ (forall f m, In f fs -> createOverlaysFromFeature f = Throw m ->
        exists m', createOverlaysFromGeoJSON (FeatureCollection fs) = Throw m').
Proof.
  assert (E : createOverlaysFromGeoJSON (FeatureCollection fs) = flatMap_features fs)
    by reflexivity.
  split.
  - intros overlays. rewrite E. apply flatMap_features_spec.
  - intros f m Hin Hf. rewrite E.
    destruct (flatMap_features fs) as [os | m'] eqn:R; [ | eauto].
    apply flatMap_features_spec in R as (pf & H & _).
    exfalso. clear E. induction H as [ | g os' fs' pf' Hg _ IH]; [contradiction | ].
    destruct Hin as [<- | Hin]; [congruence | now apply IH].
Qed.

(** ** Writing a layer out and drawing it again *)

Lemma or_else_truthy (v d : json) : truthy v = true -> or_else (Some v) d = v.
Proof. intros H. unfold or_else. now rewrite H. Qed.

Lemma or_else_props (e : json) :
  or_else (Some (or_else (Some e) (JObj []))) (JObj []) = or_else (Some e) (JObj []).
Proof. apply or_else_truthy, props_truthy. Qed.

Lemma polygonPathToCoordinates_of_rings (path : polygon_path) :
  polygonPathToCoordinates path = JArr (map toLngLatArray (rings path)).
Proof. destruct path as [[ | p ring] | [ | r rs]]; reflexivity. Qed.

Lemma polygon_path_of_rings (rs : list (list LngLat)) :
  polygon_path_of (Some (JArr (map toLngLatArray rs))) = Some (RingPath rs).
Proof. unfold polygon_path_of. now rewrite rings_of_rings. Qed.

Lemma feature_of_overlay_is_drawn (geometryType : string) (o : overlay) :
  flatMap_features (overlayToFeature geometryType o)
  = Ok (if of_class geometryType o then [as_saved o] else []).
Proof.
  unfold of_class.
  destruct o as [p d e | path e | path e];
    cbn [overlayToFeature class_type as_saved getExtData];
    rewrite (String.eqb_sym _ geometryType);
    destruct (String.eqb geometryType _); try reflexivity;
    cbn [flatMap_features]; unfold createOverlaysFromFeature, Feature;
    cbn [optprop prop assoc String.eqb Ascii.eqb Bool.eqb truthy_opt truthy negb is_str];
    rewrite or_else_props.
  - unfold new_Marker. now rewrite position_of_pair.
  - unfold new_Polyline. now rewrite path_of_toLngLatArray.
  - rewrite polygonPathToCoordinates_of_rings.
    unfold new_Polygon. now rewrite polygon_path_of_rings.
Qed.

Lemma flatMap_features_app (fs gs : list json) (os os' : list overlay) :
  flatMap_features fs = Ok os -> flatMap_features gs = Ok os' ->
  flatMap_features (fs ++ gs) = Ok (os ++ os')%list.
Proof.
  revert os. induction fs as [ | f fs IH]; simpl; intros os H1 H2.
  - inversion H1. exact H2.
  - destruct (createOverlaysFromFeature f) as [o | ]; [ | discriminate].
    destruct (flatMap_features fs) as [o' | ]; [ | discriminate].
    inversion H1; subst. rewrite (IH o' eq_refl H2). now rewrite app_assoc.
Qed.

Lemma written_layer_is_drawn (geometryType : string) (overlays : list overlay) :
  createOverlaysFromGeoJSON (overlaysToGeoJSON (Some overlays) geometryType)
  = Ok (map as_saved (List.filter (of_class geometryType) overlays)).
Proof.
  change (flatMap_features (concat (map (overlayToFeature geometryType) overlays))
          = Ok (map as_saved (List.filter (of_class geometryType) overlays))).
  induction overlays as [ | o os IH]; [reflexivity | ].
  cbn [map concat List.filter].
  rewrite (flatMap_features_app _ _ _ _ (feature_of_overlay_is_drawn geometryType o) IH).
  now destruct (of_class geometryType o).
Qed.

Lemma as_saved_reads_back (geometryType : string) (o : overlay) :
  overlayToFeature geometryType (as_saved o) = overlayToFeature geometryType o.
Proof.
  destruct o as [p d e | path e | path e];
    cbn [overlayToFeature as_saved getExtData]; rewrite or_else_props; try reflexivity.
  now rewrite !polygonPathToCoordinates_of_rings.
Qed.

(** X3. What is written out for a layer (and posted by a save) can always be
    drawn again, and gives the overlays of the requested class in their
    order, each with its position or path and its properties, no marker
    draggable and every polygon path as a list of rings; reading those
    overlays back gives the very collection that was written. *)
Theorem written_layer_draws_back (overlays : list overlay) (geometryType : string) :
  let written := overlaysToGeoJSON (Some overlays) geometryType in
  let drawn := map as_saved (List.filter (of_class geometryType) overlays) in
  createOverlaysFromGeoJSON written = Ok drawn
  /\ overlaysToGeoJSON (Some drawn) geometryType = written.
Proof.
  cbv zeta. split; [apply written_layer_is_drawn | ].
  unfold overlaysToGeoJSON. f_equal.
  induction overlays as [ | o os IH]; [reflexivity | ].
  cbn [List.filter map concat].
  destruct (of_class geometryType o) eqn:C; cbn [map concat].
  - now rewrite IH, as_saved_reads_back.
  - rewrite IH. unfold of_class in C. apply String.eqb_neq in C.
    now rewrite (overlayToFeature_other_class _ _ C).
Qed.

(** ** The options of the selectors *)

Lemma appendOptions_options (l : list string) (sel : select) :
  options (foldr appendOption sel l) = list_to_set l ∪ options sel
  /\ value (foldr appendOption sel l) = value sel.
Proof.
  induction l as [ | v l [IHo IHv]]; simpl.
  - split; [ | reflexivity].
    apply set_eq. intros x. rewrite elem_of_union, elem_of_empty. tauto.
  - split; [ | exact IHv].
    rewrite IHo. apply set_eq. intros x. rewrite !elem_of_union. tauto.
Qed.

Lemma in_school_names (fs : list json) (v : string) :
  In v (school_names fs) <->
  exists f, In f fs /\ truthy_opt (school_of f) = true /\ to_string_opt (school_of f) = v.
Proof.
  unfold school_names. rewrite in_flat_map. unfold school_of.
  split; intros (f & Hin & H); exists f; (split; [exact Hin | ]).
  - destruct (truthy_opt _); [ | contradiction].
    destruct H as [<- | []]. auto.
  - destruct H as [-> <-]. now left.
Qed.

Lemma setSchoolOptions_collection (geojson : json) (fs : list json) (s : State) :
  is_FeatureCollection geojson = true -> features_listed geojson fs ->
  setSchoolOptions geojson s
  = Return tt
      (upd_page (upd_schoolSelect
                   (fun _ => foldr appendOption placeholder_only (school_names fs))) s).
Proof.
  unfold is_FeatureCollection, features_listed. intros H Hfs.
  apply andb_true_iff in H as [Ht Hty].
  unfold setSchoolOptions. rewrite modify_bind, Ht, Hty, Hfs. cbn [negb orb].
  unfold modify. now destruct s as [? ? ? ? ? [] ?].
Qed.


Lemma has_school_school_of (v : string) (f : json) :
  has_school v f = true <-> school_of f = Some (JStr v).
Proof.
  rewrite has_school_iff. unfold school_of.
  destruct (optprop (Some f) "properties") as [[ | [] | n | x | l | fields] | ];
    cbn [or_else truthy prop optprop]; try tauto.
  - destruct (negb (n =? 0)); cbn [prop]; tauto.
  - destruct (negb (String.eqb x "")); cbn [prop]; tauto.
Qed.

(** X5. Where school names are strings, every option of the school selector
    other than the placeholder shows something: the filter by that option
    gives a collection that is not empty, made of features of the file that
    carry exactly that school name. *)
Theorem every_school_option_shows_a_feature (geojson : json) (fs : list json) (s : State)
    (v : string) :
  is_FeatureCollection geojson = true -> features_listed geojson fs ->
  Forall school_named fs ->
  v ∈ options (schoolSelect (page (final (setSchoolOptions geojson s)))) -> v <> "" ->
  exists shown,
    filterGeoJSONBySchool geojson v = Ok (FeatureCollection shown)
    /\ shown <> []
    /\ Forall (fun f => In f fs /\ school_of f = Some (JStr v)) shown.
Proof.
  intros Hfc Hfs Hnamed Hv Hne.
  rewrite (setSchoolOptions_collection _ _ _ Hfc Hfs) in Hv.
  cbn [final page upd_page schoolSelect upd_schoolSelect] in Hv.
  rewrite (proj1 (appendOptions_options _ _)) in Hv.
  rewrite elem_of_union, elem_of_list_to_set in Hv.
  unfold placeholder_only in Hv. cbn [options] in Hv.
  rewrite elem_of_singleton, list_elem_of_In, in_school_names in Hv.
  destruct Hv as [(f & Hin & Ht & Hs) | ->]; [ | contradiction].
  exists (List.filter (has_school v) fs).
  unfold filterGeoJSONBySchool. rewrite (filter_ref_collection _ _ fs Hfs Hne Hfc).
  split; [reflexivity | split].
  - assert (Hf : has_school v f = true).
    { apply has_school_school_of.
      rewrite Forall_forall in Hnamed. apply list_elem_of_In in Hin.
      specialize (Hnamed f Hin).
      destruct (school_of f) as [x | ] eqn:Ex; [ | discriminate].
      destruct (Hnamed x Ex) as [-> | [name ->]]; [discriminate | ].
      simpl in Hs. now subst. }
    intros E. assert (Hinf : In f (List.filter (has_school v) fs))
      by (apply filter_In; auto).
    rewrite E in Hinf. contradiction.
  - apply Forall_forall. intros g Hg. apply list_elem_of_In in Hg.
    apply filter_In in Hg as [Hg1 Hg2]. split; [exact Hg1 | ].
    now apply has_school_school_of.
Qed.

Lemma every_school_option_shows_a_feature_witness :
  exists shown,
    filterGeoJSONBySchool two_schools "North" = Ok (FeatureCollection shown)
    /\ shown <> []
    /\ Forall (fun f => In f [district_of "North" 0; district_of "South" 5]
                        /\ school_of f = Some (JStr "North")) shown.
Proof.
  apply (every_school_option_shows_a_feature two_schools
           [district_of "North" 0; district_of "South" 5] (initial blank_page) "North").
  - reflexivity.
  - reflexivity.
  - constructor; [ | constructor; [ | constructor]];
      intros x H; vm_compute in H; inversion H; right; eauto.
  - apply elem_of_union_l, elem_of_singleton. reflexivity.
  - discriminate.
Defined.

Lemma appendHistoryOptions_run (l : list json) (s : State) :
  Forall (fun item => item <> JNull) l ->
  appendHistoryOptions l s
  = Return tt
      (upd_page (upd_historySelect
         (fun sel => foldr appendOption sel
                       (rev (map (fun item => to_string_opt (prop item "save_id")) l)))) s).
Proof.
  intros H. revert s. induction H as [ | item l Hi _ IH]; intros s.
  - cbn. now destruct s as [? ? ? ? ? [] ?].
  - cbn [appendHistoryOptions].
    assert (E : appendHistoryOptions (item :: l) s
                = appendHistoryOptions l
                    (upd_page (upd_historySelect
                       (appendOption (to_string_opt (prop item "save_id")))) s)).
    { destruct item; try congruence; reflexivity. }
    cbn [appendHistoryOptions] in E. rewrite E, IH.
    unfold upd_page, upd_historySelect. cbn [map rev page historySelect fileSelect
      schoolSelect showPointsCheckbox showItemsCheckbox statusEl editPolygonBtn
      editPointsBtn layers editing originals file responseCache net].
    now rewrite foldr_app.
Qed.

Lemma appendHistoryOptions_value (l : list json) (s : State) :
  value (historySelect (page (final (appendHistoryOptions l s))))
  = value (historySelect (page s)).
Proof.
  revert s. induction l as [ | item l IH]; intros s; [reflexivity | ].
  cbn [appendHistoryOptions]. destruct item; try reflexivity;
    rewrite modify_bind, IH; reflexivity.
Qed.

Lemma appendHistoryOptions_null (l : list json) (s : State) :
  In JNull l -> raised (appendHistoryOptions l s) = true.
Proof.
  revert s. induction l as [ | x l IH]; intros s Hin; [contradiction | ].
  cbn [appendHistoryOptions].
  destruct Hin as [-> | Hin]; [reflexivity | ].
  destruct x; try reflexivity; rewrite modify_bind; now apply IH.
Qed.


(** ** When the network is used *)

(** X7. An unforced [fetchJsonWithCache] issues its request exactly when the
    cache has no entry for the key that is both fresh and truthy. In
    particular a cached [null], [false], [0] or empty string is never
    served: it is fetched again on every call, however fresh it is. *)
Theorem request_unless_fresh_truthy_entry (url : string) (ref : cache_ref)
    (key : string) (s : State) :
  let cached := (cacheGet (clock (net s)) (Some (cache_of ref (responseCache s))) key).1 in
  let after := fetchJsonWithCache url ref key false s in
  sent (net (final after))
  = (sent (net s) ++ (if truthy cached then [] else [Request GET url None]))%list
  /\ (truthy cached = true -> exists s', after = Return cached s' /\ net s' = net s)
  /\ (forall e, cache_of ref (responseCache s) !! key = Some e ->
        clock (net s) - ts e <= CACHE_TTL_MS -> truthy (data e) = false ->
        sent (net (final after)) = (sent (net s) ++ [Request GET url None])%list).
Proof.
  cbv zeta.
  assert (G : sent (net (final (fetchJsonWithCache url ref key false s)))
              = (sent (net s)
                 ++ (if truthy (cacheGet (clock (net s))
                                  (Some (cache_of ref (responseCache s))) key).1
                     then [] else [Request GET url None]))%list
              /\ (truthy (cacheGet (clock (net s))
                            (Some (cache_of ref (responseCache s))) key).1 = true ->
                  exists s', fetchJsonWithCache url ref key false s
                             = Return (cacheGet (clock (net s))
                                         (Some (cache_of ref (responseCache s))) key).1 s'
                             /\ net s' = net s)).
  { rewrite fetchJsonWithCache_unforced.
    destruct (cacheGet_ref_Return ref key s) as (s1 & E & _ & _ & _ & _ & _ & Hn).
    rewrite E. destruct (truthy _).
    - split; [simpl; now rewrite Hn, app_nil_r | eauto].
    - split; [ | discriminate]. now rewrite fetchJsonWithCache_force_logs, Hn. }
  destruct G as [G1 G2]. split; [exact G1 | split; [exact G2 | ]].
  intros e He Hage Hf. rewrite G1, (cacheGet_fresh _ _ _ _ He Hage). simpl. now rewrite Hf.
Qed.

(** X8. A value that came over the network and is truthy is served from the
    cache, with no request, by every unforced call for the same key made
    within five minutes of its arrival (as long as the entry is still the
    one stored); the URL of the later call plays no part. *)
Theorem fetched_value_is_served_from_cache (url url' : string) (ref : cache_ref)
    (key : string) (s : State) (t later : Z) (h : http) (rest : list (Z * response))
    (d : json) :
  inbox (net s) = (t, Answer h) :: rest -> ok h = true -> parsed h = Ok d ->
  truthy d = true -> later - t <= CACHE_TTL_MS ->
  let s1 := at_clock later (final (fetchJsonWithCache url ref key true s)) in
  fetchJsonWithCache url' ref key false s1 = Return d s1.
Proof.
  intros Hin Hok Hp Ht Hage. cbv zeta.
  destruct (fetchJsonWithCache_force_success url ref key s t h rest d Hin Hok Hp)
    as (s' & E & Hc & _).
  rewrite E. cbn [final].
  apply (fetchJsonWithCache_hit url' ref key (at_clock later s') (Entry t d)).
  - unfold at_clock. cbn [responseCache upd_net]. rewrite Hc. apply lookup_insert_eq.
  - exact Hage.
  - exact Ht.
Qed.

Lemma fetched_value_is_served_from_cache_witness :
  let s := upd_net (fun n => mkNetwork 0 [(5, answer (JArr [JStr "A.geojson"]))] (sent n))
             (initial blank_page) in
  let s1 := at_clock 300005 (final (fetchJsonWithCache "/api/polygons" index "index" true s)) in
  fetchJsonWithCache "/api/polygons" index "index" false s1 = Return (JArr [JStr "A.geojson"]) s1.
Proof.
  cbv zeta.
  apply (fetched_value_is_served_from_cache "/api/polygons" "/api/polygons" index "index"
           _ 5 300005 (Http 200 "" (Ok (JArr [JStr "A.geojson"]))) []).
  - reflexivity.
  - reflexivity.
  - reflexivity.
  - reflexivity.
  - vm_compute. discriminate.
Defined.

(** ** Refreshing the file list *)

Lemma loadIndex_frame :
  keeps layers (loadIndex true) /\ keeps editing (loadIndex true)
  /\ keeps originals (loadIndex true) /\ keeps file (loadIndex true).
Proof. repeat split; unfold loadIndex; frame. Qed.

Lemma loadIndex_never_raises (force : bool) (s : State) :
  raised (loadIndex force s) = false.
Proof.
  unfold loadIndex, try_catch.
  match goal with |- context [match ?b with Return _ _ => _ | Raise _ _ => _ end] =>
    destruct b end; reflexivity.
Qed.



(** ** Edit sessions *)

Lemma polygon_indices_spec (os : list overlay) (base i : nat) :
  i ∈ polygon_indices base os <->
  exists j path e, i = (base + j)%nat /\ os !! j = Some (Polygon path e).
Proof.
  revert base. induction os as [ | o os IH]; intros base.
  - simpl. split; [intros H; inversion H | intros (j & ? & ? & _ & H); discriminate].
  - assert (Hrest : (exists j path e, i = (S base + j)%nat /\ os !! j = Some (Polygon path e))
                    <-> exists j path e, i = (base + S j)%nat
                                         /\ (o :: os) !! S j = Some (Polygon path e)).
    { split; intros (j & path & e & -> & H); exists j, path, e; (split; [lia | exact H]). }
    destruct o as [p d x | p x | p x]; cbn [polygon_indices].
    + rewrite IH, Hrest. split.
      * intros (j & path & e & -> & H). eauto.
      * intros ([ | j] & path & e & -> & H); [discriminate | ]. eauto.
    + rewrite IH, Hrest. split.
      * intros (j & path & e & -> & H). eauto.
      * intros ([ | j] & path & e & -> & H); [discriminate | ]. eauto.
    + rewrite elem_of_cons, IH, Hrest. split.
      * intros [-> | (j & path & e & -> & H)]; [ | eauto].
        exists 0%nat, p, x. split; [lia | reflexivity].
      * intros ([ | j] & path & e & -> & H); [left; lia | right; eauto].
Qed.

(** X10. With a polygon layer that is not empty, no school filter and no
    session open, the polygon toggle opens a session with one editor for
    each polygon overlay of the layer and for nothing else, and leaves the
    layers as they are; the next toggle closes the session and all its
    editors. *)
Theorem polygon_toggle_opens_an_editor_per_polygon (s : State) :
  nonempty (currentPolygonLayer (layers s)) = true ->
  value (schoolSelect (page s)) = "" ->
  isPolygonEditing (editing s) = false ->
  let opened := final (togglePolygonEditing s) in
  let closed := final (togglePolygonEditing opened) in
  isPolygonEditing (editing opened) = true
  /\ layers opened = layers s
  /\ (forall i, i ∈ polygonEditors (editing opened) <->
        exists path e,
          default [] (currentPolygonLayer (layers s)) !! i = Some (Polygon path e))
  /\ isPolygonEditing (editing closed) = false
  /\ polygonEditors (editing closed) = []
  /\ layers closed = layers s.
Proof.
  intros Hl Hf He. cbv zeta.
  assert (E : togglePolygonEditing s
              = Return tt
                  (upd_page (set_statusEl "面编辑已开启")
                     (upd_page (set_editPolygonBtn "结束编辑面")
                        (upd_editing (set_isPolygonEditing true)
                           (upd_editing
                              (set_polygonEditors
                                 (polygon_indices 0
                                    (default [] (currentPolygonLayer (layers s)))))
                              (final (closePolygonEditors s))))))).
  { cbv beta iota zeta delta
      [togglePolygonEditing isSchoolFilterActive getSelectedSchool read mbind M_bind
       mret M_ret setStatus modify closePolygonEditors final].
    rewrite Hl. cbv beta iota delta [negb]. rewrite Hf. cbn [String.eqb negb].
    cbv beta iota. rewrite He. reflexivity. }
  rewrite E. cbn [final].
  split; [reflexivity | ]. split; [reflexivity | ]. split.
  - intros i. cbn [editing upd_page upd_editing polygonEditors set_isPolygonEditing
                   set_polygonEditors].
    rewrite polygon_indices_spec. split.
    + intros (j & path & e & -> & H). eauto.
    + intros (path & e & H). exists i, path, e. split; [reflexivity | exact H].
  - match goal with |- context [togglePolygonEditing ?x] => set (o := x) end.
    assert (E2 : togglePolygonEditing o = closePolygonEditors o).
    { cbv beta iota zeta delta
        [togglePolygonEditing isSchoolFilterActive getSelectedSchool read mbind M_bind
         mret M_ret setStatus].
      subst o. cbn [layers upd_page upd_editing page schoolSelect set_statusEl
                    set_editPolygonBtn editing isPolygonEditing set_isPolygonEditing].
      change (layers (final (closePolygonEditors s))) with (layers s).
      rewrite Hl. cbv beta iota delta [negb]. cbn [page upd_page schoolSelect set_statusEl
        set_editPolygonBtn upd_editing].
      change (schoolSelect (page (final (closePolygonEditors s))))
        with (schoolSelect (page s)).
      rewrite Hf. reflexivity. }
    rewrite E2. repeat split.
Qed.

Lemma polygon_toggle_opens_an_editor_per_polygon_witness :
  let s := run open_two_schools (initial blank_page) in
  isPolygonEditing (editing (final (togglePolygonEditing s))) = true
  /\ polygonEditors (editing (final (togglePolygonEditing s))) = [0%nat; 1%nat].
Proof.
  cbv zeta.
  assert (H1 : nonempty (currentPolygonLayer
                 (layers (run open_two_schools (initial blank_page)))) = true)
    by (vm_compute; reflexivity).
  assert (H2 : value (schoolSelect (page (run open_two_schools (initial blank_page)))) = "")
    by (vm_compute; reflexivity).
  assert (H3 : isPolygonEditing (editing (run open_two_schools (initial blank_page))) = false)
    by (vm_compute; reflexivity).
  destruct (polygon_toggle_opens_an_editor_per_polygon _ H1 H2 H3) as (G & _).
  split; [exact G | vm_compute; reflexivity].
Defined.

Lemma setDraggable_reads_back (d : bool) (geometryType : string) (o : overlay) :
  overlayToFeature geometryType (setDraggable d o) = overlayToFeature geometryType o.
Proof. now destruct o. Qed.

Lemma setMarkersDraggable_reads_back (d : bool) (geometryType : string)
    (layer : option (list overlay)) :
  overlaysToGeoJSON (setMarkersDraggable layer d) geometryType
  = overlaysToGeoJSON layer geometryType.
Proof.
  destruct layer as [os | ]; [ | reflexivity]. unfold overlaysToGeoJSON. simpl. f_equal.
  induction os as [ | o os IH]; [reflexivity | ].
  simpl. now rewrite IH, setDraggable_reads_back.
Qed.

Lemma setMarkersDraggable_all (d : bool) (layer : option (list overlay)) :
  Forall (fun o => forall p d' e, o = Marker p d' e -> d' = d)
    (default [] (setMarkersDraggable layer d)).
Proof.
  destruct layer as [os | ]; [ | constructor]. simpl.
  induction os as [ | o os IH]; simpl; constructor; [ | exact IH].
  destruct o; simpl; intros ? ? ? H; inversion H; reflexivity.
Qed.

(** X11. With a points layer that is not empty and no school filter, the points
    toggle flips the session and makes every marker of the points layer
    draggable exactly when the session is now open; no position and no
    properties change in any layer, and the other two layers are left
    untouched. *)
Theorem points_toggle_sets_every_marker (s : State) :
  nonempty (currentPointsLayer (layers s)) = true ->
  value (schoolSelect (page s)) = "" ->
  let s' := final (togglePointsEditing s) in
  isPointsEditing (editing s') = negb (isPointsEditing (editing s))
  /\ Forall (fun o => forall p d e, o = Marker p d e -> d = isPointsEditing (editing s'))
       (default [] (currentPointsLayer (layers s')))
  /\ same_shapes (layers s') (layers s)
  /\ currentPolygonLayer (layers s') = currentPolygonLayer (layers s)
  /\ currentItemsLayer (layers s') = currentItemsLayer (layers s)
  /\ isPolygonEditing (editing s') = isPolygonEditing (editing s).
Proof.
  intros Hl Hf. cbv zeta.
  assert (E : togglePointsEditing s
              = Return tt
                  (upd_page (set_statusEl (if negb (isPointsEditing (editing s))
                                           then "点编辑已开启" else "点编辑已关闭"))
                     (upd_page (set_editPointsBtn (if negb (isPointsEditing (editing s))
                                                   then "结束编辑点" else "编辑点"))
                        (upd_layers
                           (fun l => set_pointsLayer
                                       (setMarkersDraggable (currentPointsLayer l)
                                          (negb (isPointsEditing (editing s)))) l)
                           (upd_editing
                              (fun e => set_isPointsEditing (negb (isPointsEditing e)) e)
                              s))))).
  { cbv beta iota zeta delta
      [togglePointsEditing isSchoolFilterActive getSelectedSchool read mbind M_bind
       mret M_ret setStatus modify].
    rewrite Hl. cbv beta iota delta [negb]. rewrite Hf. reflexivity. }
  rewrite E. cbn [final]. split; [reflexivity | ]. split; [ | split].
  - apply setMarkersDraggable_all.
  - intros [] geometryType; try reflexivity.
    apply setMarkersDraggable_reads_back.
  - repeat split.
Qed.

Lemma points_toggle_sets_every_marker_witness :
  let s := run [Stimulus 10 (ShowPointsChange true) [];
                Stimulus 20 (FileSelectChange "A.geojson")
                  [(21, answer (FeatureCollection [district 0]));
                   (22, answer (FeatureCollection [entrance 0]));
                   (23, answer (JArr []))]]
             (run open_page (initial blank_page)) in
  isPointsEditing (editing (final (togglePointsEditing s))) = true.
Proof.
  cbv zeta.
  match goal with |- isPointsEditing (editing (final (togglePointsEditing ?x))) = _ =>
    set (s := x) end.
  assert (H1 : nonempty (currentPointsLayer (layers s)) = true) by (vm_compute; reflexivity).
  assert (H2 : value (schoolSelect (page s)) = "") by (vm_compute; reflexivity).
  destruct (points_toggle_sets_every_marker s H1 H2) as (G & _).
  rewrite G. vm_compute. reflexivity.
Defined.

(** X12. Ending the edit sessions never raises; afterwards no session is open
    and no editor is left; every layer reads back as before, so what was
    edited stays on the map; and when a points session was open, no marker
    of the points layer can be dragged any more. *)
Theorem ending_the_sessions_keeps_the_edits (s : State) :
  let s' := final (disableAllEditing s) in
  raised (disableAllEditing s) = false
  /\ isPolygonEditing (editing s') = false
  /\ isPointsEditing (editing s') = false
  /\ polygonEditors (editing s') = []
  /\ same_shapes (layers s') (layers s)
  /\ (isPointsEditing (editing s) = true -> fixed (currentPointsLayer (layers s'))).
Proof.
  cbv zeta.
  cbv beta iota zeta delta [disableAllEditing closePolygonEditors mbind M_bind modify
                             read when mret M_ret].
  cbn [editing upd_page upd_editing isPointsEditing set_isPolygonEditing
       set_polygonEditors].
  destruct (isPointsEditing (editing s)) eqn:E; cbn [final raised].
  - repeat split.
    + intros [] geometryType; try reflexivity.
      cbn [layers upd_page upd_editing upd_layers layer_of set_pointsLayer
           currentPointsLayer].
      apply setMarkersDraggable_reads_back.
    + intros _. unfold fixed.
      cbn [layers upd_page upd_editing upd_layers set_pointsLayer currentPointsLayer].
      eapply Forall_impl; [apply (setMarkersDraggable_all false) | ].
      intros [p d e | | ] H; simpl; [exact (H p d e eq_refl) | reflexivity | reflexivity].
  - repeat split; [exact E | discriminate].
Qed.

Lemma ending_sessions (s : State) :
  isPolygonEditing (editing (final (disableAllEditing s))) = false
  /\ isPointsEditing (editing (final (disableAllEditing s))) = false.
Proof.
  cbv beta iota zeta delta [disableAllEditing closePolygonEditors mbind M_bind modify
                             read when mret M_ret].
  cbn [editing upd_page upd_editing isPointsEditing set_isPolygonEditing
       set_polygonEditors].
  destruct (isPointsEditing (editing s)) eqn:E; cbn [final]; split; try reflexivity.
  exact E.
Qed.

Lemma ending_sessions_editing (s : State) :
  editing (final (disableAllEditing s)) = mkEditing [] false false.
Proof.
  cbv beta iota zeta delta [disableAllEditing closePolygonEditors mbind M_bind modify
                             read when mret M_ret].
  cbn [editing upd_page upd_editing isPointsEditing set_isPolygonEditing
       set_polygonEditors].
  destruct s as [ly [eds pg [ | ]] og fl ch pg' nt]; reflexivity.
Qed.

Lemma ending_shapes (s : State) :
  same_shapes (layers (final (disableAllEditing s))) (layers s).
Proof.
  cbv beta iota zeta delta [disableAllEditing closePolygonEditors mbind M_bind modify
                             read when mret M_ret].
  cbn [editing upd_page upd_editing isPointsEditing set_isPolygonEditing
       set_polygonEditors].
  destruct (isPointsEditing (editing s)); cbn [final]; [ | intros ? ?; reflexivity].
  intros [] geometryType; try reflexivity.
  cbn [layers upd_page upd_editing upd_layers layer_of set_pointsLayer currentPointsLayer].
  apply setMarkersDraggable_reads_back.
Qed.

(** ** Markers are draggable in a points session only *)

Lemma feature_overlays_fixed (feature : json) (overlays : list overlay) :
  createOverlaysFromFeature feature = Ok overlays ->
  Forall (fun o => is_draggable o = false) overlays.
Proof.
  unfold createOverlaysFromFeature.
  destruct (negb _); [intros H; inversion H; constructor | ].
  repeat match goal with
    | |- (if ?b then _ else _) = _ -> _ => destruct b
    end;
    intros H;
    first [ apply (single_all _ _ _ H); intros o Ho
          | apply (forEach_coords_all _ _ _ _ H); intros c o Ho
          | inversion H; constructor ];
    first [ apply new_Marker_inv in Ho as [p ->]
          | apply new_Polyline_inv in Ho as [p ->]
          | apply new_Polygon_inv in Ho as [p ->] ];
    reflexivity.
Qed.

Lemma created_overlays_fixed (geojson : json) (overlays : list overlay) :
  createOverlaysFromGeoJSON geojson = Ok overlays -> fixed (Some overlays).
Proof.
  unfold createOverlaysFromGeoJSON, fixed. cbn [default].
  destruct (negb _); [intros H; inversion H; constructor | ].
  destruct (is_str _ "FeatureCollection").
  - destruct (prop geojson "features") as [[ | | | | fs | ] | ]; try discriminate.
    intros H. apply flatMap_features_spec in H as (pf & H & ->).
    induction H as [ | f os fs' pf' Hf _ IH]; [constructor | ].
    simpl. apply Forall_app. split; [now apply (feature_overlays_fixed f) | exact IH].
  - destruct (is_str _ "Feature"); apply feature_overlays_fixed.
Qed.

Lemma drag_frame {A : Type} (m : M A) :
  keeps layers m -> keeps (fun s => isPointsEditing (editing s)) m ->
  preserves drag_only_in_session m.
Proof.
  intros Kl Ke s H. unfold drag_only_in_session in *.
  rewrite (Kl s). now rewrite (Ke s).
Qed.

Lemma clearing_preserves_drag :
  preserves drag_only_in_session clearPolygonLayer
  /\ preserves drag_only_in_session clearPointsLayer
  /\ preserves drag_only_in_session clearItemsLayer
  /\ preserves drag_only_in_session clearAllLayers.
Proof.
  split; [ | split; [ | split]]; intros s (H1 & H2 & H3);
    (split; [ | split]); cbn; try assumption; try constructor; intros _; constructor.
Qed.

Lemma rendering_preserves_drag (geojson : json) (label : string) (skipOriginal : bool) :
  preserves drag_only_in_session (renderGeoJSON geojson label skipOriginal)
  /\ preserves drag_only_in_session (renderPointsGeoJSON geojson label skipOriginal)
  /\ preserves drag_only_in_session (renderItemsGeoJSON geojson label skipOriginal).
Proof.
  split; [ | split]; intros s (H1 & H2 & H3);
    unfold_render; rewrite modify_bind;
    (destruct (createOverlaysFromGeoJSON geojson) as [os | m] eqn:E;
     [ apply created_overlays_fixed in E; destruct skipOriginal | ]);
    (split; [ | split]); cbn; try assumption; try constructor;
    intros _; first [assumption | constructor].
Qed.

Lemma disableAllEditing_preserves_drag : preserves drag_only_in_session disableAllEditing.
Proof.
  intros s (H1 & H2 & H3).
  cbv beta iota zeta delta [disableAllEditing closePolygonEditors mbind M_bind modify
                             read when mret M_ret].
  cbn [editing upd_page upd_editing isPointsEditing set_isPolygonEditing
       set_polygonEditors].
  destruct (isPointsEditing (editing s)) eqn:E; cbn [final].
  - split; [exact H1 | split; [exact H2 | intros _]].
    unfold fixed.
    cbn [layers upd_page upd_editing upd_layers set_pointsLayer currentPointsLayer].
    eapply Forall_impl; [apply (setMarkersDraggable_all false) | ].
    intros [p d e | | ] H; simpl; [exact (H p d e eq_refl) | reflexivity | reflexivity].
  - split; [exact H1 | split; [exact H2 | intros _; exact (H3 eq_refl)]].
Qed.

Lemma togglePolygonEditing_preserves_drag :
  preserves drag_only_in_session togglePolygonEditing
  /\ preserves drag_only_in_session closePolygonEditors.
Proof.
  split; apply drag_frame;
    unfold togglePolygonEditing, closePolygonEditors, isSchoolFilterActive,
      getSelectedSchool; frame.
Qed.

Lemma togglePointsEditing_preserves_drag :
  preserves drag_only_in_session togglePointsEditing.
Proof.
  intros s (H1 & H2 & H3).
  cbv beta iota zeta delta
    [togglePointsEditing isSchoolFilterActive getSelectedSchool read mbind M_bind
     mret M_ret setStatus modify].
  destruct (negb (nonempty _)); cbv beta iota; [now repeat split | ].
  destruct (negb (String.eqb _ _)); cbv beta iota; [now repeat split | ].
  cbn [final]. split; [exact H1 | split; [exact H2 | ]].
  cbn [editing upd_page upd_layers upd_editing isPointsEditing set_isPointsEditing].
  intros E. unfold fixed.
  cbn [layers upd_page upd_editing upd_layers set_pointsLayer currentPointsLayer].
  eapply Forall_impl; [apply setMarkersDraggable_all | ].
  intros [p d e | | ] H; simpl; [ | reflexivity | reflexivity].
  rewrite (H p d e eq_refl). exact E.
Qed.

Lemma alter_fixed (f : overlay -> overlay) (i : nat) (layer : option (list overlay))
    (altered : list overlay) :
  (forall o, is_draggable o = false -> is_draggable (f o) = false) ->
  fixed layer -> layer = Some altered -> fixed (Some (alter f i altered)).
Proof.
  intros Hf H ->. unfold fixed in *. simpl in *.
  revert i. induction altered as [ | o os IH]; intros i; [destruct i; constructor | ].
  inversion H; subst. destruct i; simpl; constructor; auto.
  now apply IH.
Qed.

Lemma alter_overlay_preserves_drag (k : layer_id) (i : nat) (f : overlay -> overlay) :
  (forall o, is_draggable (f o) = is_draggable o) ->
  preserves drag_only_in_session (alter_overlay k i f).
Proof.
  intros Hf s (H1 & H2 & H3). unfold alter_overlay. cbn [modify final].
  assert (Hf' : forall o, is_draggable o = false -> is_draggable (f o) = false)
    by (intros o; now rewrite Hf).
  unfold drag_only_in_session.
  destruct k; cbn [layer_of layers upd_layers];
    match goal with |- context [match ?l with Some _ => _ | None => _ end] =>
      destruct l as [os | ] eqn:E end;
    cbn [set_layer set_polygonLayer set_pointsLayer set_itemsLayer editing
         currentPolygonLayer currentPointsLayer currentItemsLayer upd_layers];
    try (rewrite ?E; split; [exact H1 | split; [exact H2 | exact H3]]).
  - split; [ | split; [exact H2 | exact H3]]. now apply (alter_fixed f i _ os Hf' H1).
  - split; [exact H1 | split; [exact H2 | ]].
    intros Ed. now apply (alter_fixed f i _ os Hf' (H3 Ed)).
  - split; [exact H1 | split; [ | exact H3]]. now apply (alter_fixed f i _ os Hf' H2).
Qed.

Lemma operator_preserves_drag :
  (forall k i input, preserves drag_only_in_session (overlayClick k i input))
  /\ (forall k i p, preserves drag_only_in_session (markerDrag k i p))
  /\ (forall i path, preserves drag_only_in_session (polygonEdit i path)).
Proof.
  split; [ | split].
  - intros k i input. unfold overlayClick.
    pose proof (alter_overlay_preserves_drag k i) as Ha.
    intros s H. rewrite !read_bind.
    destruct (_ && _); [ | exact H].
    destruct input as [ | | | p]; try exact H.
    cbn [when]. unfold setStatus. unfold mbind, M_bind.
    pose proof (Ha (setPosition p) ltac:(now intros []) s H) as G.
    destruct (alter_overlay k i (setPosition p) s); exact G.
  - intros k i p. apply alter_overlay_preserves_drag. now intros [? [] ? | | ].
  - intros i path. unfold polygonEdit. intros s H. rewrite read_bind.
    destruct (bool_decide _); [ | exact H].
    apply alter_overlay_preserves_drag; [now intros [] | exact H].
Qed.

#[export] Hint Extern 1 (preserves drag_only_in_session clearPolygonLayer) =>
  exact (proj1 clearing_preserves_drag) : frame.
#[export] Hint Extern 1 (preserves drag_only_in_session clearPointsLayer) =>
  exact (proj1 (proj2 clearing_preserves_drag)) : frame.
#[export] Hint Extern 1 (preserves drag_only_in_session clearItemsLayer) =>
  exact (proj1 (proj2 (proj2 clearing_preserves_drag))) : frame.
#[export] Hint Extern 1 (preserves drag_only_in_session clearAllLayers) =>
  exact (proj2 (proj2 (proj2 clearing_preserves_drag))) : frame.
#[export] Hint Extern 1 (preserves drag_only_in_session (renderGeoJSON ?g ?l ?b)) =>
  exact (proj1 (rendering_preserves_drag g l b)) : frame.
#[export] Hint Extern 1 (preserves drag_only_in_session (renderPointsGeoJSON ?g ?l ?b)) =>
  exact (proj1 (proj2 (rendering_preserves_drag g l b))) : frame.
#[export] Hint Extern 1 (preserves drag_only_in_session (renderItemsGeoJSON ?g ?l ?b)) =>
  exact (proj2 (proj2 (rendering_preserves_drag g l b))) : frame.
#[export] Hint Extern 1 (preserves drag_only_in_session disableAllEditing) =>
  exact disableAllEditing_preserves_drag : frame.

(** Solves [preserves drag_only_in_session m]: the steps that touch
    neither the layers nor the points session by framing, the others by
    the lemmas above. *)
Ltac drag_step :=
  first
    [ invariant_step
    | apply drag_frame; [solve [frame] | solve [frame]] ].

Ltac drag := repeat drag_step.

Ltac unfold_leaves :=
  unfold setSchoolOptions, isSchoolFilterActive, schoolTag, getSelectedSchool, getFileName.

Lemma loading_preserves_drag (fileName : string) :
  preserves drag_only_in_session (loadPointsForFile fileName)
  /\ preserves drag_only_in_session (loadItemsForFile fileName).
Proof. split; unfold loadPointsForFile, loadItemsForFile; unfold_leaves; drag. Qed.

#[export] Hint Extern 1 (preserves drag_only_in_session (loadPointsForFile ?f)) =>
  exact (proj1 (loading_preserves_drag f)) : frame.
#[export] Hint Extern 1 (preserves drag_only_in_session (loadItemsForFile ?f)) =>
  exact (proj2 (loading_preserves_drag f)) : frame.

Lemma loadSelectedFile_preserves_drag : preserves drag_only_in_session loadSelectedFile.
Proof. unfold loadSelectedFile; unfold_leaves; drag. Qed.

#[export] Hint Extern 1 (preserves drag_only_in_session loadSelectedFile) =>
  exact loadSelectedFile_preserves_drag : frame.

Lemma applyHistoryData_preserves_drag (d : json) (asCurrent : bool) :
  preserves drag_only_in_session (applyHistoryData d asCurrent).
Proof. unfold applyHistoryData; unfold_leaves; drag. Qed.

#[export] Hint Extern 1 (preserves drag_only_in_session (applyHistoryData ?d ?b)) =>
  exact (applyHistoryData_preserves_drag d b) : frame.

Lemma handlers_preserve_drag (ev : event) :
  preserves drag_only_in_session (handler ev).
Proof.
  destruct ev; cbn [handler];
    match goal with
    | |- preserves _ togglePolygonEditing => exact (proj1 togglePolygonEditing_preserves_drag)
    | |- preserves _ togglePointsEditing => exact togglePointsEditing_preserves_drag
    | |- preserves _ (overlayClick ?k ?i ?x) =>
        exact (proj1 operator_preserves_drag k i x)
    | |- preserves _ (markerDrag ?k ?i ?p) =>
        exact (proj1 (proj2 operator_preserves_drag) k i p)
    | |- preserves _ (polygonEdit ?i ?p) =>
        exact (proj2 (proj2 operator_preserves_drag) i p)
    | |- _ =>
        unfold loadIndex, showPointsChange, showItemsChange, savePolygonClick,
          savePointsClick, saveDbClick, saveCurrentToDatabase, saveGeoJSON, resetEdits,
          schoolSelectChange, applySchoolFilter, historySelectChange, loadHistoryById,
          restoreHistoryAsCurrent, fileInputLoad;
        unfold_leaves; drag
    end.
Qed.

(** X13. In every reachable state no overlay of the polygon layer or of the
    items layer can be dragged, and a marker of the points layer can be
    dragged only while a points session is open. *)
Theorem markers_are_draggable_in_a_points_session_only (s : State) :
  reachable s -> drag_only_in_session s.
Proof.
  induction 1 as [ | st s _ IH].
  - repeat split; try intros _; constructor.
  - unfold dispatch. apply handlers_preserve_drag. exact IH.
Qed.

Lemma markers_are_draggable_in_a_points_session_only_witness :
  drag_only_in_session (run hide_points_while_editing (initial blank_page)).
Proof.
  apply markers_are_draggable_in_a_points_session_only.
  apply reachable_run. constructor.
Defined.

(** ** Only the save buttons write to the server *)

Lemma gets_frame {A : Type} (s0 : State) (m : M A) :
  keeps (fun s => sent (net s)) m -> preserves (only_gets_since s0) m.
Proof. intros K s (l & E & H). exists l. split; [now rewrite (K s) | exact H]. Qed.

Lemma fetch_get_preserves (s0 : State) (url : string) :
  preserves (only_gets_since s0) (fetch (Request GET url None)).
Proof.
  intros s (l & E & H). exists (l ++ [Request GET url None])%list.
  rewrite fetch_logs, E, app_assoc. split; [reflexivity | ].
  apply Forall_app. split; [exact H | repeat constructor].
Qed.

#[export] Hint Extern 1 (preserves (only_gets_since ?s0) (fetch (Request GET ?u None))) =>
  exact (fetch_get_preserves s0 u) : frame.

Ltac gets_step :=
  first
    [ invariant_step
    | apply gets_frame; solve [frame] ].

Ltac gets := repeat gets_step.

Lemma fetchJsonWithCache_gets (s0 : State) (url : string) (ref : cache_ref)
    (key : string) (force : bool) :
  preserves (only_gets_since s0) (fetchJsonWithCache url ref key force).
Proof. unfold fetchJsonWithCache. gets. Qed.

#[export] Hint Extern 1
  (preserves (only_gets_since ?s0) (fetchJsonWithCache ?u ?r ?k ?f)) =>
  exact (fetchJsonWithCache_gets s0 u r k f) : frame.

Lemma loadHistoryList_gets (s0 : State) (force : bool) :
  preserves (only_gets_since s0) (loadHistoryList force).
Proof. unfold loadHistoryList. unfold_leaves. gets. Qed.

#[export] Hint Extern 1 (preserves (only_gets_since ?s0) (loadHistoryList ?f)) =>
  exact (loadHistoryList_gets s0 f) : frame.

Lemma loading_gets (s0 : State) (fileName : string) :
  preserves (only_gets_since s0) (loadPointsForFile fileName)
  /\ preserves (only_gets_since s0) (loadItemsForFile fileName).
Proof.
  split; unfold loadPointsForFile, loadItemsForFile; unfold_render; unfold_leaves; gets.
Qed.

#[export] Hint Extern 1 (preserves (only_gets_since ?s0) (loadPointsForFile ?f)) =>
  exact (proj1 (loading_gets s0 f)) : frame.
#[export] Hint Extern 1 (preserves (only_gets_since ?s0) (loadItemsForFile ?f)) =>
  exact (proj2 (loading_gets s0 f)) : frame.

Lemma loadSelectedFile_gets (s0 : State) : preserves (only_gets_since s0) loadSelectedFile.
Proof. unfold loadSelectedFile. unfold_render. unfold_leaves. gets. Qed.

#[export] Hint Extern 1 (preserves (only_gets_since ?s0) loadSelectedFile) =>
  exact (loadSelectedFile_gets s0) : frame.

Lemma applyHistoryData_gets (s0 : State) (d : json) (asCurrent : bool) :
  preserves (only_gets_since s0) (applyHistoryData d asCurrent).
Proof. unfold applyHistoryData. unfold_render. unfold_leaves. gets. Qed.

#[export] Hint Extern 1 (preserves (only_gets_since ?s0) (applyHistoryData ?d ?b)) =>
  exact (applyHistoryData_gets s0 d b) : frame.

Lemma handlers_get (s0 : State) (ev : event) :
  is_save ev = false -> preserves (only_gets_since s0) (handler ev).
Proof.
  destruct ev; try discriminate; intros _; cbn [handler];
    unfold loadIndex, showPointsChange, showItemsChange, togglePolygonEditing,
      togglePointsEditing, closePolygonEditors, resetEdits,
      schoolSelectChange, applySchoolFilter, historySelectChange, loadHistoryById,
      restoreHistoryAsCurrent, fileInputLoad, overlayClick, markerDrag, polygonEdit,
      alter_overlay;
    unfold_render; unfold_leaves; gets.
Qed.

(** X14. Whatever the state, handling an event other than a click on one of
    the three save buttons adds only [GET] requests to the log of issued
    requests, and removes none: nothing is written to the server unless the
    operator presses a save button. *)
Theorem only_the_save_buttons_post (st : stimulus) (s : State) :
  is_save (what st) = false ->
  exists issued,
    sent (net (dispatch st s)) = (sent (net s) ++ issued)%list
    /\ Forall (fun r => meth r = GET) issued.
Proof.
  intros H. unfold dispatch.
  apply (handlers_get s (what st) H). exists []. split; [ | constructor].
  simpl. now rewrite app_nil_r.
Qed.

Lemma only_the_save_buttons_post_witness :
  exists issued,
    sent (net (dispatch restore_click (run view_history (initial blank_page))))
    = (sent (net (run view_history (initial blank_page))) ++ issued)%list
    /\ Forall (fun r => meth r = GET) issued.
Proof.
  apply (only_the_save_buttons_post restore_click). reflexivity.
Defined.

(** ** Which listeners contain their failures *)

Lemma never_raises_ret {A : Type} (a : A) : never_raises (mret a).
Proof. intros s. reflexivity. Qed.

Lemma never_raises_read {A : Type} (f : State -> A) : never_raises (read f).
Proof. intros s. reflexivity. Qed.

Lemma never_raises_modify (f : State -> State) : never_raises (modify f).
Proof. intros s. reflexivity. Qed.

Lemma never_raises_bind {A B : Type} (m : M A) (k : A -> M B) :
  never_raises m -> (forall a, never_raises (k a)) -> never_raises (m ≫= k).
Proof.
  intros Hm Hk s. unfold mbind, M_bind. specialize (Hm s).
  destruct (m s) as [a s' | e s']; [apply Hk | discriminate].
Qed.

Lemma never_raises_try {A : Type} (m : M A) (h : string -> M A) :
  (forall e, never_raises (h e)) -> never_raises (try_catch m h).
Proof. intros Hh s. unfold try_catch. destruct (m s); [reflexivity | apply Hh]. Qed.

Lemma never_raises_when (b : bool) (m : M unit) : never_raises m -> never_raises (when b m).
Proof. destruct b; intros H; [exact H | apply never_raises_ret]. Qed.

Create HintDb quiet.

Ltac quiet_step :=
  match goal with
  | |- never_raises (mret _) => apply never_raises_ret
  | |- never_raises (read _) => apply never_raises_read
  | |- never_raises (modify _) => apply never_raises_modify
  | |- never_raises (when _ _) => apply never_raises_when
  | |- never_raises (_ ≫= _) => apply never_raises_bind; [ | intros ]
  | |- never_raises (try_catch _ _) => apply never_raises_try; intros
  | |- never_raises (if ?b then _ else _) => destruct b
  | |- never_raises (match ?x with _ => _ end) => destruct x
  | |- never_raises _ => solve [ auto with quiet ]
  end.

Ltac quiet := repeat quiet_step.

Lemma quiet_leaves :
  (forall text, never_raises (setStatus text))
  /\ never_raises disableAllEditing
  /\ never_raises clearAllLayers
  /\ never_raises clearPointsLayer
  /\ never_raises clearItemsLayer
  /\ never_raises closePolygonEditors
  /\ (forall k i f, never_raises (alter_overlay k i f)).
Proof.
  repeat apply conj; intros;
    unfold setStatus, disableAllEditing, clearAllLayers, clearPolygonLayer,
      clearPointsLayer, clearItemsLayer, closePolygonEditors, alter_overlay; quiet.
Qed.

#[export] Hint Extern 1 (never_raises (setStatus ?t)) =>
  exact (proj1 quiet_leaves t) : quiet.
#[export] Hint Extern 1 (never_raises disableAllEditing) =>
  exact (proj1 (proj2 quiet_leaves)) : quiet.
#[export] Hint Extern 1 (never_raises clearAllLayers) =>
  exact (proj1 (proj2 (proj2 quiet_leaves))) : quiet.
#[export] Hint Extern 1 (never_raises clearPointsLayer) =>
  exact (proj1 (proj2 (proj2 (proj2 quiet_leaves)))) : quiet.
#[export] Hint Extern 1 (never_raises clearItemsLayer) =>
  exact (proj1 (proj2 (proj2 (proj2 (proj2 quiet_leaves))))) : quiet.
#[export] Hint Extern 1 (never_raises closePolygonEditors) =>
  exact (proj1 (proj2 (proj2 (proj2 (proj2 (proj2 quiet_leaves)))))) : quiet.
#[export] Hint Extern 1 (never_raises (alter_overlay ?k ?i ?f)) =>
  exact (proj2 (proj2 (proj2 (proj2 (proj2 (proj2 quiet_leaves))))) k i f) : quiet.
#[export] Hint Extern 1 (never_raises (loadPointsForFile ?f)) =>
  exact (loadPointsForFile_never_raises f) : quiet.
#[export] Hint Extern 1 (never_raises (loadItemsForFile ?f)) =>
  exact (loadItemsForFile_never_raises f) : quiet.
#[export] Hint Extern 1 (never_raises (loadHistoryList ?f)) =>
  exact (loadHistoryList_never_raises f) : quiet.

Lemma loadSelectedFile_never_raises : never_raises loadSelectedFile.
Proof. unfold loadSelectedFile. quiet. Qed.

#[export] Hint Extern 1 (never_raises loadSelectedFile) =>
  exact loadSelectedFile_never_raises : quiet.

(** X15. Every listener but two keeps its failures to itself: whatever the
    state and whatever the server answers, it returns without raising (a
    failure ends up on the status line). The two exceptions are the reset
    button and the school selector, whose work is not inside a [try]. *)
Theorem listeners_contain_their_failures (ev : event) (s : State) :
  unguarded ev = false -> raised (handler ev s) = false.
Proof.
  intros H. revert s. change (never_raises (handler ev)).
  destruct ev; try discriminate; cbn [handler];
    unfold loadIndex, showPointsChange, showItemsChange, togglePolygonEditing,
      togglePointsEditing, savePolygonClick, savePointsClick, saveDbClick,
      historySelectChange, loadHistoryById, restoreHistoryAsCurrent, fileInputLoad,
      overlayClick, markerDrag, polygonEdit, isSchoolFilterActive, getSelectedSchool;
    quiet.
Qed.

Lemma listeners_contain_their_failures_witness :
  raised (handler SaveDbClick (initial blank_page)) = false.
Proof. apply listeners_contain_their_failures. reflexivity. Defined.

(** The school selector does let a failure out: with points that cannot
    be drawn in memory, going back to all schools raises, and the history
    list is not reloaded. *)
Example school_change_can_raise :
  let s := run points_without_features (initial blank_page) in
  raised (handler (SchoolSelectChange "")
            (upd_net (fun n => mkNetwork 400000 [(400001, answer (JArr []))] (sent n)) s))
  = true
  /\ sent (net (dispatch (Stimulus 400000 (SchoolSelectChange "")
                            [(400001, answer (JArr []))]) s))
     = sent (net s).
Proof. cbv zeta. split; vm_compute; reflexivity. Qed.

Lemma listeners_quiet_history (saveId : string) : never_raises (loadHistoryById saveId).
Proof. unfold loadHistoryById. quiet. Qed.

Lemma listeners_contain_history_change : never_raises historySelectChange.
Proof. unfold historySelectChange, loadHistoryById. quiet. Qed.

(** ** A file that fails to load *)

(** X16. When a file is selected and the server refuses its polygons, the load
    returns with all three layers empty and the failure on the status
    line; the file context already names the selected file as a server
    file, the edit sessions are closed, and neither the school options nor
    the original snapshots have been touched: they are still those of the
    file that was open before. *)
Theorem failed_file_load (s : State) (t : Z) (h : http) (rest : list (Z * response)) :
  value (fileSelect (page s)) <> "" ->
  truthy (cacheGet (clock (net s)) (Some (polygons_map (responseCache s)))
            (value (fileSelect (page s)))).1 = false ->
  inbox (net s) = (t, Answer h) :: rest -> ok h = false ->
  let s' := final (loadSelectedFile s) in
  layers s' = mkLayers None None None
  /\ file s' = mkFileContext (Some (value (fileSelect (page s)))) "server"
  /\ isPolygonEditing (editing s') = false /\ isPointsEditing (editing s') = false
  /\ originals s' = originals s
  /\ options (schoolSelect (page s')) = options (schoolSelect (page s))
  /\ value (schoolSelect (page s')) = ""
  /\ statusEl (page s') = "加载失败: 请求失败:" ++ pretty (status h).
Proof.
  intros Hsel Hmiss Hin Hok. cbv zeta.
  apply String.eqb_neq in Hsel.
  unfold loadSelectedFile. rewrite read_bind, Hsel, !modify_bind.
  rewrite (bind_Return _ _ _ _ _ (disableAllEditing_returns _)).
  rewrite !modify_bind, setStatus_bind, clearAllLayers_bind.
  match goal with |- context [final (disableAllEditing ?x)] => set (s0 := x) end.
  pose proof (ending_sessions s0) as (Hp & Hq).
  pose proof (keeps_at net disableAllEditing
                ltac:(apply disableAllEditing_keeps; intros; reflexivity) s0) as Kn.
  pose proof (keeps_at responseCache disableAllEditing
                ltac:(apply disableAllEditing_keeps; intros; reflexivity) s0) as Kc.
  pose proof (keeps_at originals disableAllEditing
                ltac:(apply disableAllEditing_keeps; intros; reflexivity) s0) as Ko.
  pose proof (keeps_at file disableAllEditing
                ltac:(apply disableAllEditing_keeps; intros; reflexivity) s0) as Kf.
  pose proof (keeps_at (fun x => schoolSelect (page x)) disableAllEditing
                ltac:(apply disableAllEditing_keeps; intros; reflexivity) s0) as Ks.
  set (s1 := final (disableAllEditing s0)) in *. clearbody s1.
  match goal with |- context [try_catch _ _ ?x] => set (s2 := x) end.
  destruct (cacheGet_ref_Return polygons (value (fileSelect (page s))) s2)
    as (s3 & E & Hl3 & He3 & Ho3 & Hf3 & Hp3 & Hn3).
  assert (F : fetchJsonWithCache
                ("/api/polygons/" ++ encodeURIComponent (value (fileSelect (page s))))
                polygons (value (fileSelect (page s))) false s2
              = Raise ("请求失败:" ++ pretty (status h))
                  (upd_net (fun n => mkNetwork t rest
                              (sent n ++ [Request GET
                                 ("/api/polygons/"
                                  ++ encodeURIComponent (value (fileSelect (page s))))
                                 None])%list) s3)).
  { rewrite fetchJsonWithCache_unforced, E.
    replace (clock (net s2)) with (clock (net s)) by (subst s2 s0; simpl; now rewrite Kn).
    replace (cache_of polygons (responseCache s2)) with (polygons_map (responseCache s))
      by (subst s2 s0; simpl; now rewrite Kc).
    rewrite Hmiss. apply forced_fetch_not_ok; [ | exact Hok].
    rewrite Hn3. subst s2 s0. simpl. now rewrite Kn. }
  rewrite (try_Raise _ _ _ _ _ (bind_Raise _ _ _ _ _ F)).
  cbn [setStatus modify final layers upd_page upd_net editing originals file page
       schoolSelect statusEl set_statusEl].
  rewrite Hl3, He3, Ho3, Hf3, Hp3. subst s2. cbn.
  rewrite Hp, Hq, Ko, Kf, Ks. subst s0. cbn.
  repeat split. now destruct (bool_decide _).
Qed.

Lemma failed_file_load_witness :
  let s := upd_net (fun n => mkNetwork 20 [(21, status_only 500)] (sent n))
             (upd_page (upd_fileSelect (set_value "A.geojson"))
                (run open_page (initial blank_page))) in
  layers (final (loadSelectedFile s)) = mkLayers None None None
  /\ statusEl (page (final (loadSelectedFile s))) = "加载失败: 请求失败:500".
Proof.
  cbv zeta.
  match goal with |- layers (final (loadSelectedFile ?x)) = _ /\ _ => set (s := x) end.
  assert (H1 : value (fileSelect (page s)) <> "") by (vm_compute; discriminate).
  assert (H2 : truthy (cacheGet (clock (net s)) (Some (polygons_map (responseCache s)))
                         (value (fileSelect (page s)))).1 = false)
    by (vm_compute; reflexivity).
  assert (H3 : inbox (net s)
               = (21, Answer (Http 500 "" (Throw "Unexpected end of JSON input"))) :: [])
    by (vm_compute; reflexivity).
  assert (H4 : ok (Http 500 "" (Throw "Unexpected end of JSON input")) = false)
    by reflexivity.
  destruct (failed_file_load s 21 _ [] H1 H2 H3 H4) as (G1 & _ & _ & _ & _ & _ & _ & G2).
  split; [exact G1 | ]. rewrite G2. vm_compute. reflexivity.
Defined.

(** ** Loading the points of a file *)

(** X17. When the points of a file come from the server, the whole collection
    becomes the original snapshot of the points layer and is cached under
    the file name, and what is drawn is the collection filtered by the
    selected school; the polygon and items layers and the polygon snapshot
    are left alone. The snapshot is replaced before anything is drawn: when
    the collection cannot be drawn the layer is left cleared and the
    failure is reported, with the new snapshot already in place. *)
Theorem points_load (fileName : string) (s : State) (t : Z) (h : http)
    (rest : list (Z * response)) (g shown : json) :
  truthy (cacheGet (clock (net s)) (Some (points_map (responseCache s))) fileName).1
  = false ->
  inbox (net s) = (t, Answer h) :: rest -> ok h = true -> parsed h = Ok g ->
  filterGeoJSONBySchool g (value (schoolSelect (page s))) = Ok shown ->
  let s' := final (loadPointsForFile fileName s) in
  originalPointsGeoJSON (originals s') = cloneGeoJSON g
  /\ points_map (responseCache s') !! fileName = Some (Entry t g)
  /\ currentPolygonLayer (layers s') = currentPolygonLayer (layers s)
  /\ currentItemsLayer (layers s') = currentItemsLayer (layers s)
  /\ originalPolygonGeoJSON (originals s') = originalPolygonGeoJSON (originals s)
  /\ (forall overlays, createOverlaysFromGeoJSON shown = Ok overlays ->
        currentPointsLayer (layers s') = Some overlays)
  /\ (forall m, createOverlaysFromGeoJSON shown = Throw m ->
        currentPointsLayer (layers s') = None
        /\ statusEl (page s') = "点集加载失败: " ++ m).
Proof.
  intros Hmiss Hin Hok Hp Hshown. cbv zeta.
  destruct (cacheGet_ref_Return points fileName s)
    as (s1 & E & Hl1 & He1 & Ho1 & Hf1 & Hp1 & Hn1).
  assert (Hin1 : inbox (net s1) = (t, Answer h) :: rest) by now rewrite Hn1.
  destruct (fetchJsonWithCache_force_success
              ("/api/points/" ++ encodeURIComponent fileName) points fileName s1 t h rest g
              Hin1 Hok Hp) as (s2 & E2 & Hc2 & _).
  assert (F : fetchJsonWithCache ("/api/points/" ++ encodeURIComponent fileName)
                points fileName false s = Return g s2).
  { rewrite fetchJsonWithCache_unforced, E. cbn [cache_of]. now rewrite Hmiss. }
  pose proof (fetchJsonWithCache_keeps layers
                ("/api/points/" ++ encodeURIComponent fileName) points fileName true
                ltac:(reflexivity) ltac:(reflexivity) s1) as Kl.
  pose proof (fetchJsonWithCache_keeps originals
                ("/api/points/" ++ encodeURIComponent fileName) points fileName true
                ltac:(reflexivity) ltac:(reflexivity) s1) as Ko.
  pose proof (fetchJsonWithCache_keeps page
                ("/api/points/" ++ encodeURIComponent fileName) points fileName true
                ltac:(reflexivity) ltac:(reflexivity) s1) as Kp.
  rewrite E2 in Kl, Ko, Kp. cbn [final] in Kl, Ko, Kp.
  cbv beta iota zeta delta [loadPointsForFile try_catch mbind M_bind mret M_ret
                             getSelectedSchool modify read].
  rewrite F. cbv beta iota.
  cbn [page upd_originals]. rewrite Kp, Hp1, Hshown. cbn [lift].
  cbv beta iota zeta delta [mret M_ret].
  unfold renderPointsGeoJSON, clearPointsLayer, schoolTag, getSelectedSchool, setStatus.
  rewrite modify_bind.
  destruct (createOverlaysFromGeoJSON shown) as [os | m] eqn:Eo;
    cbv beta iota zeta delta [lift mbind M_bind mret M_ret modify read when negb throw];
    cbn [final originals layers responseCache upd_page upd_layers upd_originals
         set_originalPoints originalPointsGeoJSON originalPolygonGeoJSON
         set_pointsLayer currentPolygonLayer currentItemsLayer currentPointsLayer
         page statusEl set_statusEl];
    rewrite Kl, Ko, Hl1, Ho1;
    (split; [reflexivity | ]);
    (split; [change (cache_of points (responseCache s2) !! fileName = Some (Entry t g));
             rewrite Hc2; apply lookup_insert_eq | ]);
    repeat (split; [reflexivity | ]);
    split; intros x Hx; inversion Hx; subst; try split; reflexivity.
Qed.

Lemma points_load_witness :
  let s := upd_net (fun n => mkNetwork 20 [(21, answer (FeatureCollection [entrance 0]))]
                               (sent n))
             (initial blank_page) in
  originalPointsGeoJSON (originals (final (loadPointsForFile "A.geojson" s)))
  = FeatureCollection [entrance 0].
Proof.
  cbv zeta.
  match goal with |- context [loadPointsForFile _ ?x] => set (s := x) end.
  assert (H1 : truthy (cacheGet (clock (net s)) (Some (points_map (responseCache s)))
                         "A.geojson").1 = false) by reflexivity.
  assert (H2 : inbox (net s)
               = (21, Answer (Http 200 "" (Ok (FeatureCollection [entrance 0])))) :: [])
    by reflexivity.
  assert (H3 : filterGeoJSONBySchool (FeatureCollection [entrance 0])
                 (value (schoolSelect (page s))) = Ok (FeatureCollection [entrance 0]))
    by reflexivity.
  destruct (points_load "A.geojson" s 21 _ [] _ _ H1 H2 eq_refl eq_refl H3) as (G & _).
  exact G.
Defined.

(** ** Looking at a saved version *)

Lemma applyHistoryData_view_keeps {X : Type} (π : State -> X) (d : json) :
  (forall f s, π (upd_layers f s) = π s) ->
  (forall f s, π (upd_file f s) = π s) ->
  (forall f s, π (upd_page f s) = π s) ->
  keeps π (applyHistoryData d false).
Proof.
  intros Hl Hf Hp. unfold applyHistoryData. unfold_render. cbn [negb when].
  destruct d; [apply keeps_throw | ..];
    repeat first
      [ apply keeps_modify; intros; first [apply Hl | apply Hf | apply Hp]
      | frame_step ].
Qed.

Lemma loadHistoryById_keeps {X : Type} (π : State -> X) (saveId : string) :
  (forall f s, π (upd_layers f s) = π s) ->
  (forall f s, π (upd_file f s) = π s) ->
  (forall f s, π (upd_page f s) = π s) ->
  (forall f s, π (upd_editing f s) = π s) ->
  (forall f s, π (upd_net f s) = π s) ->
  (forall m s, π (upd_cache (set_cache historyItem m) s) = π s) ->
  keeps π (loadHistoryById saveId).
Proof.
  intros Hl Hf Hp He Hn Hc. unfold loadHistoryById.
  destruct (String.eqb saveId ""); [apply keeps_ret | ].
  pose proof (applyHistoryData_view_keeps π) as Ka.
  assert (Kd : keeps π disableAllEditing).
  { apply disableAllEditing_keeps; intros; first [apply He | apply Hl | apply Hp]. }
  assert (Kc : keeps π clearAllLayers).
  { unfold_render.
    repeat first [ apply keeps_modify; intros; apply Hl | frame_step ]. }
  assert (Kf : forall u k, keeps π (fetchJsonWithCache u historyItem k false)).
  { intros u k s. rewrite fetchJsonWithCache_unforced. unfold cacheGet_ref.
    destruct (cacheGet _ _ _) as [v [m | ]]; cbn [fst snd];
      (destruct (truthy v); [cbn; now rewrite ?Hc | ]);
      unfold fetchJsonWithCache; cbn [negb];
      cbv beta iota zeta delta [mbind M_bind mret M_ret fetch cacheSet_ref cacheSet];
      destruct (inbox _) as [ | [t [e | h]] rest]; cbn; rewrite ?Hn, ?Hc; try reflexivity;
      destruct (ok h); cbn; rewrite ?Hn, ?Hc; try reflexivity;
      destruct (parsed h); cbn; rewrite ?Hc, ?Hn, ?Hc; reflexivity. }
  repeat first
    [ apply keeps_modify; intros; apply Hp
    | apply setStatus_keeps; intros; apply Hp
    | exact Kd | exact Kc | apply Kf | apply Ka; assumption
    | frame_step ].
Qed.

(** X18. Looking at a saved version never raises and never touches the
    original snapshots or the cached polygons, points and items, whatever
    the server answers; with no version given it does nothing at all, and
    otherwise it closes the edit sessions and their editors. Afterwards the
    file context is either marked as history or exactly as it was. *)
Theorem viewing_a_version_keeps_the_originals (saveId : string) (s : State) :
  let s' := final (loadHistoryById saveId s) in
  raised (loadHistoryById saveId s) = false
  /\ originals s' = originals s
  /\ polygons_map (responseCache s') = polygons_map (responseCache s)
  /\ points_map (responseCache s') = points_map (responseCache s)
  /\ items_map (responseCache s') = items_map (responseCache s)
  /\ (saveId = "" -> s' = s)
  /\ (saveId <> "" -> editing s' = mkEditing [] false false)
  /\ (currentFileSource (file s') = "history" \/ file s' = file s).
Proof.
  cbv zeta.
  split; [apply (listeners_quiet_history saveId) | ].
  split; [apply (loadHistoryById_keeps originals); intros; reflexivity | ].
  split; [apply (loadHistoryById_keeps (fun x => polygons_map (responseCache x)));
          intros; reflexivity | ].
  split; [apply (loadHistoryById_keeps (fun x => points_map (responseCache x)));
          intros; reflexivity | ].
  split; [apply (loadHistoryById_keeps (fun x => items_map (responseCache x)));
          intros; reflexivity | ].
  split; [intros ->; reflexivity | ].
  split.
  - intros H. apply String.eqb_neq in H. unfold loadHistoryById. rewrite H.
    rewrite setStatus_bind.
    rewrite (bind_Return _ _ _ _ _ (disableAllEditing_returns _)).
    rewrite clearAllLayers_bind.
    rewrite (final_try_keeps editing) by (intros; frame).
    rewrite (final_bind_keeps editing)
      by (intros; apply applyHistoryData_view_keeps; intros; reflexivity).
    rewrite (keeps_at editing (fetchJsonWithCache _ _ _ _)) by frame.
    cbn [editing upd_layers]. apply ending_sessions_editing.
  - unfold loadHistoryById. destruct (String.eqb saveId ""); [now right | ].
    rewrite setStatus_bind.
    rewrite (bind_Return _ _ _ _ _ (disableAllEditing_returns _)).
    rewrite clearAllLayers_bind.
    match goal with |- context [try_catch _ _ ?x] => set (s1 := x) end.
    assert (F1 : file s1 = file s).
    { subst s1. cbn [file upd_layers].
      now rewrite (keeps_at file disableAllEditing)
        by (apply disableAllEditing_keeps; intros; reflexivity). }
    clearbody s1. rewrite <- F1.
    rewrite (final_try_keeps file) by (intros; frame).
    pose proof (keeps_at file (fetchJsonWithCache
                  ("/api/history/" ++ encodeURIComponent saveId) historyItem saveId false)
                  ltac:(frame) s1) as K.
    unfold mbind, M_bind.
    destruct (fetchJsonWithCache _ _ _ _ s1) as [d s2 | e s2]; cbn [final] in *;
      [ | now right].
    rewrite <- K.
    destruct d; [now right | ..]; left;
      unfold applyHistoryData;
      rewrite !modify_bind;
      (rewrite (final_bind_keeps (fun x => currentFileSource (file x)))
        by (intros; unfold_render; frame)); reflexivity.
Qed.

Lemma loadHistoryList_forced_requests (s : State) :
  name_set (currentFileName (file s)) = true -> currentFileSource (file s) = "server" ->
  sent (net (final (loadHistoryList true s)))
  = (sent (net s) ++ [history_list_request s])%list.
Proof.
  intros Hname Hsrc.
  unfold loadHistoryList, getFileName, getSelectedSchool. run_reads.
  rewrite Hname, Hsrc. cbn [negb orb String.eqb Ascii.eqb Bool.eqb].
  rewrite (final_try_keeps (fun s => sent (net s))) by (intros; frame). run_reads.
  rewrite (final_bind_keeps (fun s => sent (net s))) by (intros; frame).
  now rewrite fetchJsonWithCache_force_logs.
Qed.

Lemma loadHistoryList_forced_without_server_file (s : State) :
  name_set (currentFileName (file s)) = false \/ currentFileSource (file s) <> "server" ->
  sent (net (final (loadHistoryList true s))) = sent (net s)
  /\ historyList_map (responseCache (final (loadHistoryList true s)))
     = historyList_map (responseCache s).
Proof.
  intros H.
  unfold loadHistoryList, getFileName, getSelectedSchool. run_reads.
  assert (G : negb (name_set (currentFileName (file s)))
              || negb (String.eqb (currentFileSource (file s)) "server") = true).
  { destruct H as [-> | H]; [reflexivity | ].
    apply String.eqb_neq in H. rewrite H. apply orb_true_r. }
  rewrite G.
  split; [apply (setHistoryOptions_keeps (fun x => sent (net x)))
         | apply (setHistoryOptions_keeps (fun x => historyList_map (responseCache x)))];
    intros; reflexivity.
Qed.

(** ** Saving everything to the database *)

Lemma forced_fetch_other_keys (url : string) (ref : cache_ref) (key other : string)
    (s : State) :
  other <> key ->
  cache_of ref (responseCache (final (fetchJsonWithCache url ref key true s))) !! other
  = cache_of ref (responseCache s) !! other.
Proof.
  intros Hne. unfold fetchJsonWithCache. cbn [negb].
  cbv beta iota zeta delta [mbind M_bind mret M_ret fetch cacheSet_ref cacheSet].
  destruct (inbox (net s)) as [ | [t [e | h]] rest]; try reflexivity.
  destruct (negb (ok h)); [reflexivity | ].
  destruct (parsed h); [ | reflexivity].
  cbn [lift mret M_ret final responseCache upd_cache upd_net].
  rewrite cache_of_set_cache. now apply lookup_insert_ne.
Qed.

Lemma saveCurrentToDatabase_accepted (s : State) (t : Z) (h : http)
    (rest : list (Z * response)) (r : json) :
  inbox (net s) = (t, Answer h) :: rest -> ok h = true -> parsed h = Ok r ->
  saveCurrentToDatabase s
  = when (name_set (currentFileName (file s))
          && negb (String.eqb (currentFileSource (file s)) "history"))
      (modify (upd_cache (set_cache historyList ∅));; loadHistoryList true)
      (upd_page (set_statusEl (save_all_status r))
         (upd_net (fun n => mkNetwork t rest (sent n ++ [save_all_request])%list)
            (upd_page (set_statusEl "正在保存全部数据到数据库...") s))).
Proof.
  intros Hin Hok Hp. unfold saveCurrentToDatabase, save_all_status.
  rewrite setStatus_bind.
  erewrite bind_Return by (apply fetch_Answer; exact Hin).
  rewrite Hok, Hp. cbn [negb lift].
  cbv beta iota zeta delta [mbind M_bind mret M_ret getFileName read].
  destruct (truthy _); reflexivity.
Qed.



(** ** A save that the server accepts *)

Lemma saveGeoJSON_accepted (kind : string) (geojson : json) (s : State) (t : Z)
    (h : http) (rest : list (Z * response)) (name : string) :
  currentFileName (file s) = Some name -> name <> "" ->
  currentFileSource (file s) = "server" ->
  inbox (net s) = (t, Answer h) :: rest -> ok h = true ->
  let ref := if String.eqb kind "points" then points
             else if String.eqb kind "items" then items else polygons in
  let endpoint :=
    (if String.eqb kind "points" then "/api/points/"
     else if String.eqb kind "items" then "/api/items/" else "/api/polygons/")
    ++ encodeURIComponent name in
  saveGeoJSON kind geojson s
  = Return tt
      (upd_page (set_statusEl "保存成功")
         (upd_cache
            (set_cache ref (<[name := Entry t geojson]> (cache_of ref (responseCache s))))
            (upd_net (fun n => mkNetwork t rest
                                 (sent n ++ [Request POST endpoint (Some geojson)])%list)
               (upd_page (set_statusEl "保存中...") s)))).
Proof.
  intros Hname Hne Hsrc Hin Hok. cbv zeta.
  apply String.eqb_neq in Hne.
  unfold saveGeoJSON, getFileName. rewrite !read_bind, Hname, Hsrc.
  cbn [name_set name_text]. rewrite Hne. cbn [negb orb String.eqb Ascii.eqb Bool.eqb].
  rewrite setStatus_bind.
  assert (F : forall endpoint,
             fetch (Request POST endpoint (Some geojson))
               (upd_page (set_statusEl "保存中...") s)
             = Return h
                 (upd_net (fun n => mkNetwork t rest
                                      (sent n ++ [Request POST endpoint (Some geojson)])%list)
                    (upd_page (set_statusEl "保存中...") s)))
    by (intros; apply fetch_Answer; exact Hin).
  destruct (String.eqb kind "points"); [ | destruct (String.eqb kind "items")];
    rewrite (bind_Return _ _ _ _ _ (F _)), Hok; cbn [negb];
    rewrite read_bind; cbn [file upd_net upd_page]; rewrite Hname; reflexivity.
Qed.

(** X20. With no school filter, a layer that is not empty and a server file
    open, a save that the server accepts posts what the layer reads back as
    (for the polygon layer its polygons only, for the points layer its
    markers only) to the endpoint of the file, stores that collection in
    the cache under the file name with the time of the answer, makes it the
    original snapshot of the layer and reports success; the overlays
    themselves are left as they are. The body of the answer is not read. *)
Theorem accepted_save (s : State) (t : Z) (h : http) (rest : list (Z * response))
    (name : string) :
  value (schoolSelect (page s)) = "" ->
  currentFileName (file s) = Some name -> name <> "" ->
  currentFileSource (file s) = "server" ->
  inbox (net s) = (t, Answer h) :: rest -> ok h = true ->
  (nonempty (currentPolygonLayer (layers s)) = true ->
     let saved := overlaysToGeoJSON (currentPolygonLayer (layers s)) "Polygon" in
     let s' := final (savePolygonClick s) in
     sent (net s')
     = (sent (net s)
        ++ [Request POST ("/api/polygons/" ++ encodeURIComponent name) (Some saved)])%list
     /\ polygons_map (responseCache s')
        = <[name := Entry t saved]> (polygons_map (responseCache s))
     /\ originalPolygonGeoJSON (originals s') = saved
     /\ layers s' = layers s
     /\ statusEl (page s') = "保存成功")
  /\ (nonempty (currentPointsLayer (layers s)) = true ->
        let saved := overlaysToGeoJSON (currentPointsLayer (layers s)) "Point" in
        let s' := final (savePointsClick s) in
        sent (net s')
        = (sent (net s)
           ++ [Request POST ("/api/points/" ++ encodeURIComponent name) (Some saved)])%list
        /\ points_map (responseCache s')
           = <[name := Entry t saved]> (points_map (responseCache s))
        /\ originalPointsGeoJSON (originals s') = saved
        /\ layers s' = layers s
        /\ statusEl (page s') = "保存成功").
Proof.
  intros Hf Hname Hne Hsrc Hin Hok.
  assert (Hclone : forall layer t', cloneGeoJSON (overlaysToGeoJSON layer t')
                                    = overlaysToGeoJSON layer t')
    by (intros [l | ] t'; reflexivity).
  split; intros Hl; cbv zeta.
  - cbv beta iota zeta delta
      [savePolygonClick try_catch isSchoolFilterActive getSelectedSchool read mbind M_bind
       mret M_ret].
    rewrite Hf. cbn [String.eqb negb]. rewrite Hl. cbn [negb].
    rewrite (saveGeoJSON_accepted "polygons" _ s t h rest name Hname Hne Hsrc Hin Hok).
    cbn [String.eqb Ascii.eqb Bool.eqb modify final]. rewrite Hclone.
    repeat split.
  - cbv beta iota zeta delta
      [savePointsClick try_catch isSchoolFilterActive getSelectedSchool read mbind M_bind
       mret M_ret].
    rewrite Hf. cbn [String.eqb negb]. rewrite Hl. cbn [negb].
    rewrite (saveGeoJSON_accepted "points" _ s t h rest name Hname Hne Hsrc Hin Hok).
    cbn [String.eqb Ascii.eqb Bool.eqb modify final]. rewrite Hclone.
    repeat split.
Qed.

Lemma accepted_save_witness :
  let s := upd_net (fun n => mkNetwork 80 [(81, answer (JObj [("ok", JBool true)]))]
                               (sent n))
             (run open_two_schools (initial blank_page)) in
  originalPolygonGeoJSON (originals (final (savePolygonClick s))) = two_schools
  /\ statusEl (page (final (savePolygonClick s))) = "保存成功".
Proof.
  cbv zeta.
  match goal with |- context [savePolygonClick ?x] => set (s := x) end.
  assert (H1 : value (schoolSelect (page s)) = "") by (vm_compute; reflexivity).
  assert (H2 : currentFileName (file s) = Some "A.geojson") by (vm_compute; reflexivity).
  assert (H3 : "A.geojson" <> "") by discriminate.
  assert (H4 : currentFileSource (file s) = "server") by (vm_compute; reflexivity).
  assert (H5 : inbox (net s)
               = (81, Answer (Http 200 "" (Ok (JObj [("ok", JBool true)])))) :: [])
    by (vm_compute; reflexivity).
  assert (H6 : ok (Http 200 "" (Ok (JObj [("ok", JBool true)]))) = true) by reflexivity.
  assert (H7 : nonempty (currentPolygonLayer (layers s)) = true)
    by (vm_compute; reflexivity).
  destruct (accepted_save s 81 _ [] "A.geojson" H1 H2 H3 H4 H5 H6) as (G & _).
  destruct (G H7) as (_ & _ & G3 & _ & G5).
  split; [ | exact G5]. rewrite G3. vm_compute. reflexivity.
Defined.

(** ** Changing the school filter *)

Lemma setHistoryOptions_value (items : json) (s : State) :
  value (historySelect (page (final (setHistoryOptions items s)))) = "".
Proof.
  unfold setHistoryOptions. rewrite modify_bind.
  destruct (_ || _); [reflexivity | ].
  destruct items as [ | | | | l | ]; try reflexivity.
  now rewrite appendHistoryOptions_value.
Qed.

Lemma loadHistoryList_value (force : bool) :
  preserves (fun x => value (historySelect (page x)) = "") (loadHistoryList force).
Proof.
  assert (H : forall items,
             preserves (fun x => value (historySelect (page x)) = "")
               (setHistoryOptions items))
    by (intros items s _; apply setHistoryOptions_value).
  unfold loadHistoryList. unfold_leaves.
  repeat first [ apply H | invariant_step ].
Qed.

Ltac unfold_filter :=
  unfold applySchoolFilter, loadPointsForFile, loadItemsForFile;
  unfold_render; unfold_leaves; cbn [negb when].

Lemma applySchoolFilter_frame :
  keeps (fun x => originalPolygonGeoJSON (originals x)) applySchoolFilter
  /\ keeps editing applySchoolFilter
  /\ keeps file applySchoolFilter
  /\ keeps (fun x => historySelect (page x)) applySchoolFilter.
Proof. repeat apply conj; unfold_filter; frame. Qed.

Lemma set_value_empty (sel : select) : value (set_value "" sel) = "".
Proof. unfold set_value. cbn [value]. now destruct (bool_decide _). Qed.

Lemma loadItemsForFile_keeps_points (fileName : string) :
  keeps (fun x => originalPointsGeoJSON (originals x)) (loadItemsForFile fileName).
Proof. unfold_filter. frame. Qed.

Lemma loadPointsForFile_keeps_items (fileName : string) :
  keeps (fun x => originalItemsGeoJSON (originals x)) (loadPointsForFile fileName).
Proof. unfold_filter. frame. Qed.

Lemma preserves_read_bind (P : State -> Prop) {A B : Type} (f : State -> A)
    (k : A -> M B) :
  (forall s, P s -> P (final (k (f s) s))) -> preserves P (read f ≫= k).
Proof. intros H s HP. rewrite read_bind. now apply H. Qed.

Lemma preserves_at (P : State -> Prop) {A : Type} (m : M A) (s : State) :
  preserves P m -> P s -> P (final (m s)).
Proof. intros H. apply H. Qed.

Lemma applySchoolFilter_keeps_points (s : State) :
  truthy (originalPointsGeoJSON (originals s)) = true ->
  originalPointsGeoJSON (originals (final (applySchoolFilter s)))
  = originalPointsGeoJSON (originals s).
Proof.
  intros Ht.
  apply (preserves_at (fun x => originalPointsGeoJSON (originals x)
                                = originalPointsGeoJSON (originals s)));
    [ | reflexivity].
  pose proof loadItemsForFile_keeps_points as Ki.
  unfold applySchoolFilter. unfold_render. unfold_leaves. cbn [negb when].
  repeat first
    [ match goal with
      | |- preserves _ (read (fun s => originalPointsGeoJSON (originals s)) ≫= _) =>
          apply preserves_read_bind; intros x Hx; rewrite Hx, Ht;
          apply preserves_at; [ | exact Hx]
      | |- preserves _ (loadItemsForFile _) => apply keeps_preserves; apply Ki
      end
    | invariant_step ].
Qed.

Lemma applySchoolFilter_keeps_items (s : State) :
  truthy (originalItemsGeoJSON (originals s)) = true ->
  originalItemsGeoJSON (originals (final (applySchoolFilter s)))
  = originalItemsGeoJSON (originals s).
Proof.
  intros Ht.
  apply (preserves_at (fun x => originalItemsGeoJSON (originals x)
                                = originalItemsGeoJSON (originals s)));
    [ | reflexivity].
  pose proof loadPointsForFile_keeps_items as Kp.
  unfold applySchoolFilter. unfold_render. unfold_leaves. cbn [negb when].
  repeat first
    [ match goal with
      | |- preserves _ (read (fun s => originalItemsGeoJSON (originals s)) ≫= _) =>
          apply preserves_read_bind; intros x Hx; rewrite Hx, Ht;
          apply preserves_at; [ | exact Hx]
      | |- preserves _ (loadPointsForFile _) => apply keeps_preserves; apply Kp
      end
    | invariant_step ].
Qed.

Lemma applySchoolFilter_polygons (s : State) (shown : json) (overlays : list overlay) :
  value (historySelect (page s)) = "" ->
  truthy (originalPolygonGeoJSON (originals s)) = true ->
  filterGeoJSONBySchool (originalPolygonGeoJSON (originals s))
    (value (schoolSelect (page s))) = Ok shown ->
  createOverlaysFromGeoJSON shown = Ok overlays ->
  currentPolygonLayer (layers (final (applySchoolFilter s))) = Some overlays.
Proof.
  intros Hh Ht Hs Ho.
  unfold applySchoolFilter, getSelectedSchool, getFileName. run_reads.
  rewrite Hh. cbn [String.eqb negb]. run_reads.
  destruct (loadLayer_keeps_polygons (name_text (currentFileName (file s)))) as [Kp Ki].
  rewrite (final_bind_keeps (fun x => currentPolygonLayer (layers x)))
    by (intros; unfold_render; frame).
  rewrite Ht. cbn [when]. rewrite Hs. cbn [lift].
  change ((mret shown ≫= fun shown =>
             renderGeoJSON shown (name_or (currentFileName (file s)) "文件") true) s)
    with (renderGeoJSON shown (name_or (currentFileName (file s)) "文件") true s).
  destruct (renderGeoJSON_returns shown (name_or (currentFileName (file s)) "文件") true
              overlays s Ho) as (s' & R & L & _).
  now rewrite R.
Qed.

(** X21. A change of the school selector is a change of view: it never
    replaces the original snapshot of the polygons, nor a snapshot of the
    points or items that is in memory, and it leaves the file context alone;
    it closes the edit sessions and their editors and leaves no history
    version selected. When the polygon snapshot is in memory, the polygon
    layer is drawn afresh from it, filtered by the selected school, so that
    edits that were not saved are gone from the map. *)
Theorem school_filter_is_a_view (s : State) :
  let s' := final (schoolSelectChange s) in
  originalPolygonGeoJSON (originals s') = originalPolygonGeoJSON (originals s)
  /\ (truthy (originalPointsGeoJSON (originals s)) = true ->
        originalPointsGeoJSON (originals s') = originalPointsGeoJSON (originals s))
  /\ (truthy (originalItemsGeoJSON (originals s)) = true ->
        originalItemsGeoJSON (originals s') = originalItemsGeoJSON (originals s))
  /\ file s' = file s
  /\ editing s' = mkEditing [] false false
  /\ value (historySelect (page s')) = ""
  /\ (forall shown overlays,
        truthy (originalPolygonGeoJSON (originals s)) = true ->
        filterGeoJSONBySchool (originalPolygonGeoJSON (originals s))
          (value (schoolSelect (page s))) = Ok shown ->
        createOverlaysFromGeoJSON shown = Ok overlays ->
        currentPolygonLayer (layers s') = Some overlays).
Proof.
  cbv zeta.
  destruct applySchoolFilter_frame as (Ko & Ke & Kf & Kh).
  unfold schoolSelectChange.
  rewrite (bind_Return _ _ _ _ _ (disableAllEditing_returns s)), modify_bind.
  pose proof (ending_sessions_editing s) as He.
  pose proof (keeps_at originals disableAllEditing
                ltac:(apply disableAllEditing_keeps; intros; reflexivity) s) as Ho0.
  pose proof (keeps_at file disableAllEditing
                ltac:(apply disableAllEditing_keeps; intros; reflexivity) s) as Kf0.
  pose proof (keeps_at (fun x => schoolSelect (page x)) disableAllEditing
                ltac:(apply disableAllEditing_keeps; intros; reflexivity) s) as Ks0.
  pose proof (keeps_at (fun x => showPointsCheckbox (page x)) disableAllEditing
                ltac:(apply disableAllEditing_keeps; intros; reflexivity) s) as Kp0.
  pose proof (keeps_at (fun x => showItemsCheckbox (page x)) disableAllEditing
                ltac:(apply disableAllEditing_keeps; intros; reflexivity) s) as Ki0.
  cbv beta in Ks0, Kp0, Ki0.
  set (s0 := final (disableAllEditing s)) in *. clearbody s0.
  set (s1 := upd_page (upd_historySelect (set_value "")) s0).
  assert (Hh1 : value (historySelect (page s1)) = "") by apply set_value_empty.
  assert (Ho1 : originals s1 = originals s) by exact Ho0.
  assert (Hf1 : file s1 = file s) by exact Kf0.
  assert (He1 : editing s1 = mkEditing [] false false) by exact He.
  assert (Hs1 : schoolSelect (page s1) = schoolSelect (page s)) by exact Ks0.
  assert (Hp1 : showPointsCheckbox (page s1) = showPointsCheckbox (page s)) by exact Kp0.
  assert (Hi1 : showItemsCheckbox (page s1) = showItemsCheckbox (page s)) by exact Ki0.
  clearbody s1. clear s0 He Ho0 Kf0 Ks0 Kp0 Ki0.
  split; [ | split; [ | split; [ | split; [ | split; [ | split]]]]].
  - rewrite (final_bind_keeps (fun x => originalPolygonGeoJSON (originals x)))
      by (intros; frame).
    rewrite (Ko s1). now rewrite Ho1.
  - intros Ht.
    rewrite (final_bind_keeps (fun x => originalPointsGeoJSON (originals x)))
      by (intros; frame).
    rewrite <- Ho1. rewrite <- Ho1 in Ht.
    apply applySchoolFilter_keeps_points; assumption.
  - intros Ht.
    rewrite (final_bind_keeps (fun x => originalItemsGeoJSON (originals x)))
      by (intros; frame).
    rewrite <- Ho1. rewrite <- Ho1 in Ht.
    apply applySchoolFilter_keeps_items; assumption.
  - rewrite (final_bind_keeps file) by (intros; frame).
    rewrite (Kf s1). exact Hf1.
  - rewrite (final_bind_keeps editing) by (intros; frame).
    rewrite (Ke s1). exact He1.
  - assert (P : value (historySelect (page (final (applySchoolFilter s1)))) = "")
      by (rewrite (Kh s1); exact Hh1).
    unfold mbind, M_bind.
    destruct (applySchoolFilter s1) as [[] s2 | e s2]; cbn [final] in *; [ | exact P].
    now apply loadHistoryList_value.
  - intros shown overlays Ht Hs Ho.
    rewrite (final_bind_keeps (fun x => currentPolygonLayer (layers x)))
      by (intros; frame).
    rewrite <- Ho1, <- Hs1 in *.
    apply (applySchoolFilter_polygons s1 shown overlays); assumption.
Qed.

(** ** Opening a local file *)

Lemma drawable_has_school_options (geojson : json) (overlays : list overlay) (s : State) :
  createOverlaysFromGeoJSON geojson = Ok overlays ->
  exists sel,
    setSchoolOptions geojson s = Return tt (upd_page (upd_schoolSelect (fun _ => sel)) s)
    /\ value sel = "".
Proof.
  unfold createOverlaysFromGeoJSON, setSchoolOptions. rewrite modify_bind.
  destruct (truthy geojson); cbn [negb orb].
  - destruct (is_str (prop geojson "type") "FeatureCollection"); cbn [negb].
    + destruct (prop geojson "features") as [[ | | | | fs | ] | ]; try discriminate.
      intros _. cbn [or_else truthy].
      exists (foldr appendOption placeholder_only (school_names fs)).
      split; [ | apply appendOptions_options].
      unfold modify. now destruct s as [ly ed og fl ch [] nt].
    + intros _. exists placeholder_only. split; reflexivity.
  - intros _. exists placeholder_only. split; reflexivity.
Qed.

(** X22. Opening a local file never raises and never uses the network or the
    cache. A file that does not parse changes nothing but the status line.
    A file that parses becomes the file context, marked as local; the edit
    sessions are closed and the history selector is left with its
    placeholder alone; when the file can be drawn, its overlays are the
    polygon layer, the other two layers are empty, and the file is the
    original snapshot of the polygons, and when it cannot, all layers are
    empty and the snapshot is not replaced. The snapshots of the points and
    items of the file that was open before stay in memory either way. *)
Theorem local_file_is_opened_offline (name : string) (content : result json) (s : State) :
  let s' := final (fileInputLoad name content s) in
  raised (fileInputLoad name content s) = false
  /\ net s' = net s /\ responseCache s' = responseCache s
  /\ originalPointsGeoJSON (originals s') = originalPointsGeoJSON (originals s)
  /\ originalItemsGeoJSON (originals s') = originalItemsGeoJSON (originals s)
  /\ (forall m, content = Throw m -> s' = upd_page (set_statusEl "本地文件解析失败") s)
  /\ (forall geojson, content = Ok geojson ->
        file s' = mkFileContext (Some name) "local"
        /\ editing s' = mkEditing [] false false
        /\ historySelect (page s') = placeholder_only
        /\ (forall overlays, createOverlaysFromGeoJSON geojson = Ok overlays ->
              layers s' = mkLayers (Some overlays) None None
              /\ originalPolygonGeoJSON (originals s') = cloneGeoJSON geojson
              /\ value (schoolSelect (page s')) = "")
        /\ (forall m, createOverlaysFromGeoJSON geojson = Throw m ->
              layers s' = mkLayers None None None
              /\ originals s' = originals s
              /\ statusEl (page s') = "本地文件解析失败")).
Proof.
  cbv zeta.
  split; [unfold fileInputLoad; apply never_raises_try; intros; apply (proj1 quiet_leaves) | ].
  split; [apply (keeps_at net); unfold fileInputLoad; unfold_render; unfold_leaves; frame | ].
  split; [apply (keeps_at responseCache); unfold fileInputLoad; unfold_render;
          unfold_leaves; frame | ].
  split; [apply (keeps_at (fun x => originalPointsGeoJSON (originals x)));
          unfold fileInputLoad; unfold_render; unfold_leaves; frame | ].
  split; [apply (keeps_at (fun x => originalItemsGeoJSON (originals x)));
          unfold fileInputLoad; unfold_render; unfold_leaves; frame | ].
  split; [intros m ->; reflexivity | ].
  intros geojson ->.
  unfold fileInputLoad. cbn [lift].
  pose proof (ending_sessions_editing
                (upd_file (set_fileSource "local")
                   (upd_file (set_fileName (Some name)) s))) as He.
  pose proof (keeps_at file disableAllEditing
                ltac:(apply disableAllEditing_keeps; intros; reflexivity)
                (upd_file (set_fileSource "local")
                   (upd_file (set_fileName (Some name)) s))) as Kf.
  pose proof (keeps_at originals disableAllEditing
                ltac:(apply disableAllEditing_keeps; intros; reflexivity)
                (upd_file (set_fileSource "local")
                   (upd_file (set_fileName (Some name)) s))) as Ko.
  set (s0 := final (disableAllEditing _)) in *.
  assert (E : forall k : unit -> M unit,
             (disableAllEditing ≫= k)
               (upd_file (set_fileSource "local") (upd_file (set_fileName (Some name)) s))
             = k tt s0)
    by (intros k; apply bind_Return, disableAllEditing_returns).
  clearbody s0.
  assert (R : try_catch
                (geojson0 ← mret geojson;
                 modify (upd_file (set_fileName (Some name)));;
                 modify (upd_file (set_fileSource "local"));;
                 disableAllEditing;;
                 modify (upd_page (upd_schoolSelect (set_value "")));;
                 modify (upd_page (upd_historySelect (set_value "")));;
                 setHistoryOptions (JArr []);;
                 clearAllLayers;;
                 setSchoolOptions geojson0;;
                 renderGeoJSON geojson0 name false)
                (fun _ => setStatus "本地文件解析失败") s
              = try_catch
                  (setSchoolOptions geojson;; renderGeoJSON geojson name false)
                  (fun _ => setStatus "本地文件解析失败")
                  (upd_layers (fun _ => mkLayers None None None)
                     (upd_page (upd_historySelect (fun _ => placeholder_only))
                        (upd_page (upd_historySelect (set_value ""))
                           (upd_page (upd_schoolSelect (set_value "")) s0))))).
  { unfold try_catch.
    change ((geojson0 ← mret geojson;
             modify (upd_file (set_fileName (Some name)));;
             modify (upd_file (set_fileSource "local"));;
             disableAllEditing;;
             modify (upd_page (upd_schoolSelect (set_value "")));;
             modify (upd_page (upd_historySelect (set_value "")));;
             setHistoryOptions (JArr []);;
             clearAllLayers;;
             setSchoolOptions geojson0;;
             renderGeoJSON geojson0 name false) s)
      with ((disableAllEditing ≫= fun _ =>
             modify (upd_page (upd_schoolSelect (set_value "")));;
             modify (upd_page (upd_historySelect (set_value "")));;
             setHistoryOptions (JArr []);;
             clearAllLayers;;
             setSchoolOptions geojson;;
             renderGeoJSON geojson name false)
              (upd_file (set_fileSource "local") (upd_file (set_fileName (Some name)) s))).
    rewrite E. reflexivity. }
  rewrite R. clear R E.
  set (s1 := upd_layers _ _).
  assert (F1 : file s1 = mkFileContext (Some name) "local") by (subst s1; cbn; now rewrite Kf).
  assert (E1 : editing s1 = mkEditing [] false false) by exact He.
  assert (H1 : historySelect (page s1) = placeholder_only) by reflexivity.
  assert (L1 : layers s1 = mkLayers None None None) by reflexivity.
  assert (O1 : originals s1 = originals s) by exact Ko.
  clearbody s1.
  split; [ | split; [ | split; [ | split]]].
  - rewrite <- F1. apply (keeps_at file). unfold_render. unfold_leaves. frame.
  - rewrite <- E1. apply (keeps_at editing). unfold_render. unfold_leaves. frame.
  - rewrite <- H1. apply (keeps_at (fun x => historySelect (page x))).
    unfold_render. unfold_leaves. frame.
  - intros overlays Ho.
    destruct (drawable_has_school_options geojson overlays s1 Ho) as (sel & Es & Hv).
    unfold try_catch. rewrite (bind_Return _ _ _ _ _ Es).
    unfold_render. rewrite modify_bind, Ho.
    cbv beta iota zeta delta [lift mbind M_bind mret M_ret modify read when negb].
    cbn. rewrite L1. repeat split. exact Hv.
  - intros m Ho. unfold try_catch, mbind, M_bind.
    pose proof (keeps_at layers (setSchoolOptions geojson)
                  ltac:(unfold_leaves; frame) s1) as Kl.
    pose proof (keeps_at originals (setSchoolOptions geojson)
                  ltac:(unfold_leaves; frame) s1) as Kog.
    destruct (setSchoolOptions geojson s1) as [[] s2 | e s2]; cbn [final] in Kl, Kog.
    + unfold_render. rewrite modify_bind, Ho.
      cbv beta iota zeta delta [lift mbind M_bind mret M_ret modify read when negb throw].
      cbn. rewrite Kl, Kog, L1, O1. repeat split.
    + cbn. rewrite Kl, Kog, L1, O1. repeat split.
Qed.

(** ** The coordinate prompt *)

Lemma alter_lookup_other {A : Type} (f : A -> A) (l : list A) (i j : nat) :
  j <> i -> alter f i l !! j = l !! j.
Proof. intros H. apply list_lookup_alter_ne. congruence. Qed.

(** X23. A click on an overlay never raises and touches neither the edit
    sessions, the snapshots nor the network. Outside a points session, or
    on an overlay that is not a marker, it changes nothing at all. In a
    points session a click on a marker, answered with a pair of
    coordinates, moves that marker there, whichever layer it is in, and
    says so on the status line; every other overlay stays as it is. *)
Theorem coordinate_prompt_moves_the_clicked_marker_only (k : layer_id) (i : nat)
    (input : prompt_input) (s : State) :
  let s' := final (overlayClick k i input s) in
  let before := default [] (layer_of k (layers s)) in
  raised (overlayClick k i input s) = false
  /\ editing s' = editing s /\ originals s' = originals s /\ net s' = net s
  /\ (isPointsEditing (editing s) = false \/ is_Marker (before !! i) = false -> s' = s)
  /\ (forall k', k' <> k -> layer_of k' (layers s') = layer_of k' (layers s))
  /\ (forall j, j <> i ->
        default [] (layer_of k (layers s')) !! j = before !! j)
  /\ (forall p pos d e,
        input = Coordinates p -> isPointsEditing (editing s) = true ->
        before !! i = Some (Marker pos d e) ->
        default [] (layer_of k (layers s')) !! i = Some (Marker p d e)
        /\ statusEl (page s') = "坐标已更新，记得保存点集").
Proof.
  cbv zeta. unfold overlayClick. rewrite !read_bind.
  destruct (isPointsEditing (editing s)) eqn:Ee; cbn [andb];
    [ | repeat split; intros; discriminate ].
  destruct (is_Marker _) eqn:Em; cbn [when];
    [ | repeat split; intros; try discriminate;
        match goal with H : _ !! _ = Some _ |- _ => rewrite H in Em; discriminate end ].
  assert (Hno : true = false \/ true = false -> forall x : State, x = s)
    by (intros [H | H]; discriminate).
  destruct input as [ | | | p].
  - repeat split; intros; try reflexivity; try discriminate.
  - repeat split; intros; try reflexivity; try discriminate. now apply Hno.
  - repeat split; intros; try reflexivity; try discriminate. now apply Hno.
  - unfold alter_overlay. rewrite modify_bind. cbn [final raised modify setStatus].
    destruct (layer_of k (layers s)) as [os | ] eqn:El; [ | discriminate].
    cbn [default] in *. unfold id in *.
    split; [reflexivity | ]. split; [reflexivity | ]. split; [reflexivity | ].
    split; [reflexivity | ].
    split; [intros H; now apply Hno | ].
    assert (Hk : layer_of k (set_layer k (Some (alter (setPosition p) i os)) (layers s))
                 = Some (alter (setPosition p) i os)) by (now destruct k).
    split; [ | split].
    + intros k' Hk'. cbn [layers upd_page upd_layers]. rewrite El.
      destruct k, k'; try congruence; reflexivity.
    + intros j Hj. cbn [layers upd_page upd_layers]. rewrite El, Hk.
      cbn [default]. unfold id. now apply alter_lookup_other.
    + intros p' pos d e Hp _ Hi. inversion Hp; subst p'.
      cbn [layers upd_page upd_layers]. rewrite El, Hk.
      cbn [default]. unfold id. split; [ | reflexivity].
      rewrite list_lookup_alter_eq, Hi. reflexivity.
Qed.

(** ** Leaving the history view *)



(** ** One cache key per file and school *)

Lemma string_app_nil_r (s : string) : s ++ "" = s.
Proof.
  induction s as [ | c s IH]; [reflexivity | ].
  change (String c (s ++ "") = String c s). now rewrite IH.
Qed.

Lemma string_app_assoc (a b c : string) : (a ++ b) ++ c = a ++ (b ++ c).
Proof.
  induction a as [ | x a IH]; [reflexivity | ].
  change (String x ((a ++ b) ++ c) = String x (a ++ (b ++ c))). now rewrite IH.
Qed.

Lemma form_urlencode_cons (c : ascii) (s : string) :
  form_urlencode (String c s) = form_urlencode (String c EmptyString) ++ form_urlencode s.
Proof.
  unfold form_urlencode. cbn [encode_with].
  now rewrite string_app_nil_r.
Qed.

Lemma decode_encoded_char (c : ascii) (rest : string) :
  form_urldecode_char (form_urlencode (String c EmptyString) ++ rest) = Some (c, rest).
Proof.
  destruct c as [[] [] [] [] [] [] [] []]; reflexivity.
Qed.

Lemma form_urlencode_inj_before (a b r1 r2 : string) :
  (r1 = "" \/ exists r, r1 = String "&" r) ->
  (r2 = "" \/ exists r, r2 = String "&" r) ->
  form_urlencode a ++ r1 = form_urlencode b ++ r2 -> a = b /\ r1 = r2.
Proof.
  revert b. induction a as [ | c a IH]; intros [ | d b] H1 H2 E.
  - split; [reflexivity | exact E].
  - exfalso. change (form_urlencode "" ++ r1) with r1 in E.
    rewrite form_urlencode_cons, string_app_assoc in E.
    pose proof (decode_encoded_char d (form_urlencode b ++ r2)) as D. rewrite <- E in D.
    destruct H1 as [-> | [r ->]]; [discriminate | ].
    cbn in D. inversion D; subst d. cbv in E. discriminate E.
  - exfalso. change (form_urlencode "" ++ r2) with r2 in E.
    rewrite form_urlencode_cons, string_app_assoc in E.
    pose proof (decode_encoded_char c (form_urlencode a ++ r1)) as D. rewrite E in D.
    destruct H2 as [-> | [r ->]]; [discriminate | ].
    cbn in D. inversion D; subst c. cbv in E. discriminate E.
  - rewrite (form_urlencode_cons c), (form_urlencode_cons d), !string_app_assoc in E.
    pose proof (decode_encoded_char c (form_urlencode a ++ r1)) as D1.
    pose proof (decode_encoded_char d (form_urlencode b ++ r2)) as D2.
    rewrite E, D2 in D1.
    assert (Ec : d = c) by congruence.
    assert (Er : form_urlencode a ++ r1 = form_urlencode b ++ r2) by congruence.
    subst d. destruct (IH b H1 H2 Er) as [-> ->]. split; reflexivity.
Qed.

(** X25. The key under which a history list is cached, which is also the query
    of its request, tells files and schools apart: two keys are equal only
    for the same file name and the same school, so the list of one file or
    school is never served for another. *)
Theorem history_lists_are_cached_per_file_and_school (file1 school1 file2 school2 : string) :
  history_key file1 school1 = history_key file2 school2 ->
  file1 = file2 /\ school1 = school2.
Proof.
  unfold history_key. intros E.
  assert (E' : form_urlencode file1
                 ++ (if String.eqb school1 "" then ""
                     else "&school_name=" ++ form_urlencode school1)
               = form_urlencode file2
                 ++ (if String.eqb school2 "" then ""
                     else "&school_name=" ++ form_urlencode school2)).
  { now apply (String.app_inj "file_name=") in E. }
  apply form_urlencode_inj_before in E' as [-> R].
  - split; [reflexivity | ].
    destruct (String.eqb_spec school1 ""), (String.eqb_spec school2 ""); subst;
      try reflexivity; try discriminate.
    assert (R' : form_urlencode school1 ++ "" = form_urlencode school2 ++ "")
      by (rewrite !string_app_nil_r; now apply (String.app_inj "&school_name=") in R).
    now apply form_urlencode_inj_before in R' as [-> _]; auto.
  - destruct (String.eqb school1 ""); [now left | right; eexists; reflexivity].
  - destruct (String.eqb school2 ""); [now left | right; eexists; reflexivity].
Qed.

Lemma history_lists_are_cached_per_file_and_school_witness :
  "A.geojson" = "A.geojson" /\ "North" = "North".
Proof.
  apply (history_lists_are_cached_per_file_and_school "A.geojson" "North" "A.geojson" "North").
  reflexivity.
Defined.

(** ** The history list when it cannot be had *)

(** X26. Loading the history list never raises and leaves no version selected.
    With no file open, or a file that is not a server file, the selector is
    left with its placeholder alone and nothing else happens: no request,
    no change to the cache or to the status line. When the list has to be
    fetched and the server refuses, the selector is likewise left with the
    placeholder alone and the status line says that the list could not be
    read, whatever the status code was. *)
Theorem history_list_falls_back_to_the_placeholder (force : bool) (s : State) :
  let s' := final (loadHistoryList force s) in
  raised (loadHistoryList force s) = false
  /\ value (historySelect (page s')) = ""
  /\ (name_set (currentFileName (file s)) = false
      \/ currentFileSource (file s) <> "server" ->
        historySelect (page s') = placeholder_only
        /\ net s' = net s /\ responseCache s' = responseCache s
        /\ statusEl (page s') = statusEl (page s))
  /\ (forall t h rest,
        name_set (currentFileName (file s)) = true ->
        currentFileSource (file s) = "server" ->
        force = true
        \/ truthy (cacheGet (clock (net s)) (Some (historyList_map (responseCache s)))
                     (history_key_of s)).1 = false ->
        inbox (net s) = (t, Answer h) :: rest -> ok h = false ->
        historySelect (page s') = placeholder_only
        /\ statusEl (page s') = "历史列表读取失败").
Proof.
  cbv zeta.
  split; [apply loadHistoryList_never_raises | ].
  split; [ | split].
  - unfold loadHistoryList, getFileName, getSelectedSchool. run_reads.
    destruct (_ || _); [apply setHistoryOptions_value | ].
    unfold try_catch. run_reads. unfold mbind at 1, M_bind at 1.
    destruct (fetchJsonWithCache _ _ _ _ s) as [l s1 | e s1].
    + pose proof (setHistoryOptions_value l s1) as V.
      destruct (setHistoryOptions l s1) as [[] s2 | e s2]; cbn [final] in *; [exact V | ].
      rewrite setStatus_bind. apply setHistoryOptions_value.
    + rewrite setStatus_bind. apply setHistoryOptions_value.
  - intros H.
    assert (G : negb (name_set (currentFileName (file s)))
                || negb (String.eqb (currentFileSource (file s)) "server") = true).
    { destruct H as [-> | H]; [reflexivity | ].
      apply String.eqb_neq in H. rewrite H. apply orb_true_r. }
    unfold loadHistoryList, getFileName. run_reads. rewrite G. repeat split.
  - intros t h rest Hname Hsrc Hmiss Hin Hok.
    unfold loadHistoryList, getFileName, getSelectedSchool. run_reads.
    rewrite Hname, Hsrc. cbn [negb orb String.eqb Ascii.eqb Bool.eqb].
    run_reads.
    assert (F : exists s1,
               fetchJsonWithCache
                 ("/api/history?" ++ history_key (name_text (currentFileName (file s)))
                                       (value (schoolSelect (page s))))
                 historyList
                 (history_key (name_text (currentFileName (file s)))
                    (value (schoolSelect (page s)))) force s
               = Raise ("请求失败:" ++ pretty (status h)) s1).
    { destruct force.
      - eexists. exact (forced_fetch_not_ok _ _ _ s t h rest Hin Hok).
      - destruct Hmiss as [Hf | Hmiss]; [discriminate | ].
        rewrite fetchJsonWithCache_unforced.
        destruct (cacheGet_ref_Return historyList
                    (history_key (name_text (currentFileName (file s)))
                       (value (schoolSelect (page s)))) s)
          as (s1 & E & _ & _ & _ & _ & _ & Hn).
        rewrite E. cbn [cache_of]. unfold history_key_of in Hmiss. rewrite Hmiss.
        rewrite <- Hn in Hin.
        eexists. exact (forced_fetch_not_ok _ _ _ s1 t h rest Hin Hok). }
    destruct F as (s1 & F).
    unfold try_catch. run_reads. rewrite (bind_Raise _ _ _ _ _ F).
    rewrite setStatus_bind. split; reflexivity.
Qed.

(** ** Saved polygons on reload *)

Lemma savePolygonClick_accepted (s : State) (t : Z) (h : http)
    (rest : list (Z * response)) (name : string) :
  value (schoolSelect (page s)) = "" ->
  nonempty (currentPolygonLayer (layers s)) = true ->
  currentFileName (file s) = Some name -> name <> "" ->
  currentFileSource (file s) = "server" ->
  inbox (net s) = (t, Answer h) :: rest -> ok h = true ->
  let saved := overlaysToGeoJSON (currentPolygonLayer (layers s)) "Polygon" in
  final (savePolygonClick s)
  = upd_originals (set_originalPolygon saved)
      (upd_page (set_statusEl "保存成功")
         (upd_cache
            (set_cache polygons
               (<[name := Entry t saved]> (polygons_map (responseCache s))))
            (upd_net
               (fun n => mkNetwork t rest
                           (sent n ++ [Request POST
                                         ("/api/polygons/" ++ encodeURIComponent name)
                                         (Some saved)])%list)
               (upd_page (set_statusEl "保存中...") s)))).
Proof.
  intros Hf Hl Hname Hne Hsrc Hin Hok. cbv zeta.
  cbv beta iota zeta delta
    [savePolygonClick try_catch isSchoolFilterActive getSelectedSchool read mbind M_bind
     mret M_ret].
  rewrite Hf. cbn [String.eqb negb]. rewrite Hl. cbn [negb].
  rewrite (saveGeoJSON_accepted "polygons" _ s t h rest name Hname Hne Hsrc Hin Hok).
  cbn [String.eqb Ascii.eqb Bool.eqb modify final cache_of].
  now destruct (currentPolygonLayer (layers s)).
Qed.

(** X27. After a polygon save that the server accepted, selecting the same
    file again within five minutes of the answer draws the polygons from
    the cached copy of what was saved, whatever the server would answer:
    the polygon layer then holds the polygons that were on the map at the
    save, in their order, each with its path (as a list of rings) and its
    properties. Markers and polylines that were in the polygon layer were
    not saved and are not drawn. *)
Theorem saved_polygons_come_back_on_reload (s : State) (t later : Z) (h : http)
    (rest : list (Z * response)) (name : string) :
  value (schoolSelect (page s)) = "" ->
  nonempty (currentPolygonLayer (layers s)) = true ->
  currentFileName (file s) = Some name -> name <> "" ->
  currentFileSource (file s) = "server" ->
  value (fileSelect (page s)) = name ->
  inbox (net s) = (t, Answer h) :: rest -> ok h = true ->
  later - t <= CACHE_TTL_MS ->
  let saved := final (savePolygonClick s) in
  let reloaded := final (loadSelectedFile (at_clock later saved)) in
  currentPolygonLayer (layers reloaded)
  = Some (map as_saved
            (List.filter (of_class "Polygon")
               (default [] (currentPolygonLayer (layers s))))).
Proof.
  intros Hf Hl Hname Hne Hsrc Hsel Hin Hok Hage. cbv zeta.
  rewrite (savePolygonClick_accepted s t h rest name Hf Hl Hname Hne Hsrc Hin Hok).
  destruct (currentPolygonLayer (layers s)) as [os | ] eqn:El; [ | discriminate].
  cbn [default].
  apply (loadSelectedFile_polygons _ name (overlaysToGeoJSON (Some os) "Polygon")
           (concat (map (overlayToFeature "Polygon") os))).
  - exact Hsel.
  - exact Hne.
  - unfold reload_yields, at_clock.
    cbn [net upd_net upd_originals upd_page upd_cache clock responseCache polygons_map
         set_cache].
    rewrite (cacheGet_fresh later _ name (Entry t (overlaysToGeoJSON (Some os) "Polygon")));
      [reflexivity | apply lookup_insert_eq | exact Hage].
  - reflexivity.
  - reflexivity.
  - apply written_layer_is_drawn.
Qed.

Lemma saved_polygons_come_back_on_reload_witness :
  let s := upd_net (fun n => mkNetwork 80 [(81, answer (JObj [("ok", JBool true)]))]
                               (sent n))
             (run open_two_schools (initial blank_page)) in
  nonempty (currentPolygonLayer
              (layers (final (loadSelectedFile (at_clock 90 (final (savePolygonClick s)))))))
  = true.
Proof.
  cbv zeta.
  match goal with |- context [savePolygonClick ?x] => set (s := x) end.
  assert (H1 : value (schoolSelect (page s)) = "") by (vm_compute; reflexivity).
  assert (H2 : currentFileName (file s) = Some "A.geojson") by (vm_compute; reflexivity).
  assert (H3 : "A.geojson" <> "") by discriminate.
  assert (H4 : currentFileSource (file s) = "server") by (vm_compute; reflexivity).
  assert (H5 : inbox (net s)
               = (81, Answer (Http 200 "" (Ok (JObj [("ok", JBool true)])))) :: [])
    by (vm_compute; reflexivity).
  assert (H6 : ok (Http 200 "" (Ok (JObj [("ok", JBool true)]))) = true) by reflexivity.
  assert (H7 : nonempty (currentPolygonLayer (layers s)) = true)
    by (vm_compute; reflexivity).
  assert (H8 : value (fileSelect (page s)) = "A.geojson") by (vm_compute; reflexivity).
  assert (H9 : 90 - 81 <= CACHE_TTL_MS) by (vm_compute; discriminate).
  rewrite (saved_polygons_come_back_on_reload s 81 90 _ [] "A.geojson"
             H1 H7 H2 H3 H4 H8 H5 H6 H9).
  vm_compute. reflexivity.
Defined.

(** ** Polygon editors are open in a polygon session only *)

Lemma editors_frame {A : Type} (m : M A) :
  keeps editing m -> preserves editors_only_in_session m.
Proof. intros K s H. unfold editors_only_in_session in *. now rewrite (K s). Qed.

Lemma closing_editors :
  preserves editors_only_in_session closePolygonEditors
  /\ preserves editors_only_in_session disableAllEditing
  /\ preserves editors_only_in_session togglePolygonEditing
  /\ preserves editors_only_in_session togglePointsEditing.
Proof.
  repeat apply conj; intros s H.
  - intros _. reflexivity.
  - unfold editors_only_in_session. rewrite ending_sessions_editing. intros _. reflexivity.
  - cbv beta iota zeta delta
      [togglePolygonEditing isSchoolFilterActive getSelectedSchool read mbind M_bind
       mret M_ret setStatus modify closePolygonEditors].
    destruct (negb (nonempty _)); cbv beta iota; [exact H | ].
    destruct (negb (String.eqb _ _)); cbv beta iota; [exact H | ].
    destruct (isPolygonEditing (editing s)); cbv beta iota.
    + intros _. reflexivity.
    + intros E. discriminate E.
  - cbv beta iota zeta delta
      [togglePointsEditing isSchoolFilterActive getSelectedSchool read mbind M_bind
       mret M_ret setStatus modify].
    destruct (negb (nonempty _)); cbv beta iota; [exact H | ].
    destruct (negb (String.eqb _ _)); cbv beta iota; exact H.
Qed.

#[export] Hint Extern 1 (preserves editors_only_in_session closePolygonEditors) =>
  exact (proj1 closing_editors) : frame.
#[export] Hint Extern 1 (preserves editors_only_in_session disableAllEditing) =>
  exact (proj1 (proj2 closing_editors)) : frame.

Ltac editors_step :=
  first
    [ invariant_step
    | apply editors_frame; solve [frame] ].

Ltac editors := repeat editors_step.

Lemma loadSelectedFile_editors : preserves editors_only_in_session loadSelectedFile.
Proof. unfold loadSelectedFile. unfold_filter. editors. Qed.

#[export] Hint Extern 1 (preserves editors_only_in_session loadSelectedFile) =>
  exact loadSelectedFile_editors : frame.

Lemma handlers_keep_editors (ev : event) :
  preserves editors_only_in_session (handler ev).
Proof.
  destruct ev; cbn [handler];
    match goal with
    | |- preserves _ togglePolygonEditing => exact (proj1 (proj2 (proj2 closing_editors)))
    | |- preserves _ togglePointsEditing => exact (proj2 (proj2 (proj2 closing_editors)))
    | |- _ =>
        unfold loadIndex, showPointsChange, showItemsChange, savePolygonClick,
          savePointsClick, saveDbClick, saveCurrentToDatabase, saveGeoJSON, resetEdits,
          schoolSelectChange, historySelectChange, loadHistoryById,
          restoreHistoryAsCurrent, fileInputLoad, applyHistoryData, overlayClick,
          markerDrag, polygonEdit, alter_overlay;
        unfold_filter; editors
    end.
Qed.

(** X28. In every reachable state in which no polygon session is open, no
    polygon editor is open either: an editor, and with it the means to
    reshape a polygon, exists only between the toggle that opens a polygon
    session and whatever closes it. *)
Theorem editors_are_open_in_a_polygon_session_only (s : State) :
  reachable s -> editors_only_in_session s.
Proof.
  induction 1 as [ | st s _ IH].
  - intros _. reflexivity.
  - unfold dispatch. apply handlers_keep_editors. exact IH.
Qed.

Lemma editors_are_open_in_a_polygon_session_only_witness :
  editors_only_in_session (run edit_and_save (initial blank_page)).
Proof.
  apply editors_are_open_in_a_polygon_session_only.
  apply reachable_run. constructor.
Defined.
